(** * Expense tracker: budget-period accounting, alerts and the receipt relay

    A shallow embedding of the mobile client's receipt screen
    ([app/(tabs)/ocr.tsx]: [getCurrentPeriod], [updateBudgetSpending],
    [checkBudgetAlerts], [checkOverspendingAlert], [saveExpense]) and of the
    backend relay ([POST /extract-text], [analyzeFinancialDocument]),
    followed by the home screen ([app/(tabs)/index.tsx]: [saveBudget],
    [deleteBudget], [saveOverspendingLimit], [loadMonthlySpending],
    [getProgressColor]), the receipt upload of [ocr.tsx] ([pickDocument],
    [processFile]), [createUserProfile] of [auth.tsx] and [loadUserStats]
    of [profile.tsx].

    Conventions of the embedding:
    - a JavaScript [number] holding a money amount is an IEEE-754 binary64
      value, Rocq's primitive [float];
    - a [Date] is its time value, the number of milliseconds since the epoch,
      an integer [Z]; the platform's calendar ([getFullYear], [getMonth],
      [getDay], the local-time constructor, [toISOString]) is a record of
      functions, [DateApi], with the UTC calendar as a concrete instance.
      The day and week arithmetic of [getCurrentPeriod] runs on integers far
      below 2^53, where binary64 division followed by [Math.floor] or
      [Math.ceil] agrees with integer division, so it is written on [Z];
    - the Firestore collections are finite maps from document ids to
      documents ([budgets], [users]) and a list of the stored documents,
      each with the id generated for it ([expenses]). The result of a query
      comes in Firestore's order, not in the order of the writes: by
      document id for a query with equality filters only, by [createdAt]
      and then by document id for the month's range query;
    - [snapshot.exists] is a method in the pinned version of the Firestore
      library, so the two tests written [!userDoc.exists] are never true;
    - remote writes take their outcome from the environment (whether the
      remote accepts the write to a budget document, whether adding the
      expense fails); reads succeed. A Firestore write batch is atomic, as
      the library documents it. Every remote call, alert and console line
      is appended to a trace;
    - alerts are kept as structured values, not as formatted text;
    - the two checks started by the timer run one after the other. *)

From Stdlib Require Import ZArith Lia List String Ascii Bool Floats Sorted.
From Stdlib Require Import DecimalString DecimalZ DecimalPos DecimalFacts.
From stdpp Require Import base option list gmap strings fin_maps.

Local Open Scope Z_scope.

(** ** JavaScript primitives used by the sources *)

Module Js.

(** [ToBoolean] on a number: [NaN], [+0] and [-0] are falsy. *)
Definition truthy (x : float) : bool := negb (is_nan x || is_zero x).

(** [x || d] on numbers. *)
Definition or_else (x d : float) : float := if truthy x then x else d.

(** The double nearest to nine tenths, which is what the literal [0.9] denotes. *)
Definition nineTenths : float := 0x1.ccccccccccccdp-1%float.

(** [n.toString()] for an integer-valued number. *)
Definition toString (z : Z) : string := NilZero.string_of_int (Z.to_int z).

Fixpoint repeat_char (c : ascii) (n : nat) : string :=
  match n with
  | O => EmptyString
  | S n' => String c (repeat_char c n')
  end.

(** [s.padStart(targetLength, c)] with a one-character filler. *)
Definition padStart (targetLength : nat) (c : ascii) (s : string) : string :=
  repeat_char c (targetLength - String.length s) +:+ s.

(** [Math.floor(a / b)] and [Math.ceil(a / b)] on integers, [b > 0]. *)
Definition floor_div (a b : Z) : Z := a / b.
Definition ceil_div (a b : Z) : Z := - ((- a) / b).

(** [s.split(c)[0]]: the part of [s] before the first [c]. *)
Fixpoint before (c : ascii) (s : string) : string :=
  match s with
  | EmptyString => EmptyString
  | String a s' => if Ascii.eqb a c then EmptyString else String a (before c s')
  end.

(** Text typed by the user, as UTF-16 code units. *)
Definition ustring := list Z.

(** ECMAScript [WhiteSpace] and [LineTerminator] code points, the
    characters [String.prototype.trim] strips. *)
Definition isWhiteSpace (c : Z) : bool :=
  (c =? 9) || (c =? 10) || (c =? 11) || (c =? 12) || (c =? 13) || (c =? 32)
  || (c =? 160) || (c =? 5760) || ((8192 <=? c) && (c <=? 8202))
  || (c =? 8232) || (c =? 8233) || (c =? 8239) || (c =? 8287)
  || (c =? 12288) || (c =? 65279).

Fixpoint trimStart (s : ustring) : ustring :=
  match s with
  | [] => []
  | c :: s' => if isWhiteSpace c then trimStart s' else s
  end.

Definition trimEnd (s : ustring) : ustring := rev (trimStart (rev s)).

Definition trim (s : ustring) : ustring := trimEnd (trimStart s).

(** [!s] on a string. *)
Definition isEmpty (s : ustring) : bool :=
  match s with [] => true | _ => false end.

End Js.

(** ** The platform's [Date] *)

Record DateApi := {
  getFullYear : Z -> Z;
  getMonth : Z -> Z;
  getDay : Z -> Z;
  (** [new Date(year, month, day, hours, minutes, seconds).getTime()] *)
  makeDate : Z -> Z -> Z -> Z -> Z -> Z -> Z;
  toISOString : Z -> string
}.

(** The calendar of a device whose time zone is UTC. *)
Module UtcDate.

Definition msPerDay : Z := 86400000.

(** Days since 1970-01-01 of the civil date [y]-[m]-[d], [m] in 1..12. *)
Definition days_from_civil (y m d : Z) : Z :=
  let y := if m <=? 2 then y - 1 else y in
  let era := y / 400 in
  let yoe := y - era * 400 in
  let doy := (153 * (if 2 <? m then m - 3 else m + 9) + 2) / 5 + d - 1 in
  let doe := yoe * 365 + yoe / 4 - yoe / 100 + doy in
  era * 146097 + doe - 719468.

(** The civil date (year, month 1..12, day) of a day number. *)
Definition civil_from_days (z : Z) : Z * Z * Z :=
  let z := z + 719468 in
  let era := z / 146097 in
  let doe := z - era * 146097 in
  let yoe := (doe - doe / 1460 + doe / 36524 - doe / 146096) / 365 in
  let y := yoe + era * 400 in
  let doy := doe - (365 * yoe + yoe / 4 - yoe / 100) in
  let mp := (5 * doy + 2) / 153 in
  let d := doy - (153 * mp + 2) / 5 + 1 in
  let m := if mp <? 10 then mp + 3 else mp - 9 in
  (if m <=? 2 then y + 1 else y, m, d).

Definition fullYear (t : Z) : Z := fst (fst (civil_from_days (t / msPerDay))).
Definition month (t : Z) : Z := snd (fst (civil_from_days (t / msPerDay))) - 1.
Definition dayOfMonth (t : Z) : Z := snd (civil_from_days (t / msPerDay)).
Definition weekDay (t : Z) : Z := (t / msPerDay + 4) mod 7.

(** The [Date] constructor: years 0..99 mean 1900..1999, and month and day
    overflow into the neighbouring months. *)
Definition make (y m d h mi s : Z) : Z :=
  let y := if (0 <=? y) && (y <=? 99) then 1900 + y else y in
  let y' := y + m / 12 in
  let m' := m mod 12 in
  (((days_from_civil y' (m' + 1) 1 + d - 1) * 24 + h) * 60 + mi) * 60000 + s * 1000.

Definition pad (n : nat) (z : Z) : string := Js.padStart n "0"%char (Js.toString z).

Definition isoYear (y : Z) : string :=
  if (0 <=? y) && (y <=? 9999) then pad 4 y
  else (if y <? 0 then "-" else "+") +:+ pad 6 (Z.abs y).

Definition iso (t : Z) : string :=
  let ms := t mod msPerDay in
  isoYear (fullYear t) +:+ "-" +:+ pad 2 (month t + 1) +:+ "-" +:+ pad 2 (dayOfMonth t)
  +:+ "T" +:+ pad 2 (ms / 3600000) +:+ ":" +:+ pad 2 (ms / 60000 mod 60)
  +:+ ":" +:+ pad 2 (ms / 1000 mod 60) +:+ "." +:+ pad 3 (ms mod 1000) +:+ "Z".

Definition utc : DateApi :=
  {| getFullYear := fullYear; getMonth := month; getDay := weekDay;
     makeDate := make; toISOString := iso |}.

End UtcDate.

(** ** Documents of the managed store *)

Module Budget.
Record t := mk {
  userId : string;
  category : string;
  budgetType : string;
  budgetAmount : float;
  currentPeriod : string;
  currentSpent : float;
  isActive : bool;
  updatedAt : Z
}.
End Budget.

Module Location.
Record t := mk {
  latitude : float;
  longitude : float;
  address : string;
  city : string
}.
End Location.

Module Expense.
(** A stored expense: the document and, first, the id Firestore gave it. *)
Record t := mk {
  id : string;
  userId : string;
  amount : float;
  merchantName : Js.ustring;
  referenceId : Js.ustring;
  transactionDate : string;
  description : Js.ustring;
  category : string;
  location : option Location.t;
  extractedText : string;
  createdAt : Z;
  updatedAt : Z
}.
End Expense.

Module UserDoc.
(** [overspendingAlerts] is [preferences?.notifications?.overspendingAlerts]:
    [None] when any link of the chain is missing. *)
Record t := mk { overspendingAlerts : option float }.
End UserDoc.

Record Firestore := {
  budgets : gmap string Budget.t;
  expenses : list Expense.t;
  users : gmap string UserDoc.t
}.

(** ** The order of query results and the reading of snapshots *)

Module Query.

(** Sorting by insertion: the result of a query comes in an order of its
    own, whatever the order the documents were written in. *)
Fixpoint insertBy {A : Type} (le : A -> A -> bool) (x : A) (l : list A) : list A :=
  match l with
  | [] => [x]
  | y :: l' => if le x y then x :: l else y :: insertBy le x l'
  end.

Definition sortBy {A : Type} (le : A -> A -> bool) (l : list A) : list A :=
  fold_right (insertBy le) [] l.

(** A query with equality filters only returns its documents by document
    id, and ids compare as byte strings. *)
Definition byId {A : Type} (d1 d2 : string * A) : bool := String.leb (fst d1) (fst d2).

Definition byExpenseId (e1 e2 : Expense.t) : bool :=
  String.leb (Expense.id e1) (Expense.id e2).

(** A query with a range filter on [createdAt] returns its documents by
    [createdAt], then by document id. *)
Definition byCreatedAt (e1 e2 : Expense.t) : bool :=
  (Expense.createdAt e1 <? Expense.createdAt e2)
  || ((Expense.createdAt e1 =? Expense.createdAt e2) && byExpenseId e1 e2).

(** [!snapshot.exists], as [ocr.tsx] and [auth.tsx] write it. In the
    @react-native-firebase/firestore 22.x the project pins, [exists] is a
    method of the snapshot ([index.tsx] calls [doc.exists()]), and the
    negation of a function is false whether or not the document is there. *)
Definition notExistsProperty {A : Type} (snapshot : option A) : bool := false.

End Query.

(** ** The receipt screen ([ocr.tsx]) *)

Module OCRScreen.

(** The fields a [batch.update] sets on a budget document; [updatedAt] is
    always the server timestamp. *)
Record BudgetUpdate := {
  newPeriod : option string;
  newSpent : float
}.

Inductive Alert :=
| AlertError (message : string)
| AlertBudgetExceeded (budgetType category : string) (spentAmount budgetAmount : float)
| AlertBudgetWarning (percentage : float) (budgetType category : string)
    (spentAmount budgetAmount : float)
| AlertOverspending (totalMonthlySpent overspendingLimit : float)
| AlertSuccess (amount : float).

Inductive Remote :=
| AddExpense (doc : Expense.t)
| QueryBudgets (uid category : string)
| CommitBatch (batch : list (string * BudgetUpdate))
| GetUser (uid : string)
| QueryExpenses (uid : string) (startOfMonth endOfMonth : Z).

Inductive Event :=
| EvRemote (call : Remote)
| EvAlert (a : Alert)
| EvConsoleLog (line : string)
| EvConsoleError (line : string)
| EvSetSaving (saving : bool).

Record World := {
  db : Firestore;
  trace : list Event
}.

Definition emit (e : Event) (w : World) : World :=
  {| db := db w; trace := trace w ++ [e] |}.

(** What the screen's calls see of the outside. *)
Record Env := {
  date : DateApi;
  currentUser : option string;       (* auth().currentUser?.uid *)
  now : Z;                           (* new Date() *)
  serverTime : Z;                    (* FieldValue.serverTimestamp() *)
  addError : option string;          (* collection('expenses').add rejects *)
  writeOk : string -> bool;          (* the remote accepts a write to this budget *)
  newExpenseId : string              (* the id collection('expenses').add generates *)
}.

(** The form state of the screen. *)
Record ExpenseData := {
  amount : float;
  merchantName : Js.ustring;
  referenceId : Js.ustring;
  transactionDate : string;
  description : Js.ustring;
  category : string
}.

Record Screen := {
  expenseData : ExpenseData;
  location : option Location.t;
  extractedText : string
}.

Definition getCurrentPeriod (api : DateApi) (type : string) (now : Z) : string :=
  if String.eqb type "daily" then
    Js.before "T"%char (toISOString api now)
  else if String.eqb type "weekly" then
    let startOfYear := makeDate api (getFullYear api now) 0 1 0 0 0 in
    let days := Js.floor_div (now - startOfYear) (24 * 60 * 60 * 1000) in
    let weekNumber := Js.ceil_div (days + getDay api startOfYear + 1) 7 in
    Js.toString (getFullYear api now) +:+ "-W"
      +:+ Js.padStart 2 "0"%char (Js.toString weekNumber)
  else if String.eqb type "monthly" then
    Js.toString (getFullYear api now) +:+ "-"
      +:+ Js.padStart 2 "0"%char (Js.toString (getMonth api now + 1))
  else EmptyString.

(** The query [where userId == uid, category == c, isActive == true]. *)
Definition activeBudget (uid category : string) (b : Budget.t) : bool :=
  String.eqb (Budget.userId b) uid && String.eqb (Budget.category b) category
  && Bool.eqb (Budget.isActive b) true.

Definition queryBudgets (uid category : string) (fs : Firestore)
  : list (string * Budget.t) :=
  Query.sortBy Query.byId
    (List.filter (fun d => activeBudget uid category (snd d)) (map_to_list (budgets fs))).

(** The body of the [forEach] of [updateBudgetSpending]. *)
Definition spendingUpdate (env : Env) (amount : float) (budget : Budget.t)
  : BudgetUpdate :=
  let currentPeriod := getCurrentPeriod (date env) (Budget.budgetType budget) (now env) in
  if negb (String.eqb (Budget.currentPeriod budget) currentPeriod) then
    {| newPeriod := Some currentPeriod; newSpent := amount |}
  else
    {| newPeriod := None;
       newSpent := (Js.or_else (Budget.currentSpent budget) 0 + amount)%float |}.

Definition applyUpdate (ts : Z) (u : BudgetUpdate) (b : Budget.t) : Budget.t :=
  Budget.mk (Budget.userId b) (Budget.category b) (Budget.budgetType b)
    (Budget.budgetAmount b)
    (match newPeriod u with Some p => p | None => Budget.currentPeriod b end)
    (newSpent u) (Budget.isActive b) ts.

Definition exists_doc (m : gmap string Budget.t) (id : string) : bool :=
  match m !! id with Some _ => true | None => false end.

(** The writes of a batch, applied in the order they were added. *)
Definition applyAll {U : Type} (g : U -> Budget.t -> Budget.t)
    (ops : list (string * U)) (m : gmap string Budget.t) : gmap string Budget.t :=
  fold_left (fun m op => alter (g (snd op)) (fst op) m) ops m.

(** [batch.commit()]: a write batch is atomic, it is applied whole or it
    fails whole; an update of a missing document fails. *)
Definition commit (env : Env) (batch : list (string * BudgetUpdate))
    (m : gmap string Budget.t) : option (gmap string Budget.t) :=
  if forallb (fun op => writeOk env (fst op) && exists_doc m (fst op)) batch then
    Some (applyAll (applyUpdate (serverTime env)) batch m)
  else None.

(** The batch [updateBudgetSpending] fills in its [forEach]. *)
Definition batchFor (env : Env) (uid category : string) (amount : float) (fs : Firestore)
  : list (string * BudgetUpdate) :=
  map (fun d => (fst d, spendingUpdate env amount (snd d))) (queryBudgets uid category fs).

(** The remote accepts the write to every budget the batch touches: the
    active budgets of the user on the category. *)
Definition batchAccepted (env : Env) (uid category : string) (fs : Firestore) : Prop :=
  forall id b, budgets fs !! id = Some b -> activeBudget uid category b = true ->
               writeOk env id = true.

Definition setBudgets (bs : gmap string Budget.t) (w : World) : World :=
  {| db := {| budgets := bs; expenses := expenses (db w); users := users (db w) |};
     trace := trace w |}.

Definition updateBudgetSpending (env : Env) (category : string) (amount : float)
    (w : World) : World :=
  match currentUser env with
  | None => w
  | Some uid =>
    let w := emit (EvRemote (QueryBudgets uid category)) w in
    let batch := batchFor env uid category amount (db w) in
    let w := emit (EvRemote (CommitBatch batch)) w in
    match commit env batch (budgets (db w)) with
    | Some bs => emit (EvConsoleLog "Budget spending updated successfully") (setBudgets bs w)
    | None => emit (EvConsoleError "Error updating budget spending:") w
    end
  end.

(** The body of the [forEach] of [checkBudgetAlerts]. *)
Definition budgetAlert (env : Env) (category : string) (budget : Budget.t)
  : option Alert :=
  let currentPeriod := getCurrentPeriod (date env) (Budget.budgetType budget) (now env) in
  if String.eqb (Budget.currentPeriod budget) currentPeriod then
    let spentAmount := Js.or_else (Budget.currentSpent budget) 0 in
    let budgetAmount := Js.or_else (Budget.budgetAmount budget) 0 in
    let percentage := (spentAmount / budgetAmount * 100)%float in
    if (100 <=? percentage)%float then
      Some (AlertBudgetExceeded (Budget.budgetType budget) category spentAmount budgetAmount)
    else if (90 <=? percentage)%float then
      Some (AlertBudgetWarning percentage (Budget.budgetType budget) category
              spentAmount budgetAmount)
    else None
  else None.

Definition emitAlerts (alerts : list Alert) (w : World) : World :=
  fold_left (fun w a => emit (EvAlert a) w) alerts w.

Definition checkBudgetAlerts (env : Env) (category : string) (amount : float)
    (w : World) : World :=
  match currentUser env with
  | None => w
  | Some uid =>
    let w := emit (EvRemote (QueryBudgets uid category)) w in
    emitAlerts
      (omap (fun d => budgetAlert env category (snd d)) (queryBudgets uid category (db w)))
      w
  end.

(** The query [where userId == uid, startOfMonth <= createdAt <= endOfMonth]. *)
Definition queryExpenses (uid : string) (startOfMonth endOfMonth : Z) (fs : Firestore)
  : list Expense.t :=
  Query.sortBy Query.byCreatedAt
    (List.filter
       (fun e => String.eqb (Expense.userId e) uid
                 && (startOfMonth <=? Expense.createdAt e)
                 && (Expense.createdAt e <=? endOfMonth))
       (expenses fs)).

Definition overspendingLimit (u : UserDoc.t) : float :=
  match UserDoc.overspendingAlerts u with
  | Some x => Js.or_else x 1000
  | None => 1000%float
  end.

(** The running total of [checkOverspendingAlert]: the amounts of the
    month's documents, then the amount passed in. *)
Definition totalMonthlySpent (docs : list Expense.t) (amount : float) : float :=
  (fold_left (fun total e => total + Js.or_else (Expense.amount e) 0) docs 0 + amount)%float.

Definition checkOverspendingAlert (env : Env) (amount : float) (w : World) : World :=
  match currentUser env with
  | None => w
  | Some uid =>
    let w := emit (EvRemote (GetUser uid)) w in
    let userDoc := users (db w) !! uid in
    if Query.notExistsProperty userDoc then w
    else
      (* [userData?.preferences?.notifications?.overspendingAlerts || 1000];
         [userData] is undefined when the document is missing *)
      let limit :=
        match userDoc with
        | Some userData => overspendingLimit userData
        | None => 1000%float
        end in
      let api := date env in
      let startOfMonth :=
        makeDate api (getFullYear api (now env)) (getMonth api (now env)) 1 0 0 0 in
      let endOfMonth :=
        makeDate api (getFullYear api (now env)) (getMonth api (now env) + 1) 0 23 59 59 in
      let w := emit (EvRemote (QueryExpenses uid startOfMonth endOfMonth)) w in
      let total :=
        totalMonthlySpent (queryExpenses uid startOfMonth endOfMonth (db w)) amount in
      if (limit <=? total)%float then emit (EvAlert (AlertOverspending total limit)) w
      else w
  end.

Definition expenseDoc (env : Env) (uid : string) (s : Screen) : Expense.t :=
  let d := expenseData s in
  Expense.mk (newExpenseId env) uid (amount d) (Js.trim (merchantName d))
    (Js.trim (referenceId d))
    (transactionDate d) (Js.trim (description d)) (category d) (location s)
    (extractedText s) (serverTime env) (serverTime env).

Definition addExpense (doc : Expense.t) (w : World) : World :=
  {| db := {| budgets := budgets (db w); expenses := expenses (db w) ++ [doc];
              users := users (db w) |};
     trace := trace w |}.

(** The callback handed to [setTimeout(..., 1000)]: it keeps the category
    and the amount of the expense just saved. *)
Record Timer := { timerCategory : string; timerAmount : float }.

Definition saveExpense (env : Env) (s : Screen) (w : World) : World * list Timer :=
  let d := expenseData s in
  match currentUser env with
  | None => (emit (EvAlert (AlertError "You must be logged in to save expenses")) w, [])
  | Some uid =>
    if negb (Js.truthy (amount d)) || (amount d <=? 0)%float then
      (emit (EvAlert (AlertError "Please enter a valid amount")) w, [])
    else if Js.isEmpty (Js.trim (merchantName d)) then
      (emit (EvAlert (AlertError "Please enter the merchant name")) w, [])
    else
      let w := emit (EvSetSaving true) w in
      let doc := expenseDoc env uid s in
      let w := emit (EvRemote (AddExpense doc)) w in
      match addError env with
      | Some message =>
        let w := emit (EvConsoleError "Error saving expense:") w in
        let w := emit (EvAlert (AlertError ("Failed to save expense: " +:+ message))) w in
        (emit (EvSetSaving false) w, [])
      | None =>
        let w := addExpense doc w in
        let w := updateBudgetSpending env (category d) (amount d) w in
        let w := emit (EvAlert (AlertSuccess (amount d))) w in
        (emit (EvSetSaving false) w,
         [{| timerCategory := category d; timerAmount := amount d |}])
      end
  end.

(** The timer fires: both checks run, with the clock of that later moment. *)
Definition runTimer (env : Env) (t : Timer) (w : World) : World :=
  checkOverspendingAlert env (timerAmount t)
    (checkBudgetAlerts env (timerCategory t) (timerAmount t) w).

(** The alerts shown so far, in order. *)
Definition alertsOf (events : list Event) : list Alert :=
  omap (fun e => match e with EvAlert a => Some a | _ => None end) events.

(** The two budget signals, read off an alert. *)
Inductive Signal := Exceeded | Warning.

Definition signalOf (a : option Alert) : option Signal :=
  match a with
  | Some (AlertBudgetExceeded _ _ _ _) => Some Exceeded
  | Some (AlertBudgetWarning _ _ _ _ _) => Some Warning
  | _ => None
  end.

(** The ratio the budget check computes: accumulator over budget amount,
    each as the check reads it (a stored falsy number reads as 0). *)
Definition ratio (budget : Budget.t) : float :=
  (Js.or_else (Budget.currentSpent budget) 0 / Js.or_else (Budget.budgetAmount budget) 0)%float.

(** Saving an expense and letting its timer fire under [later]. *)
Definition saveExpenseAndSettle (env later : Env) (s : Screen) (w : World) : World :=
  let '(w, timers) := saveExpense env s w in
  fold_left (fun w t => runTimer later t w) timers w.

End OCRScreen.

(** ** The backend relay ([POST /extract-text]) *)

Module Relay.

#[local] Unset Elimination Schemes.
Inductive Json :=
| JNull
| JBool (b : bool)
| JNumber (x : float)
| JString (s : string)
| JArray (items : list Json)
| JObject (fields : list (string * Json)).
#[local] Set Elimination Schemes.

(** The object both [catch] branches of [analyzeFinancialDocument] return. *)
Definition nullAnalysis : Json :=
  JObject [("referenceId", JNull); ("date", JNull); ("time", JNull);
           ("beneficiaryName", JNull); ("amount", JNull)].

Record File := {
  mimetype : string;
  originalname : string;
  path : string;
  size : Z
}.

Record Request := { file : option File }.

(** How [Promise.race([extractionPromise, timeoutPromise])] settles. *)
Inductive Extraction :=
| Extracted (text : string)
| ExtractionFailed (message : string)
| ExtractionTimeout.

(** [completion.choices[0]?.message?.content] *)
Inductive Content :=
| ContentUndefined
| ContentNull
| ContentText (s : string).

Inductive Completion :=
| Completed (content : Content)
| CompletionFailed (message : string).

Record Env := {
  jsonParse : string -> option Json;   (* JSON.parse; None when it throws *)
  extraction : Extraction;
  completion : Completion
}.

Inductive Body :=
| Success (filename extractedText : string) (analysis : Json) (message : string)
| Failure (error : string) (details : option string).

Record Response := { status : Z; body : Body }.

Inductive Event :=
| EvExtractText (path : string)
| EvCompletion (text : string)
| EvUnlink (path : string)
| EvConsoleError (line : string).

(** The argument of [JSON.parse] after its conversion to a string. *)
Definition contentText (c : Content) : string :=
  match c with
  | ContentUndefined => "undefined"
  | ContentNull => "null"
  | ContentText s => s
  end.

Definition analyzeFinancialDocument (env : Env) (text : string) : Json * list Event :=
  match completion env with
  | CompletionFailed _ =>
    (nullAnalysis, [EvCompletion text; EvConsoleError "Error analyzing document with Groq:"])
  | Completed response =>
    match jsonParse env (contentText response) with
    | Some analysis => (analysis, [EvCompletion text])
    | None =>
      (nullAnalysis,
       [EvCompletion text; EvConsoleError "Failed to parse Groq response as JSON:"])
    end
  end.

(** What [upload.single('file')] hands on: multer runs [fileFilter] on the
    part's headers, then enforces [limits.fileSize] while storing it; the
    limit is hit as soon as the bytes received reach it, so a file of
    exactly [fileSize] bytes is refused as well. *)
Inductive Upload :=
| NoFile
| Stored (f : File)
| FilterError (message : string)
| LimitFileSize.

Definition fileSizeLimit : Z := 10 * 1024 * 1024.

Definition upload_single (req : Request) : Upload :=
  match file req with
  | None => NoFile
  | Some f =>
    if String.eqb (mimetype f) "application/pdf" then
      if fileSizeLimit <=? size f then LimitFileSize else Stored f
    else FilterError "Only PDF files are allowed!"
  end.

(** The route handler, entered only when the upload went through. *)
Definition extractTextHandler (env : Env) (f : option File) : Response * list Event :=
  match f with
  | None => ({| status := 400; body := Failure "No PDF file uploaded" None |}, [])
  | Some f =>
    match extraction env with
    | Extracted extractedText =>
      let '(analysisResult, events) := analyzeFinancialDocument env extractedText in
      ({| status := 200;
          body := Success (originalname f) extractedText analysisResult
                    "Text extracted and analyzed successfully" |},
       [EvExtractText (path f)] ++ events ++ [EvUnlink (path f)])
    | ExtractionFailed message =>
      ({| status := 500; body := Failure "Failed to extract text from PDF" (Some message) |},
       [EvExtractText (path f); EvConsoleError "Error extracting text:"; EvUnlink (path f)])
    | ExtractionTimeout =>
      ({| status := 500;
          body := Failure "Failed to extract text from PDF" (Some "Text extraction timeout") |},
       [EvExtractText (path f); EvConsoleError "Error extracting text:"; EvUnlink (path f)])
    end
  end.

(** [app.post('/extract-text', upload.single('file'), handler)] followed by
    the error-handling middleware. *)
Definition postExtractText (env : Env) (req : Request) : Response * list Event :=
  match upload_single req with
  | NoFile => extractTextHandler env None
  | Stored f => extractTextHandler env (Some f)
  | LimitFileSize =>
    ({| status := 400; body := Failure "File too large. Maximum size is 10MB." None |}, [])
  | FilterError message => ({| status := 500; body := Failure message None |}, [])
  end.

Definition isExtraction (e : Event) : bool :=
  match e with EvExtractText _ => true | _ => false end.

Definition succeeded (r : Response) : bool :=
  match body r with Success _ _ _ _ => (status r =? 200) | Failure _ _ => false end.

Definition analysisOf (r : Response) : option Json :=
  match body r with Success _ _ a _ => Some a | Failure _ _ => None end.

End Relay.

(** ** Binary64 constants and the last step of rounding *)

Module Binary64.

(** The thresholds of the alert check, as specified floats. *)
Definition c100 : spec_float := S754_finite false 7036874417766400 (-46).
Definition c90 : spec_float := S754_finite false 6333186975989760 (-46).
Definition c1 : spec_float := S754_finite false 4503599627370496 (-52).
Definition c09 : spec_float := S754_finite false 8106479329266893 (-53).

(** What [binary_round_aux] does with a rounded mantissa [m1] at exponent
    [e']: one more shift if the rounding carried, then the overflow test. *)
Definition finish (sx : bool) (m1 e' : Z) : spec_float :=
  let '(mrs'', e'') := shr_fexp prec emax m1 e' loc_Exact in
  match shr_m mrs'' with
  | Z0 => S754_zero sx
  | Zpos m => if e'' <=? emax - prec then S754_finite sx m e'' else S754_infinity sx
  | Zneg _ => S754_nan
  end.

End Binary64.

(** ** Decimal text *)

Module DecimalText.

Definition isDigit (c : ascii) : bool :=
  (48 <=? N_of_ascii c)%N && (N_of_ascii c <=? 57)%N.

Fixpoint allDigits (s : string) : bool :=
  match s with
  | EmptyString => true
  | String c s' => isDigit c && allDigits s'
  end.

(** The unsigned digits of [Js.toString z]. *)
Definition digitsOf (z : Z) : Decimal.uint :=
  match z with
  | Z0 => Decimal.D0 Decimal.Nil
  | Zpos p | Zneg p => Pos.to_uint p
  end.

End DecimalText.

(** ** The claims of the specification that the code does not meet, as the
    specification words them *)

Module Claimed.
Import OCRScreen.

(** "Weekly key: calendar year plus a week number computed by counting
    elapsed days from January 1 of that year": the elapsed days divided by
    7, rounded up, and nothing else. *)
Definition weeklyKeyBySpec (api : DateApi) (now : Z) : string :=
  let startOfYear := makeDate api (getFullYear api now) 0 1 0 0 0 in
  let days := Js.floor_div (now - startOfYear) (24 * 60 * 60 * 1000) in
  Js.toString (getFullYear api now) +:+ "-W"
    +:+ Js.padStart 2 "0"%char (Js.toString (Js.ceil_div days 7)).

Definition weeklyKeyFromElapsedDays : Prop :=
  forall api now, getCurrentPeriod api "weekly" now = weeklyKeyBySpec api now.

(** "Sum all expenses whose creation timestamp falls in the current calendar
    month": the month's documents of the user, the new one among them once
    it is saved. *)
Definition monthlySum (env : Env) (uid : string) (fs : Firestore) : float :=
  let api := date env in
  let startOfMonth :=
    makeDate api (getFullYear api (now env)) (getMonth api (now env)) 1 0 0 0 in
  let endOfMonth :=
    makeDate api (getFullYear api (now env)) (getMonth api (now env) + 1) 0 23 59 59 in
  fold_left (fun total e => total + Js.or_else (Expense.amount e) 0)%float
    (queryExpenses uid startOfMonth endOfMonth fs) 0%float.

(** "accumulator/budgetAmount >= 1.0 => exceeded; in [0.9,1.0) => warning;
    <0.9 => none", the quotient taken on the two stored numbers. *)
Definition budgetSignalsByStoredRatio : Prop :=
  forall env category b,
    Budget.currentPeriod b = getCurrentPeriod (date env) (Budget.budgetType b) (now env) ->
    let r := (Budget.currentSpent b / Budget.budgetAmount b)%float in
    (signalOf (budgetAlert env category b) = Some Exceeded <-> (1 <=? r)%float = true)
    /\ (signalOf (budgetAlert env category b) = Some Warning
        <-> (Js.nineTenths <=? r)%float = true /\ (r <? 1)%float = true)
    /\ ((r <? Js.nineTenths)%float = true -> budgetAlert env category b = None).

(** "A PDF whose extraction times out yields an all-null analysis object,
    not a hard failure." *)
Definition timeoutYieldsNullAnalysis : Prop :=
  forall env req f,
    Relay.upload_single req = Relay.Stored f ->
    Relay.extraction env = Relay.ExtractionTimeout ->
    Relay.succeeded (fst (Relay.postExtractText env req)) = true
    /\ Relay.analysisOf (fst (Relay.postExtractText env req)) = Some Relay.nullAnalysis.

(** "A failed remote write to one budget must not prevent evaluation/update
    of other budgets in the batch." *)
Definition independentBudgetUpdates : Prop :=
  forall env category amount w uid id b,
    currentUser env = Some uid ->
    budgets (db w) !! id = Some b ->
    activeBudget uid category b = true ->
    writeOk env id = true ->
    budgets (db (updateBudgetSpending env category amount w)) !! id
    = Some (applyUpdate (serverTime env) (spendingUpdate env amount b) b).

End Claimed.

(** ** Concrete devices, stores and forms *)

Module Examples.
Import OCRScreen.

(** A signed-in device on UTC whose clock and server both read [t]. *)
Definition deviceAt (t : Z) (accept : string -> bool) : Env :=
  {| date := UtcDate.utc; currentUser := Some "u1"; now := t; serverTime := t;
     addError := None; writeOk := accept; newExpenseId := "e5" |}.

Definition signedOutAt (t : Z) : Env :=
  {| date := UtcDate.utc; currentUser := None; now := t; serverTime := t;
     addError := None; writeOk := fun _ => true; newExpenseId := "e5" |}.

(** 10 June 2024, noon, and one second later. *)
Definition june10 : Z := UtcDate.make 2024 5 10 12 0 0.
Definition june10later : Z := june10 + 1000.
Definition june5 : Z := UtcDate.make 2024 5 5 9 30 0.

(** A monthly food budget of 100. *)
Definition foodBudget (period : string) (spent : float) : Budget.t :=
  Budget.mk "u1" "food-dining" "monthly" 100 period spent true 0.

Definition store (bs : gmap string Budget.t) (es : list Expense.t)
    (us : gmap string UserDoc.t) : World :=
  {| db := {| budgets := bs; expenses := es; users := us |}; trace := [] |}.

(** "Shop" in UTF-16. *)
Definition shop : Js.ustring := [83; 104; 111; 112].

(** An expense of user [uid] stored under [id]. *)
Definition expenseWith (id uid : string) (amount : float) (createdAt : Z) : Expense.t :=
  Expense.mk id uid amount shop [] "2024-06-05" [] "food-dining" None "" createdAt createdAt.

Definition expenseOf (amount : float) (createdAt : Z) : Expense.t :=
  expenseWith "e1" "u1" amount createdAt.

Definition form (amount : float) (merchant : Js.ustring) : Screen :=
  {| expenseData :=
       {| amount := amount; merchantName := merchant; referenceId := [];
          transactionDate := "2024-06-10"; description := []; category := "food-dining" |};
     location := None; extractedText := "" |}.

Definition receipt : Relay.File :=
  {| Relay.mimetype := "application/pdf"; Relay.originalname := "receipt.pdf";
     Relay.path := "uploads/1-receipt.pdf"; Relay.size := 2048 |}.

Definition photo : Relay.File :=
  {| Relay.mimetype := "image/png"; Relay.originalname := "receipt.png";
     Relay.path := "uploads/1-receipt.png"; Relay.size := 2048 |}.

(** A relay whose JSON parser accepts nothing. *)
Definition relayWith (e : Relay.Extraction) (c : Relay.Completion) : Relay.Env :=
  {| Relay.jsonParse := fun _ => None; Relay.extraction := e; Relay.completion := c |}.

End Examples.

(** ** The home screen ([index.tsx]): budgets, the monthly limit, the dashboard *)

Module HomeScreen.
Import OCRScreen.

(** What the home screen's calls see of the outside: the receipt screen's
    environment (calendar, clock, signed-in user, whether the remote accepts
    a write to a budget document), and besides it [parseFloat], the id
    Firestore generates for an added budget, and the outcomes of the other
    writes. *)
Record Env := {
  base : OCRScreen.Env;
  parseFloat : string -> float;
  newBudgetId : string;                 (* the id collection('budgets').add generates *)
  addBudgetError : option string;       (* collection('budgets').add rejects *)
  writeError : string;                  (* error.message of a rejected update *)
  userWriteOk : string -> bool          (* the remote accepts a write to this user *)
}.

(** The component state the handlers read and set. [budgets] is the list
    [loadBudgets] fetched last, each document with its id. *)
Module St.
Record t := mk {
  user : option string;
  budgets : list (string * Budget.t);
  selectedCategory : string;
  budgetType : string;
  budgetAmount : string;
  overspendingLimit : string;
  userPreferences : float;
  monthlySpent : float;
  saving : bool;
  showBudgetModal : bool;
  showOverspendingModal : bool
}.
End St.

Inductive Remote :=
| AddBudget (doc : Budget.t)
| UpdateBudgetAmount (id : string) (budgetAmount : float) (currentPeriod : string)
| DeactivateBudget (id : string)
| UpdateLimit (uid : string) (limit : float)
| QueryActiveBudgets (uid : string)
| QueryUserExpenses (uid : string)
| GetPreferences (uid : string).

Inductive Event :=
| EvRemote (call : Remote)
| EvAlert (title message : string)
| EvConsoleError (line : string).

Record Outcome := {
  state : St.t;
  store : Firestore;
  events : list Event
}.

Definition withBudgets (bs : gmap string Budget.t) (fs : Firestore) : Firestore :=
  {| budgets := bs; expenses := expenses fs; users := users fs |}.

Definition withUsers (us : gmap string UserDoc.t) (fs : Firestore) : Firestore :=
  {| budgets := budgets fs; expenses := expenses fs; users := us |}.

(** [!s] on a string. *)
Definition isBlank (s : string) : bool :=
  match s with EmptyString => true | _ => false end.

Definition isNone {A : Type} (o : option A) : bool :=
  match o with None => true | Some _ => false end.

(** The query of [loadBudgets]: [where userId == uid, isActive == true]. *)
Definition queryActiveBudgets (uid : string) (fs : Firestore) : list (string * Budget.t) :=
  Query.sortBy Query.byId
    (List.filter
       (fun d => String.eqb (Budget.userId (snd d)) uid
                 && Bool.eqb (Budget.isActive (snd d)) true)
       (map_to_list (budgets fs))).

(** [loadBudgets]: the state's list becomes what the query returns. *)
Definition loadBudgets (env : Env) (o : Outcome) : Outcome :=
  match currentUser (base env) with
  | None => o
  | Some uid =>
    {| state :=
         St.mk (St.user (state o)) (queryActiveBudgets uid (store o))
           (St.selectedCategory (state o)) (St.budgetType (state o))
           (St.budgetAmount (state o)) (St.overspendingLimit (state o))
           (St.userPreferences (state o)) (St.monthlySpent (state o))
           (St.saving (state o)) (St.showBudgetModal (state o))
           (St.showOverspendingModal (state o));
       store := store o;
       events := events o ++ [EvRemote (QueryActiveBudgets uid)] |}
  end.

(** [resetBudgetForm], after [setShowBudgetModal(false)] and with
    [setSaving(false)] of the [finally]. *)
Definition closeBudgetForm (st : St.t) : St.t :=
  St.mk (St.user st) (St.budgets st) "" "monthly" "" (St.overspendingLimit st)
    (St.userPreferences st) (St.monthlySpent st) false false
    (St.showOverspendingModal st).

Definition setSaving (b : bool) (st : St.t) : St.t :=
  St.mk (St.user st) (St.budgets st) (St.selectedCategory st) (St.budgetType st)
    (St.budgetAmount st) (St.overspendingLimit st) (St.userPreferences st)
    (St.monthlySpent st) b (St.showBudgetModal st) (St.showOverspendingModal st).

(** [budgets.find(b => b.category === selectedCategory && b.budgetType === budgetType)] *)
Definition existingBudget (st : St.t) : option (string * Budget.t) :=
  List.find
    (fun d => String.eqb (Budget.category (snd d)) (St.selectedCategory st)
              && String.eqb (Budget.budgetType (snd d)) (St.budgetType st))
    (St.budgets st).

(** What [update({budgetAmount, currentPeriod, updatedAt})] does to a document. *)
Definition setAmountAndPeriod (ts : Z) (amount : float) (period : string) (b : Budget.t)
  : Budget.t :=
  Budget.mk (Budget.userId b) (Budget.category b) (Budget.budgetType b) amount period
    (Budget.currentSpent b) (Budget.isActive b) ts.

(** What [update({isActive: false, updatedAt})] does to a document. *)
Definition deactivate (ts : Z) (b : Budget.t) : Budget.t :=
  Budget.mk (Budget.userId b) (Budget.category b) (Budget.budgetType b)
    (Budget.budgetAmount b) (Budget.currentPeriod b) (Budget.currentSpent b) false ts.

(** [doc(id).update(...)] on the budgets collection: it fails on a missing
    document and when the remote refuses the write. *)
Definition updateBudgetDoc (env : Env) (id : string) (f : Budget.t -> Budget.t)
    (fs : Firestore) : option Firestore :=
  match budgets fs !! id with
  | Some b =>
    if writeOk (base env) id then Some (withBudgets (<[id := f b]> (budgets fs)) fs)
    else None
  | None => None
  end.

(** The rejection of the form by [saveBudget]'s first test. *)
Definition invalidBudgetForm (env : Env) (st : St.t) : bool :=
  isNone (St.user st) || isBlank (St.selectedCategory st) || isBlank (St.budgetAmount st)
  || (parseFloat env (St.budgetAmount st) <=? 0)%float.

Definition saveBudget (env : Env) (st : St.t) (fs : Firestore) : Outcome :=
  match St.user st with
  | None =>
    {| state := st; store := fs;
       events := [EvAlert "Error" "Please fill in all fields with valid values"] |}
  | Some uid =>
    if invalidBudgetForm env st then
      {| state := st; store := fs;
         events := [EvAlert "Error" "Please fill in all fields with valid values"] |}
    else
      let currentPeriod :=
        getCurrentPeriod (date (base env)) (St.budgetType st) (now (base env)) in
      let amount := parseFloat env (St.budgetAmount st) in
      let saved (call : Remote) (fs' : Firestore) :=
        loadBudgets env
          {| state := closeBudgetForm st; store := fs';
             events := [EvRemote call; EvAlert "Success" "Budget saved successfully!"] |} in
      let failed (call : Remote) (message : string) :=
        {| state := setSaving false st; store := fs;
           events := [EvRemote call; EvConsoleError "Error saving budget:";
                      EvAlert "Error" ("Failed to save budget: " +:+ message)] |} in
      match existingBudget st with
      | Some (id, _) =>
        let call := UpdateBudgetAmount id amount currentPeriod in
        match updateBudgetDoc env id
                (setAmountAndPeriod (serverTime (base env)) amount currentPeriod) fs with
        | Some fs' => saved call fs'
        | None => failed call (writeError env)
        end
      | None =>
        let doc :=
          Budget.mk uid (St.selectedCategory st) (St.budgetType st) amount currentPeriod 0
            true (serverTime (base env)) in
        match addBudgetError env with
        | None => saved (AddBudget doc) (withBudgets (<[newBudgetId env := doc]> (budgets fs)) fs)
        | Some message => failed (AddBudget doc) message
        end
      end
  end.

(** The [onPress] of the Delete button in [deleteBudget]'s dialog. *)
Definition deleteBudget (env : Env) (budgetId : string) (st : St.t) (fs : Firestore)
  : Outcome :=
  match updateBudgetDoc env budgetId (deactivate (serverTime (base env))) fs with
  | Some fs' =>
    loadBudgets env
      {| state := st; store := fs'; events := [EvRemote (DeactivateBudget budgetId)] |}
  | None =>
    {| state := st; store := fs;
       events := [EvRemote (DeactivateBudget budgetId); EvConsoleError "Error deleting budget:";
                  EvAlert "Error" "Failed to delete budget"] |}
  end.

Definition invalidLimitForm (env : Env) (st : St.t) : bool :=
  isNone (St.user st) || isBlank (St.overspendingLimit st)
  || (parseFloat env (St.overspendingLimit st) <=? 0)%float.

(** [doc(uid).update({'preferences.notifications.overspendingAlerts': v})] *)
Definition updateLimitDoc (env : Env) (uid : string) (limit : float) (fs : Firestore)
  : option Firestore :=
  match users fs !! uid with
  | Some _ =>
    if userWriteOk env uid
    then Some (withUsers (<[uid := UserDoc.mk (Some limit)]> (users fs)) fs)
    else None
  | None => None
  end.

Definition setLimitSaved (limit : float) (st : St.t) : St.t :=
  St.mk (St.user st) (St.budgets st) (St.selectedCategory st) (St.budgetType st)
    (St.budgetAmount st) (St.overspendingLimit st) limit (St.monthlySpent st) false
    (St.showBudgetModal st) false.

Definition saveOverspendingLimit (env : Env) (st : St.t) (fs : Firestore) : Outcome :=
  match St.user st with
  | None => {| state := st; store := fs; events := [EvAlert "Error" "Please enter a valid amount"] |}
  | Some uid =>
    if invalidLimitForm env st then
      {| state := st; store := fs; events := [EvAlert "Error" "Please enter a valid amount"] |}
    else
      let limit := parseFloat env (St.overspendingLimit st) in
      match updateLimitDoc env uid limit fs with
      | Some fs' =>
        {| state := setLimitSaved limit st; store := fs';
           events := [EvRemote (UpdateLimit uid limit);
                      EvAlert "Success" "Overspending limit updated successfully!"] |}
      | None =>
        {| state := setSaving false st; store := fs;
           events := [EvRemote (UpdateLimit uid limit);
                      EvConsoleError "Error updating overspending limit:";
                      EvAlert "Error" ("Failed to update limit: " +:+ writeError env)] |}
      end
  end.

(** The colours of the progress bars. *)
Inductive Color := Red | Orange | Green.

Definition getProgressColor (spent budget : float) : Color :=
  let percentage := (spent / budget * 100)%float in
  if (100 <=? percentage)%float then Red
  else if (75 <=? percentage)%float then Orange
  else Green.

(** The test of [loadMonthlySpending] on one expense. *)
Definition inCurrentMonth (api : DateApi) (now : Z) (e : Expense.t) : bool :=
  (getMonth api (Expense.createdAt e) =? getMonth api now)
  && (getFullYear api (Expense.createdAt e) =? getFullYear api now).

(** The query [where userId == uid] on the expenses, which
    [loadMonthlySpending] runs; its documents come by document id. *)
Definition queryUserExpenses (uid : string) (fs : Firestore) : list Expense.t :=
  Query.sortBy Query.byExpenseId
    (List.filter (fun e => String.eqb (Expense.userId e) uid) (expenses fs)).

(** The total [loadMonthlySpending] puts in the state: 0 without a user. *)
Definition loadMonthlySpending (env : Env) (fs : Firestore) : float :=
  match currentUser (base env) with
  | None => 0%float
  | Some uid =>
    fold_left
      (fun total e =>
         if inCurrentMonth (date (base env)) (now (base env)) e
         then (total + Js.or_else (Expense.amount e) 0)%float else total)
      (queryUserExpenses uid fs)
      0%float
  end.

End HomeScreen.

(** ** Picking and processing a receipt ([ocr.tsx]: [pickDocument],
    [processFile], [resetForm], the amount field) *)

Module ReceiptUpload.
Import OCRScreen.

(** The asset the document picker returns; [size] may be missing. *)
Record PickedFile := {
  name : string;
  uri : string;
  size : option Z
}.

(** How [DocumentPicker.getDocumentAsync] settles. *)
Inductive Pick :=
| Canceled
| Picked (file : PickedFile)
| PickFailed.

(** [OCRAnalysisResult]: five optional strings. *)
Record Analysis := {
  referenceId : option Js.ustring;
  date : option string;
  time : option string;
  beneficiaryName : option Js.ustring;
  amount : option Js.ustring
}.

(** The body of the relay's answer as the screen reads it. *)
Record Data := {
  success : bool;
  extractedText : string;
  analysis : option Analysis;
  error : option string
}.

(** How [fetch] and [response.json()] settle. *)
Inductive Fetch :=
| NetworkError
| Responded (ok : bool) (data : option Data).

Record Env := {
  screenEnv : OCRScreen.Env;
  parseFloat : Js.ustring -> float;
  fetched : Fetch
}.

Record State := {
  screen : Screen;
  analysisResult : option Analysis;
  loading : bool;
  showConfirmation : bool
}.

Inductive Event :=
| EvFetch (file : PickedFile)
| EvAlert (title message : string)
| EvConsoleError (line : string)
| EvGetCurrentLocation.

(** [s.replace(/[^\d.]/g, '')]: the digits and dots of [s]. *)
Definition isDigitOrDot (c : Z) : bool := ((48 <=? c) && (c <=? 57)) || (c =? 46).

Definition digitsAndDots (s : Js.ustring) : Js.ustring := List.filter isDigitOrDot s.

(** [x || d] on strings. *)
Definition orText (x : option Js.ustring) (d : Js.ustring) : Js.ustring :=
  match x with
  | Some (c :: s) => c :: s
  | _ => d
  end.

Definition orString (x : option string) (d : string) : string :=
  match x with
  | Some (String c s) => String c s
  | _ => d
  end.

(** The text handed to [parseFloat]:
    [analysis.amount?.replace(/[^\d.]/g, '') || '0']. *)
Definition amountText (a : Analysis) : Js.ustring :=
  orText (option_map digitsAndDots (amount a)) [48].

(** The form [processFile] fills from an analysis. *)
Definition prefill (env : Env) (a : Analysis) : ExpenseData :=
  {| OCRScreen.amount := parseFloat env (amountText a);
     merchantName := orText (beneficiaryName a) [];
     OCRScreen.referenceId := orText (referenceId a) [];
     transactionDate :=
       orString (date a)
         (Js.before "T"%char
            (toISOString (OCRScreen.date (screenEnv env)) (now (screenEnv env))));
     description := [];
     category := "other" |}.

Definition maxFileSize : Z := 10 * 1024 * 1024.

(** The state once [processFile] has cleared it and its [finally] has run. *)
Definition cleared (st : State) : State :=
  {| screen := {| expenseData := expenseData (screen st);
                  location := location (screen st);
                  OCRScreen.extractedText := "" |};
     analysisResult := None;
     loading := false;
     showConfirmation := false |}.

Definition processFile (env : Env) (file : PickedFile) (st : State) : State * list Event :=
  let failure :=
    (cleared st,
     [EvFetch file; EvConsoleError "Processing error:";
      EvAlert "Error"
        "Failed to process the PDF. Please check your connection and try again."]) in
  match fetched env with
  | NetworkError => failure
  | Responded false _ => failure
  | Responded true None => failure
  | Responded true (Some data) =>
    if success data then
      let locate :=
        match location (screen st) with
        | None => [EvGetCurrentLocation]
        | Some _ => []
        end in
      match analysis data with
      | Some a =>
        ({| screen := {| expenseData := prefill env a;
                         location := location (screen st);
                         OCRScreen.extractedText := extractedText data |};
            analysisResult := Some a;
            loading := false;
            showConfirmation := true |},
         EvFetch file :: locate)
      | None =>
        ({| screen := {| expenseData := expenseData (screen st);
                         location := location (screen st);
                         OCRScreen.extractedText := extractedText data |};
            analysisResult := None;
            loading := false;
            showConfirmation := false |},
         EvFetch file :: locate)
      end
    else
      (cleared st,
       [EvFetch file;
        EvAlert "Error" (orString (error data) "Failed to extract text from PDF")])
  end.

(** [file.size && file.size > 10 * 1024 * 1024] *)
Definition tooLarge (file : PickedFile) : bool :=
  match size file with
  | Some n => negb (n =? 0) && (maxFileSize <? n)
  | None => false
  end.

Definition pickDocument (env : Env) (picked : Pick) (st : State) : State * list Event :=
  match picked with
  | Canceled => (st, [])
  | PickFailed =>
    (st, [EvConsoleError "Error picking document:";
          EvAlert "Error" "Failed to pick document. Please try again."])
  | Picked file =>
    if tooLarge file then
      (st, [EvAlert "File Too Large" "Please select a PDF file smaller than 10MB."])
    else processFile env file st
  end.

(** The part the relay receives for a picked file: [processFile] always
    declares it a PDF under the file's own name; where multer stores it and
    how many bytes arrive is the relay's side. *)
Definition uploadOf (file : PickedFile) (storedAt : string) (bytes : Z) : Relay.Request :=
  {| Relay.file :=
       Some {| Relay.mimetype := "application/pdf"; Relay.originalname := name file;
               Relay.path := storedAt; Relay.size := bytes |} |}.

(** [response.ok]: the status is in 200..299. *)
Definition responseOk (r : Relay.Response) : bool :=
  (200 <=? Relay.status r) && (Relay.status r <=? 299).

Definition emptyForm : ExpenseData :=
  {| OCRScreen.amount := 0; merchantName := []; OCRScreen.referenceId := [];
     transactionDate := ""; description := []; category := "other" |}.

Definition resetForm (st : State) : State :=
  {| screen := {| expenseData := emptyForm;
                  location := location (screen st);
                  OCRScreen.extractedText := "" |};
     analysisResult := None;
     loading := loading st;
     showConfirmation := false |}.

(** The amount field's [onChangeText]: [parseFloat(text) || 0]. *)
Definition changeAmount (env : Env) (text : Js.ustring) (st : State) : State :=
  {| screen :=
       {| expenseData :=
            {| OCRScreen.amount := Js.or_else (parseFloat env text) 0;
               merchantName := merchantName (expenseData (screen st));
               OCRScreen.referenceId := OCRScreen.referenceId (expenseData (screen st));
               transactionDate := transactionDate (expenseData (screen st));
               description := description (expenseData (screen st));
               category := category (expenseData (screen st)) |};
          location := location (screen st);
          OCRScreen.extractedText := OCRScreen.extractedText (screen st) |};
     analysisResult := analysisResult st;
     loading := loading st;
     showConfirmation := showConfirmation st |}.

End ReceiptUpload.

(** ** Readings of the traces and of the period keys *)

Module RelayTrace.
Import Relay.

Definition isUnlink (e : Event) : bool :=
  match e with EvUnlink _ => true | _ => false end.

Definition isCompletion (e : Event) : bool :=
  match e with EvCompletion _ => true | _ => false end.

End RelayTrace.

Module Period.

(** The local [weekNumber] of [getCurrentPeriod]'s weekly case. *)
Definition weekNumber (api : DateApi) (now : Z) : Z :=
  let startOfYear := makeDate api (getFullYear api now) 0 1 0 0 0 in
  let days := Js.floor_div (now - startOfYear) (24 * 60 * 60 * 1000) in
  Js.ceil_div (days + getDay api startOfYear + 1) 7.

End Period.

Module ScreenTrace.
Import OCRScreen.

(** The remote calls that write. *)
Definition isWrite (e : Event) : bool :=
  match e with
  | EvRemote (AddExpense _) | EvRemote (CommitBatch _) => true
  | _ => false
  end.

End ScreenTrace.

(** The thresholds of the progress bars, as specified floats. *)
Module Binary64Colors.

Definition c75 : spec_float := S754_finite false 5277655813324800 (-46).
Definition c075 : spec_float := S754_finite false 6755399441055744 (-53).

End Binary64Colors.

(** The UTC calendar by months: month [i] counts from January of year 0,
    so month [12 * y + m] is month [m] (0..11) of year [y]. *)
Module UtcCalendar.

(** The day number of the first day of month [i]. *)
Definition monthStart (i : Z) : Z := UtcDate.days_from_civil (i / 12) (i mod 12 + 1) 1.

(** The month a time value falls in. *)
Definition monthIndex (t : Z) : Z := 12 * UtcDate.fullYear t + UtcDate.month t.

End UtcCalendar.

(** ** A concrete home screen *)

Module HomeExamples.

(** A [parseFloat] for the sample forms: it reads a text of one to fifteen
    decimal digits and answers [NaN] for every other text. *)
Definition digitValue (c : ascii) : float :=
  match (N_of_ascii c - 48)%N with
  | 0%N => 0 | 1%N => 1 | 2%N => 2 | 3%N => 3 | 4%N => 4
  | 5%N => 5 | 6%N => 6 | 7%N => 7 | 8%N => 8 | _ => 9
  end.

Fixpoint digitsValue (s : string) (acc : float) : option float :=
  match s with
  | EmptyString => Some acc
  | String c s' =>
    if DecimalText.isDigit c then digitsValue s' (acc * 10 + digitValue c)%float else None
  end.

Definition parse (s : string) : float :=
  match s with
  | EmptyString => nan
  | _ =>
    if (String.length s <=? 15)%nat
    then match digitsValue s 0 with Some x => x | None => nan end
    else nan
  end.

(** The same for a text given by its code units. *)
Definition parseUnits (s : Js.ustring) : float :=
  parse (string_of_list_ascii (map (fun c => ascii_of_N (Z.to_N c)) s)).

(** The home screen of the user of [Examples.deviceAt]. *)
Definition homeAt (t : Z) : HomeScreen.Env :=
  {| HomeScreen.base := Examples.deviceAt t (fun _ => true);
     HomeScreen.parseFloat := parse;
     HomeScreen.newBudgetId := "b9";
     HomeScreen.addBudgetError := None;
     HomeScreen.writeError := "unavailable";
     HomeScreen.userWriteOk := fun _ => true |}.

(** The state with the budget form filled in and [listed] loaded. *)
Definition budgetForm (category type amount : string) (listed : list (string * Budget.t))
  : HomeScreen.St.t :=
  HomeScreen.St.mk (Some "u1") listed category type amount "1000" 1000 0 false true false.

(** The state with the limit form filled in. *)
Definition limitForm (limit : string) : HomeScreen.St.t :=
  HomeScreen.St.mk (Some "u1") [] "" "monthly" "" limit 1000 0 false false true.

Definition storeOf (bs : gmap string Budget.t) (es : list Expense.t)
    (us : gmap string UserDoc.t) : Firestore :=
  {| budgets := bs; expenses := es; users := us |}.

End HomeExamples.

(** ** Signing in ([auth.tsx]) and the profile's figures ([profile.tsx]) *)

Module AuthScreen.

(** [createUserProfile]: it reads the user document and writes one, without
    preferences, under the test [!userDoc.exists], which is never true. *)
Definition createUserProfile (uid : string) (fs : Firestore) : Firestore :=
  let userDoc := users fs !! uid in
  if Query.notExistsProperty userDoc
  then HomeScreen.withUsers (<[uid := UserDoc.mk None]> (users fs)) fs
  else fs.

End AuthScreen.

Module ProfileScreen.

Record Stats := {
  totalExpenses : nat;
  monthlySpent : float;
  activeBudgets : nat;
  totalBudgets : nat
}.

(** [loadUserStats(userId)] with both reads answered. *)
Definition loadUserStats (api : DateApi) (now : Z) (userId : string) (fs : Firestore)
  : Stats :=
  let expensesSnapshot :=
    Query.sortBy Query.byExpenseId
      (List.filter (fun e => String.eqb (Expense.userId e) userId) (expenses fs)) in
  let monthlyTotal :=
    fold_left
      (fun monthlyTotal e =>
         if (getMonth api (Expense.createdAt e) =? getMonth api now)
            && (getFullYear api (Expense.createdAt e) =? getFullYear api now)
         then (monthlyTotal + Js.or_else (Expense.amount e) 0)%float else monthlyTotal)
      expensesSnapshot 0%float in
  let budgetsSnapshot :=
    Query.sortBy Query.byId
      (List.filter (fun d => String.eqb (Budget.userId (snd d)) userId)
         (map_to_list (budgets fs))) in
  {| totalExpenses := length expensesSnapshot;
     monthlySpent := monthlyTotal;
     activeBudgets := length (List.filter (fun d => Budget.isActive (snd d)) budgetsSnapshot);
     totalBudgets := length budgetsSnapshot |}.

End ProfileScreen.

(** ** A device east or west of UTC *)

Module LocalDate.

(** The calendar of a device whose local time is UTC plus a fixed [offset]
    in milliseconds: the local fields and the local constructor shift by the
    offset, [toISOString] is in UTC on every device. *)
Definition zoned (offset : Z) : DateApi :=
  {| getFullYear := fun t => UtcDate.fullYear (t + offset);
     getMonth := fun t => UtcDate.month (t + offset);
     getDay := fun t => UtcDate.weekDay (t + offset);
     makeDate := fun y m d h mi s => UtcDate.make y m d h mi s - offset;
     toISOString := UtcDate.iso |}.

(** Kuala Lumpur: UTC+8, no daylight saving. *)
Definition malaysia : DateApi := zoned (8 * 3600000).

End LocalDate.

Module IsoText.

(** The value of a run of decimal digits, leading zeros allowed. *)
Definition valueOf (s : string) : option N :=
  option_map N.of_uint (NilEmpty.uint_of_string s).

End IsoText.
(** * Facts about the embedding *)

(** ** Binary64: multiplying a ratio by 100

    The alert check compares [ratio * 100] with 100 and with 90. The lemmas
    below follow the specification of binary64 multiplication through its
    rounding and show that these comparisons decide [ratio >= 1] and
    [ratio >= 0.9] exactly, for every double. *)

Section Rounding.
Import Binary64.

(** [digits2_pos] counts the binary digits. *)
Lemma digits2_bounds p :
  2 ^ (Zpos (digits2_pos p) - 1) <= Zpos p < 2 ^ Zpos (digits2_pos p).
Proof.
  induction p as [p IH|p IH|]; cbn [digits2_pos].
  - rewrite Pos2Z.inj_succ.
    replace (Z.succ (Zpos (digits2_pos p)) - 1) with (Z.succ (Zpos (digits2_pos p) - 1)) by lia.
    rewrite !Z.pow_succ_r by lia. lia.
  - rewrite Pos2Z.inj_succ.
    replace (Z.succ (Zpos (digits2_pos p)) - 1) with (Z.succ (Zpos (digits2_pos p) - 1)) by lia.
    rewrite !Z.pow_succ_r by lia. lia.
  - cbn. lia.
Qed.

(** One shift halves the mantissa. *)
Lemma shr_m_shr_1 mrs : 0 <= shr_m mrs -> shr_m (shr_1 mrs) = shr_m mrs / 2.
Proof.
  destruct mrs as [m r s]; cbn [shr_m]; intros Hm.
  destruct m as [|[p|p|]|p]; cbn [shr_1 shr_m].
  - reflexivity.
  - change (Zpos p~1) with (2 * Zpos p + 1). apply Z.div_unique with (r := 1); lia.
  - change (Zpos p~0) with (2 * Zpos p). apply Z.div_unique with (r := 0); lia.
  - reflexivity.
  - lia.
Qed.

(** Shifting right [p] times divides the mantissa by [2 ^ p]. *)
Lemma shr_m_iter_pos p : forall mrs,
  0 <= shr_m mrs -> shr_m (SpecFloat.iter_pos shr_1 p mrs) = shr_m mrs / 2 ^ Zpos p.
Proof.
  induction p as [p IH|p IH|]; intros mrs Hm; cbn [SpecFloat.iter_pos].
  - assert (Hp : 0 < 2 ^ Zpos p) by (apply Z.pow_pos_nonneg; lia).
    assert (H1 : 0 <= shr_m (shr_1 mrs)) by (rewrite shr_m_shr_1 by lia; apply Z.div_pos; lia).
    assert (H2 : 0 <= shr_m (SpecFloat.iter_pos shr_1 p (shr_1 mrs)))
      by (rewrite IH by lia; apply Z.div_pos; lia).
    rewrite IH, IH, shr_m_shr_1 by lia.
    rewrite !Z.div_div by lia.
    f_equal. change (Zpos p~1) with (1 + 2 * Zpos p).
    replace (1 + 2 * Zpos p) with (1 + Zpos p + Zpos p) by lia.
    rewrite !Z.pow_add_r by lia. lia.
  - assert (Hp : 0 < 2 ^ Zpos p) by (apply Z.pow_pos_nonneg; lia).
    assert (H2 : 0 <= shr_m (SpecFloat.iter_pos shr_1 p mrs))
      by (rewrite IH by lia; apply Z.div_pos; lia).
    rewrite IH, IH by lia.
    rewrite !Z.div_div by lia.
    f_equal. change (Zpos p~0) with (2 * Zpos p).
    replace (2 * Zpos p) with (Zpos p + Zpos p) by lia.
    rewrite !Z.pow_add_r by lia. lia.
  - rewrite shr_m_shr_1 by lia. reflexivity.
Qed.

(** [shr_fexp] on an exact mantissa: the exponent it settles on and the
    mantissa it keeps. *)
Lemma shr_fexp_exact m e :
  0 <= m ->
  let e' := Z.max e (fexp prec emax (Zdigits2 m + e)) in
  exists mrs, shr_fexp prec emax m e loc_Exact = (mrs, e') /\ shr_m mrs = m / 2 ^ (e' - e).
Proof.
  intros Hm e'. unfold shr_fexp, shr, shr_record_of_loc.
  destruct (fexp prec emax (Zdigits2 m + e) - e) as [|p|p] eqn:E.
  - eexists; split; [f_equal; subst e'; lia|].
    cbn [shr_m]. subst e'. replace (Z.max _ _ - e) with 0 by lia. now rewrite Z.div_1_r.
  - eexists; split; [f_equal; subst e'; lia|].
    rewrite shr_m_iter_pos by (cbn; lia). cbn [shr_m]. subst e'. do 2 f_equal. lia.
  - eexists; split; [f_equal; subst e'; lia|].
    cbn [shr_m]. subst e'. replace (Z.max _ _ - e) with 0 by lia. now rewrite Z.div_1_r.
Qed.

(** Rounding to nearest even keeps the mantissa or adds one. *)
Lemma rne_bounds mx l : mx <= round_nearest_even mx l <= mx + 1.
Proof.
  destruct l as [|[| |]]; cbn [round_nearest_even]; try lia.
  destruct (Z.even mx); lia.
Qed.


(** An exact product is rounded to the floor of its shifted mantissa or to
    the next integer. *)
Lemma binary_round_aux_bracket sx mx ex :
  0 <= mx ->
  let e' := Z.max ex (fexp prec emax (Zdigits2 mx + ex)) in
  exists m1, mx / 2 ^ (e' - ex) <= m1 <= mx / 2 ^ (e' - ex) + 1 /\
             binary_round_aux prec emax sx mx ex loc_Exact = finish sx m1 e'.
Proof.
  intros Hm e'. destruct (shr_fexp_exact mx ex Hm) as (mrs & Hs & Hv).
  fold e' in Hs, Hv.
  exists (round_nearest_even (shr_m mrs) (loc_of_shr_record mrs)). split.
  - rewrite <- Hv. apply rne_bounds.
  - unfold binary_round_aux. rewrite Hs. reflexivity.
Qed.

(** The three outcomes of [finish] for a mantissa of at most 53 bits, or
    exactly [2 ^ 53] after a carry. *)
Lemma finish_form sx m1 e' :
  0 <= m1 <= 9007199254740992 -> -1074 <= e' ->
  finish sx m1 e' =
    if m1 =? 0 then S754_zero sx
    else if m1 =? 9007199254740992
    then (if e' + 1 <=? 971 then S754_finite sx 4503599627370496 (e' + 1) else S754_infinity sx)
    else (if e' <=? 971 then S754_finite sx (Z.to_pos m1) e' else S754_infinity sx).
Proof.
  intros Hm He. unfold finish.
  destruct (shr_fexp_exact m1 e' (proj1 Hm)) as (mrs & Hs & Hv). rewrite Hs, Hv. clear Hs Hv mrs.
  destruct (Z.eqb_spec m1 0) as [->|H0].
  - cbn [Zdigits2]. unfold fexp, SpecFloat.emin, prec, emax.
    rewrite Z.div_0_l; [reflexivity|]. apply Z.pow_nonzero; lia.
  - destruct (Z.eqb_spec m1 9007199254740992) as [->|H1].
    + change (Zdigits2 9007199254740992) with 54. unfold fexp, SpecFloat.emin, prec, emax.
      replace (Z.max e' (Z.max (54 + e' - 53) (3 - 1024 - 53))) with (e' + 1) by lia.
      replace (e' + 1 - e') with 1 by lia. reflexivity.
    + destruct m1 as [|p|p]; try lia.
      pose proof (digits2_bounds p) as [Hlo _].
      assert (Hd : Zpos (digits2_pos p) <= 53).
      { destruct (Z_le_gt_dec (Zpos (digits2_pos p)) 53) as [|Hgt]; [assumption|exfalso].
        assert (2 ^ 53 <= 2 ^ (Zpos (digits2_pos p) - 1)) by (apply Z.pow_le_mono_r; lia).
        change (2 ^ 53) with 9007199254740992 in *. lia. }
      cbn [Zdigits2]. unfold fexp, SpecFloat.emin, prec, emax.
      replace (Z.max e' _) with e' by lia.
      rewrite Z.sub_diag, Z.div_1_r. reflexivity.
Qed.

(** What validity says of a finite double: its exponent range, its 53 bits,
    and the leading bit of a normal mantissa. *)
Lemma bounded_facts m e :
  bounded prec emax m e = true ->
  -1074 <= e <= 971 /\ Zpos m < 9007199254740992 /\ (-1074 < e -> 4503599627370496 <= Zpos m).
Proof.
  unfold bounded, canonical_mantissa, fexp, SpecFloat.emin, prec, emax.
  rewrite andb_true_iff, Z.eqb_eq, Z.leb_le. intros [Hc He].
  pose proof (digits2_bounds m) as [Hlo Hhi].
  assert (Hd : Zpos (digits2_pos m) <= 53) by lia.
  split; [lia|]. split.
  - assert (2 ^ Zpos (digits2_pos m) <= 2 ^ 53) by (apply Z.pow_le_mono_r; lia).
    change (2 ^ 53) with 9007199254740992 in *. lia.
  - intros Hn. assert (Hd' : Zpos (digits2_pos m) = 53) by lia.
    rewrite Hd' in Hlo. change (2 ^ (53 - 1)) with 4503599627370496 in Hlo. exact Hlo.
Qed.

(** Positive finite doubles compare by exponent, then by mantissa. *)
Lemma SFleb_pos_finite m1 e1 m2 e2 :
  SFleb (S754_finite false m1 e1) (S754_finite false m2 e2)
  = (e1 <? e2) || ((e1 =? e2) && (Zpos m1 <=? Zpos m2)).
Proof.
  unfold SFleb, SFcompare.
  destruct (Z.compare_spec e1 e2) as [->|H|H].
  - rewrite Z.ltb_irrefl, Z.eqb_refl. cbn [orb andb].
    change (Pos.compare_cont Eq m1 m2) with (Pos.compare m1 m2).
    destruct (Pos.compare_spec m1 m2) as [->|H|H]; symmetry.
    + apply Z.leb_le; lia.
    + apply Z.leb_le; lia.
    + apply Z.leb_gt; lia.
  - replace (e1 <? e2) with true by (symmetry; apply Z.ltb_lt; lia). reflexivity.
  - replace (e1 <? e2) with false by (symmetry; apply Z.ltb_ge; lia).
    replace (e1 =? e2) with false by (symmetry; apply Z.eqb_neq; lia). reflexivity.
Qed.


(** Normal operands: the product with 100 is shifted by 52 or 53 bits. *)
Lemma mul100_normal m e :
  bounded prec emax m e = true -> -1074 < e ->
  let M := Zpos m * 7036874417766400 in
  exists k m1,
    (k = 52 /\ M < 2 ^ 105 \/ k = 53 /\ 2 ^ 105 <= M) /\
    M / 2 ^ k <= m1 <= M / 2 ^ k + 1 /\
    SFmul prec emax (S754_finite false m e) c100 = finish false m1 (e - 46 + k).
Proof.
  intros Hb He M. destruct (bounded_facts m e Hb) as (Hr & Hhi & Hlo). specialize (Hlo He).
  cbn [SFmul c100 xorb].
  destruct (binary_round_aux_bracket false (Zpos (m * 7036874417766400)) (e + -46) ltac:(lia))
    as (m1 & Hm1 & HR).
  rewrite HR. clear HR. cbn [Zdigits2] in *.
  pose proof (digits2_bounds (m * 7036874417766400)) as [Dlo Dhi].
  rewrite Pos2Z.inj_mul in *. fold M in Dlo, Dhi, Hm1.
  set (d := Zpos (digits2_pos (m * 7036874417766400))) in *.
  assert (HM : 2 ^ 104 <= M < 2 ^ 106)
    by (change (2 ^ 104) with 20282409603651670423947251286016;
        change (2 ^ 106) with 81129638414606681695789005144064; unfold M; lia).
  assert (Hd : d = 105 \/ d = 106).
  { assert (104 < d) by (apply (Z.pow_lt_mono_r_iff 2); lia).
    assert (d - 1 < 106) by (apply (Z.pow_lt_mono_r_iff 2); lia). lia. }
  unfold fexp, SpecFloat.emin, prec, emax in *.
  destruct Hd as [Hd|Hd]; rewrite Hd in *.
  - exists 52, m1. split; [left; split; [reflexivity|exact Dhi]|].
    replace (Z.max (e + -46) (Z.max (105 + (e + -46) - 53) (3 - 1024 - 53))) with (e - 46 + 52) in * by lia.
    replace (e - 46 + 52 - (e + -46)) with 52 in Hm1 by lia. split; [exact Hm1|reflexivity].
  - exists 53, m1. split; [right; split; [reflexivity|exact Dlo]|].
    replace (Z.max (e + -46) (Z.max (106 + (e + -46) - 53) (3 - 1024 - 53))) with (e - 46 + 53) in * by lia.
    replace (e - 46 + 53 - (e + -46)) with 53 in Hm1 by lia. split; [exact Hm1|reflexivity].
Qed.

(** Subnormal operands: the product stays far below one. *)
Lemma mul100_subnormal m :
  bounded prec emax m (-1074) = true ->
  exists m1 e', 0 <= m1 <= 9007199254740992 /\ -1074 <= e' <= -1067 /\
    SFmul prec emax (S754_finite false m (-1074)) c100 = finish false m1 e'.
Proof.
  intros Hb. destruct (bounded_facts m _ Hb) as (_ & Hhi & _).
  cbn [SFmul c100 xorb].
  destruct (binary_round_aux_bracket false (Zpos (m * 7036874417766400)) (-1074 + -46) ltac:(lia))
    as (m1 & Hm1 & HR).
  rewrite HR. clear HR. cbn [Zdigits2] in *.
  pose proof (digits2_bounds (m * 7036874417766400)) as [Dlo Dhi].
  rewrite Pos2Z.inj_mul in *.
  set (M := Zpos m * 7036874417766400) in *.
  set (d := Zpos (digits2_pos (m * 7036874417766400))) in *.
  assert (HM : 0 < M < 2 ^ 106)
    by (change (2 ^ 106) with 81129638414606681695789005144064; unfold M; lia).
  assert (Hd : 0 < d <= 106).
  { split; [unfold d; lia|].
    assert (d - 1 < 106) by (apply (Z.pow_lt_mono_r_iff 2); lia). lia. }
  unfold fexp, SpecFloat.emin, prec, emax in *.
  set (e' := Z.max (-1074 + -46) (Z.max (d + (-1074 + -46) - 53) (3 - 1024 - 53))) in *.
  exists m1, e'. split; [|split; [unfold e'; lia|reflexivity]].
  set (k := e' - (-1074 + -46)) in *.
  assert (Hk : 0 <= k /\ d <= k + 53) by (unfold k, e'; lia).
  assert (Hp : 0 < 2 ^ k) by (apply Z.pow_pos_nonneg; lia).
  assert (0 <= M / 2 ^ k) by (apply Z.div_pos; lia).
  assert (M / 2 ^ k < 9007199254740992).
  { apply Z.div_lt_upper_bound; [lia|].
    change 9007199254740992 with (2 ^ 53). rewrite <- Z.pow_add_r by lia.
    apply Z.lt_le_trans with (2 ^ d); [lia|]. apply Z.pow_le_mono_r; lia. }
  lia.
Qed.

(** A rounded negative product is below every positive constant. *)
Lemma SFleb_pos_neg_round c e0 mx ex lx :
  SFleb (S754_finite false c e0) (binary_round_aux prec emax true mx ex lx) = false.
Proof.
  unfold binary_round_aux.
  destruct (shr_fexp prec emax mx ex lx) as [mrs' e'].
  destruct (shr_fexp prec emax _ e' loc_Exact) as [mrs'' e''].
  destruct (shr_m mrs''); [reflexivity| |reflexivity].
  destruct (e'' <=? emax - prec); reflexivity.
Qed.

(** From one on, the product reaches 100. *)
Lemma mul100_ge m e :
  bounded prec emax m e = true -> -52 <= e ->
  SFleb c100 (SFmul prec emax (S754_finite false m e) c100) = true
  /\ SFleb c90 (SFmul prec emax (S754_finite false m e) c100) = true.
Proof.
  intros Hb He. destruct (bounded_facts m e Hb) as (Hr & Hhi & Hlo). specialize (Hlo ltac:(lia)).
  destruct (mul100_normal m e Hb ltac:(lia)) as (k & m1 & Hk & Hm1 & ->).
  change (2 ^ 105) with 40564819207303340847894502572032 in Hk.
  destruct Hk as [[-> HM]|[-> HM]].
  - change (2 ^ 52) with 4503599627370496 in Hm1.
    assert (7036874417766400 <= m1 <= 9007199254740992) by (Z.div_mod_to_equations; lia).
    rewrite finish_form by lia.
    destruct (Z.eqb_spec m1 0); [lia|].
    destruct (Z.eqb_spec m1 9007199254740992).
    + destruct (Z.leb_spec (e - 46 + 52 + 1) 971); [|split; reflexivity].
      unfold c100, c90. rewrite !SFleb_pos_finite.
      replace (-46 <? e - 46 + 52 + 1) with true by (symmetry; apply Z.ltb_lt; lia).
      split; reflexivity.
    + destruct (Z.leb_spec (e - 46 + 52) 971); [|split; reflexivity].
      unfold c100, c90. rewrite !SFleb_pos_finite, Z2Pos.id by lia.
      destruct (Z.ltb_spec (-46) (e - 46 + 52)); [split; reflexivity|].
      replace (-46 =? e - 46 + 52) with true by (symmetry; apply Z.eqb_eq; lia).
      cbn [orb andb]. split; apply Z.leb_le; lia.
  - change (2 ^ 53) with 9007199254740992 in Hm1.
    assert (4503599627370496 <= m1 <= 9007199254740992) by (Z.div_mod_to_equations; lia).
    rewrite finish_form by lia.
    destruct (Z.eqb_spec m1 0); [lia|].
    destruct (Z.eqb_spec m1 9007199254740992).
    + destruct (Z.leb_spec (e - 46 + 53 + 1) 971); [|split; reflexivity].
      unfold c100, c90. rewrite !SFleb_pos_finite.
      replace (-46 <? e - 46 + 53 + 1) with true by (symmetry; apply Z.ltb_lt; lia).
      split; reflexivity.
    + destruct (Z.leb_spec (e - 46 + 53) 971); [|split; reflexivity].
      unfold c100, c90. rewrite !SFleb_pos_finite.
      replace (-46 <? e - 46 + 53) with true by (symmetry; apply Z.ltb_lt; lia).
      split; reflexivity.
Qed.

Ltac leb_false := apply orb_false_iff; split;
  [apply Z.ltb_ge; lia | apply andb_false_iff; first [left; apply Z.eqb_neq; lia | right; apply Z.leb_gt; lia]].

(** Below one half the product stays below 90. *)
Lemma mul100_small m e :
  bounded prec emax m e = true -> e <= -54 ->
  SFleb c100 (SFmul prec emax (S754_finite false m e) c100) = false
  /\ SFleb c90 (SFmul prec emax (S754_finite false m e) c100) = false.
Proof.
  intros Hb He. destruct (bounded_facts m e Hb) as (Hr & Hhi & Hlo).
  assert (Hfin : forall m1 e', 0 <= m1 <= 9007199254740992 -> -1074 <= e' <= -47 ->
            SFleb c100 (finish false m1 e') = false /\ SFleb c90 (finish false m1 e') = false).
  { intros m1 e' Hm1 He'. rewrite finish_form by lia.
    destruct (Z.eqb_spec m1 0); [split; reflexivity|].
    destruct (Z.eqb_spec m1 9007199254740992).
    - destruct (Z.leb_spec (e' + 1) 971); [|lia].
      unfold c100, c90. rewrite !SFleb_pos_finite. split; leb_false.
    - destruct (Z.leb_spec e' 971); [|lia].
      unfold c100, c90. rewrite !SFleb_pos_finite. split; leb_false. }
  destruct (Z.eq_dec e (-1074)) as [->|Hn].
  - destruct (mul100_subnormal m Hb) as (m1 & e' & Hm1 & He' & ->). apply Hfin; lia.
  - specialize (Hlo ltac:(lia)).
    destruct (mul100_normal m e Hb ltac:(lia)) as (k & m1 & Hk & Hm1 & ->).
    change (2 ^ 105) with 40564819207303340847894502572032 in Hk.
    destruct Hk as [[-> HM]|[-> HM]].
    + change (2 ^ 52) with 4503599627370496 in Hm1.
      apply Hfin; [Z.div_mod_to_equations; lia|lia].
    + change (2 ^ 53) with 9007199254740992 in Hm1.
      apply Hfin; [Z.div_mod_to_equations; lia|lia].
Qed.

(** Between one half and one the product is below 100, and reaches 90 exactly
    from the double nearest to nine tenths on. *)
Lemma mul100_half m :
  bounded prec emax m (-53) = true ->
  SFleb c100 (SFmul prec emax (S754_finite false m (-53)) c100) = false
  /\ SFleb c90 (SFmul prec emax (S754_finite false m (-53)) c100)
     = (8106479329266893 <=? Zpos m).
Proof.
  intros Hb. destruct (bounded_facts m _ Hb) as (Hr & Hhi & Hlo). specialize (Hlo ltac:(lia)).
  destruct (Pos.eq_dec m 9007199254740991%positive) as [->|Hmax]; [split; vm_compute; reflexivity|].
  destruct (Pos.eq_dec m 8106479329266892%positive) as [->|Hedge]; [split; vm_compute; reflexivity|].
  destruct (mul100_normal m _ Hb ltac:(lia)) as (k & m1 & Hk & Hm1 & ->).
  change (2 ^ 105) with 40564819207303340847894502572032 in Hk.
  destruct Hk as [[-> HM]|[-> HM]].
  - change (2 ^ 52) with 4503599627370496 in Hm1.
    assert (4503599627370496 <= m1 <= 9007199254740992) by (Z.div_mod_to_equations; lia).
    replace (8106479329266893 <=? Zpos m) with false by (symmetry; apply Z.leb_gt; lia).
    rewrite finish_form by lia.
    destruct (Z.eqb_spec m1 0); [lia|].
    destruct (Z.eqb_spec m1 9007199254740992).
    + cbn [Z.leb Z.compare Z.add Z.sub Z.opp Z.pos_sub Pos.compare Pos.compare_cont].
      split; vm_compute; reflexivity.
    + change (-53 - 46 + 52 <=? 971) with true. cbv iota.
      unfold c100, c90. rewrite !SFleb_pos_finite. split; leb_false.
  - change (2 ^ 53) with 9007199254740992 in Hm1.
    assert (Hne1 : Zpos m <> 9007199254740991) by (intros E; apply Hmax; lia).
    assert (Hne2 : Zpos m <> 8106479329266892) by (intros E; apply Hedge; lia).
    assert (4503599627370496 <= m1 < 7036874417766400) by (Z.div_mod_to_equations; lia).
    rewrite finish_form by lia.
    destruct (Z.eqb_spec m1 0); [lia|].
    destruct (Z.eqb_spec m1 9007199254740992); [lia|].
    change (-53 - 46 + 53 <=? 971) with true. cbv iota.
    unfold c100, c90. rewrite !SFleb_pos_finite, Z2Pos.id by lia.
    change (-46 <? -53 - 46 + 53) with false. change (-46 =? -53 - 46 + 53) with true.
    cbn [orb andb]. split; [apply Z.leb_gt; lia|].
    destruct (Z.leb_spec 8106479329266893 (Zpos m)).
    + apply Z.leb_le. Z.div_mod_to_equations; lia.
    + apply Z.leb_gt. Z.div_mod_to_equations; lia.
Qed.


(** For every double [r], comparing [r * 100] with 100 and with 90 decides
    [1 <= r] and [0.9 <= r]. *)
Lemma percent_thresholds (r : float) :
  (100 <=? r * 100)%float = (1 <=? r)%float
  /\ (90 <=? r * 100)%float = (Js.nineTenths <=? r)%float.
Proof.
  rewrite !leb_spec, mul_spec.
  change (Prim2SF 100) with c100. change (Prim2SF 90) with c90.
  change (Prim2SF 1) with c1. change (Prim2SF Js.nineTenths) with c09.
  pose proof (Prim2SF_valid r) as Hv.
  destruct (Prim2SF r) as [s|s| |s m e].
  - destruct s; split; reflexivity.
  - destruct s; split; reflexivity.
  - split; reflexivity.
  - cbn [valid_binary] in Hv. destruct s.
    + unfold SF64mul. cbn [SFmul c100 xorb]. unfold c100, c90.
      rewrite !SFleb_pos_neg_round. split; reflexivity.
    + unfold SF64mul. unfold c1, c09. rewrite !SFleb_pos_finite.
      destruct (bounded_facts m e Hv) as (Hr & Hhi & Hlo).
      destruct (Z_le_gt_dec (-52) e) as [He|He].
      * destruct (mul100_ge m e Hv He) as [-> ->].
        specialize (Hlo ltac:(lia)).
        replace (-53 <? e) with true by (symmetry; apply Z.ltb_lt; lia).
        destruct (Z.eq_dec e (-52)) as [->|Hne].
        -- replace (4503599627370496 <=? Zpos m) with true by (symmetry; apply Z.leb_le; lia).
           split; reflexivity.
        -- replace (-52 <? e) with true by (symmetry; apply Z.ltb_lt; lia).
           split; reflexivity.
      * destruct (Z.eq_dec e (-53)) as [->|Hne].
        -- destruct (mul100_half m Hv) as [-> ->]. split; reflexivity.
        -- destruct (mul100_small m e Hv ltac:(lia)) as [-> ->].
           replace (-52 <? e) with false by (symmetry; apply Z.ltb_ge; lia).
           replace (-52 =? e) with false by (symmetry; apply Z.eqb_neq; lia).
           replace (-53 <? e) with false by (symmetry; apply Z.ltb_ge; lia).
           replace (-53 =? e) with false by (symmetry; apply Z.eqb_neq; lia).
           split; reflexivity.
Qed.

End Rounding.

(** ** Binary64: comparisons and JavaScript's reading of numbers *)

Section Comparisons.
Import Binary64.

(** Swapping the operands of a comparison reverses its result. *)
Lemma SFcompare_antisym x y :
  SFcompare y x = option_map CompOpp (SFcompare x y).
Proof.
  destruct x as [sx|sx| |sx mx ex], y as [sy|sy| |sy my ey]; cbn;
    try destruct sx; try destruct sy; try reflexivity.
  - rewrite (Z.compare_antisym ex ey). destruct (ex ?= ey); cbn; try reflexivity.
    now rewrite (Pos.compare_cont_antisym mx my Eq).
  - rewrite (Z.compare_antisym ex ey). destruct (ex ?= ey); cbn; try reflexivity.
    now rewrite (Pos.compare_cont_antisym mx my Eq).
Qed.

Lemma leb_true_ltb_false (x y : float) :
  (x <=? y)%float = true -> (y <? x)%float = false.
Proof.
  rewrite leb_spec, ltb_spec. unfold SFleb, SFltb.
  rewrite (SFcompare_antisym (Prim2SF x) (Prim2SF y)).
  destruct (SFcompare (Prim2SF x) (Prim2SF y)) as [[| |]|]; cbn; congruence.
Qed.

Lemma ltb_true_leb_false (x y : float) :
  (x <? y)%float = true -> (y <=? x)%float = false.
Proof.
  rewrite leb_spec, ltb_spec. unfold SFleb, SFltb.
  rewrite (SFcompare_antisym (Prim2SF x) (Prim2SF y)).
  destruct (SFcompare (Prim2SF x) (Prim2SF y)) as [[| |]|]; cbn; congruence.
Qed.

(** Only [NaN] is unordered. *)
Lemma SFcompare_none x y :
  SFcompare x y = None -> x = S754_nan \/ y = S754_nan.
Proof.
  destruct x as [sx|sx| |sx mx ex], y as [sy|sy| |sy my ey]; cbn; auto; discriminate.
Qed.

(** A number with something below it is below one unless one is below it. *)
Lemma below_one (c r : float) :
  (c <=? r)%float = true -> (1 <=? r)%float = false -> (r <? 1)%float = true.
Proof.
  rewrite !leb_spec, ltb_spec. change (Prim2SF 1) with c1.
  unfold SFleb, SFltb. rewrite (SFcompare_antisym c1 (Prim2SF r)).
  intros Hc. assert (Hr : Prim2SF r <> S754_nan).
  { intros E. rewrite E in Hc. destruct (Prim2SF c); discriminate Hc. }
  destruct (SFcompare c1 (Prim2SF r)) as [[| |]|] eqn:E; cbn; try congruence.
  apply SFcompare_none in E as [E|E]; [discriminate E|contradiction].
Qed.

(** What is at least one is at least nine tenths. *)
Lemma one_above_nine_tenths (r : float) :
  (1 <=? r)%float = true -> (Js.nineTenths <=? r)%float = true.
Proof.
  rewrite !leb_spec. change (Prim2SF 1) with c1. change (Prim2SF Js.nineTenths) with c09.
  destruct (Prim2SF r) as [s|s| |s m e].
  - discriminate.
  - destruct s; cbn; congruence.
  - discriminate.
  - destruct s; [discriminate|]. unfold c1, c09. rewrite !SFleb_pos_finite.
    intros H. apply orb_true_iff in H. apply orb_true_iff. left. apply Z.ltb_lt.
    destruct H as [H|H]; [apply Z.ltb_lt in H; lia|].
    apply andb_true_iff in H as [H _]. apply Z.eqb_eq in H. lia.
Qed.

(** [!a || a <= 0] holds of every number that is not strictly positive. *)
Lemma not_positive_is_invalid (a : float) :
  (0 <? a)%float = false -> negb (Js.truthy a) || (a <=? 0)%float = true.
Proof.
  unfold Js.truthy, is_nan, is_zero. rewrite negb_involutive.
  rewrite ltb_spec, leb_spec, !FloatAxioms.eqb_spec.
  change (Prim2SF 0) with (S754_zero false). change (Prim2SF zero) with (S754_zero false).
  destruct (Prim2SF a) as [s|s| |s m e]; intros H.
  - destruct s; reflexivity.
  - destruct s; [reflexivity|discriminate H].
  - reflexivity.
  - destruct s; [|discriminate H]. apply orb_true_iff. right. reflexivity.
Qed.

(** [x || 0] is [x] itself unless [x] is [NaN] or the negative zero. *)
Lemma or_else_number (x : float) :
  is_nan x = false -> Prim2SF x <> S754_zero true -> Js.or_else x 0 = x.
Proof.
  unfold Js.or_else, Js.truthy. intros -> Hz. cbn [orb].
  destruct (is_zero x) eqn:E; [|reflexivity]. cbn [negb].
  unfold is_zero in E. rewrite FloatAxioms.eqb_spec in E.
  change (Prim2SF zero) with (S754_zero false) in E.
  rewrite <- (SF2Prim_Prim2SF x).
  destruct (Prim2SF x) as [s|s| |s m e]; try (destruct s; discriminate E); try discriminate E.
  destruct s; [now destruct Hz|reflexivity].
Qed.

End Comparisons.

(** ** The text of integers *)

Section DecimalTextFacts.
Import DecimalText.

Lemma allDigits_uint d : allDigits (NilEmpty.string_of_uint d) = true.
Proof. induction d; cbn; auto. Qed.

Lemma allDigits_uint0 d : allDigits (NilZero.string_of_uint d) = true.
Proof. destruct d; try apply (allDigits_uint (_ _)); reflexivity. Qed.

Lemma uint0_nonempty d : NilZero.string_of_uint d <> EmptyString.
Proof. destruct d; discriminate. Qed.

(** A run of digits ends at the first dash. *)
Lemma digits_dash_split u1 : forall u2 r1 r2,
  allDigits u1 = true -> allDigits u2 = true ->
  u1 +:+ String "-" r1 = u2 +:+ String "-" r2 -> u1 = u2 /\ r1 = r2.
Proof.
  induction u1 as [|c u1 IH]; intros [|c2 u2] r1 r2 H1 H2 E; cbn in *.
  - injection E as ->. auto.
  - injection E as <- _. discriminate.
  - injection E as -> _. discriminate.
  - injection E as -> E. apply andb_true_iff in H1 as [_ H1], H2 as [_ H2].
    destruct (IH _ _ _ H1 H2 E) as [-> ->]. auto.
Qed.

Lemma uint0_inj d1 d2 :
  d1 <> Decimal.Nil -> d2 <> Decimal.Nil ->
  NilZero.string_of_uint d1 = NilZero.string_of_uint d2 -> d1 = d2.
Proof.
  intros H1 H2 E. apply (f_equal NilZero.uint_of_string) in E.
  rewrite !NilZero.usu in E by assumption. congruence.
Qed.

Lemma toString_shape z :
  Js.toString z = (if z <? 0 then "-" else "") +:+ NilZero.string_of_uint (digitsOf z).
Proof. destruct z; reflexivity. Qed.

Lemma digitsOf_nonnil z : digitsOf z <> Decimal.Nil.
Proof. destruct z; cbn; try apply Unsigned.to_uint_nonnil; discriminate. Qed.

Lemma digitsOf_sign_inj z1 z2 :
  (z1 <? 0) = (z2 <? 0) -> digitsOf z1 = digitsOf z2 -> z1 = z2.
Proof.
  destruct z1 as [|p1|p1], z2 as [|p2|p2]; cbn; intros Hs Hd; try discriminate;
    try reflexivity.
  - symmetry in Hd. now apply Unsigned.to_uint_nonzero in Hd.
  - now apply Unsigned.to_uint_nonzero in Hd.
  - f_equal. now apply DecimalPos.Unsigned.to_uint_inj.
  - f_equal. now apply DecimalPos.Unsigned.to_uint_inj.
Qed.

Lemma first_digit s : allDigits s = true -> s <> EmptyString ->
  exists c s', s = String c s' /\ isDigit c = true.
Proof.
  destruct s as [|c s']; [congruence|]. cbn. intros H _.
  apply andb_true_iff in H as [H _]. eauto.
Qed.

(** The text of an integer ends where the dash after it stands. *)
Lemma toString_dash_split z1 z2 r1 r2 :
  Js.toString z1 +:+ String "-" r1 = Js.toString z2 +:+ String "-" r2 ->
  z1 = z2 /\ r1 = r2.
Proof.
  rewrite !toString_shape.
  pose proof (allDigits_uint0 (digitsOf z1)) as A1.
  pose proof (allDigits_uint0 (digitsOf z2)) as A2.
  destruct (first_digit _ A1 (uint0_nonempty _)) as (c1 & s1 & E1 & D1).
  destruct (first_digit _ A2 (uint0_nonempty _)) as (c2 & s2 & E2 & D2).
  destruct (z1 <? 0) eqn:S1, (z2 <? 0) eqn:S2; cbn [String.append]; intros E.
  - injection E as E. destruct (digits_dash_split _ _ _ _ A1 A2 E) as [Hd ->].
    split; [|reflexivity]. apply digitsOf_sign_inj; [congruence|].
    apply uint0_inj; auto using digitsOf_nonnil.
  - rewrite E2 in E. cbn in E. injection E as <- _. discriminate.
  - rewrite E1 in E. cbn in E. injection E as -> _. discriminate.
  - destruct (digits_dash_split _ _ _ _ A1 A2 E) as [Hd ->].
    split; [|reflexivity]. apply digitsOf_sign_inj; [congruence|].
    apply uint0_inj; auto using digitsOf_nonnil.
Qed.

(** Distinct integers print differently. *)
Lemma toString_inj z1 z2 : Js.toString z1 = Js.toString z2 -> z1 = z2.
Proof.
  intros E.
  destruct (toString_dash_split z1 z2 "" "") as [-> _]; [now rewrite E|reflexivity].
Qed.

Lemma toString_nonempty z : Js.toString z <> EmptyString.
Proof.
  rewrite toString_shape. pose proof (uint0_nonempty (digitsOf z)).
  destruct (z <? 0); cbn; [discriminate|assumption].
Qed.

Lemma nzhead_not_D0 u v : Decimal.nzhead u <> Decimal.D0 v.
Proof. induction u; cbn; try discriminate; assumption. Qed.

Lemma to_uint_not_D0 p u : Pos.to_uint p <> Decimal.D0 u.
Proof.
  intros E.
  assert (N : Pos.to_uint p = Decimal.unorm (Pos.to_uint p)).
  { rewrite <- DecimalPos.Unsigned.to_of, DecimalPos.Unsigned.of_to. reflexivity. }
  rewrite E, unorm_D0 in N. unfold Decimal.unorm in N.
  destruct (Decimal.nzhead u) eqn:Hu; try discriminate.
  - injection N as ->. now apply Unsigned.to_uint_nonzero in E.
  - exact (nzhead_not_D0 u _ Hu).
Qed.

(** Only zero prints with a leading zero. *)
Lemma toString_leading_zero z s : Js.toString z = String "0" s -> s = EmptyString.
Proof.
  destruct z as [|p|p]; cbn.
  - intros E. injection E as <-. reflexivity.
  - unfold Js.toString, Z.to_int, NilZero.string_of_int, NilZero.string_of_uint.
    pose proof (to_uint_not_D0 p) as Hz.
    destruct (Pos.to_uint p) eqn:Hp; cbn; try discriminate.
    + intros E. injection E as <-. reflexivity.
    + now destruct (Hz u).
  - discriminate.
Qed.

(** Padding to two characters keeps distinct integers apart. *)
Lemma padStart2_inj a b :
  Js.padStart 2 "0" (Js.toString a) = Js.padStart 2 "0" (Js.toString b) -> a = b.
Proof.
  unfold Js.padStart.
  pose proof (toString_nonempty a) as Ha. pose proof (toString_nonempty b) as Hb.
  pose proof (toString_leading_zero a) as La. pose proof (toString_leading_zero b) as Lb.
  intros E. apply toString_inj. revert Ha Hb La Lb E.
  destruct (Js.toString a) as [|a1 [|a2 sa]], (Js.toString b) as [|b1 [|b2 sb]];
    intros Ha Hb La Lb E;
    cbv [String.append Js.repeat_char Nat.sub String.length] in E; try congruence.
  - injection E as <- <- <-. now specialize (Lb _ eq_refl).
  - injection E as -> -> ->. now specialize (La _ eq_refl).
Qed.

End DecimalTextFacts.

(** ** The order of query results *)

Section QueryOrder.
Context {A : Type} (le : A -> A -> bool).

Lemma insertBy_Permutation x l : Query.insertBy le x l ≡ₚ x :: l.
Proof.
  induction l as [|y l IH]; cbn; [reflexivity|].
  destruct (le x y); [reflexivity|]. rewrite IH. apply Permutation_swap.
Qed.

(** Sorting keeps the documents and changes their order only. *)
Lemma sortBy_Permutation l : Query.sortBy le l ≡ₚ l.
Proof.
  induction l as [|x l IH]; cbn; [reflexivity|].
  rewrite insertBy_Permutation. now rewrite IH.
Qed.

Lemma sortBy_In x l : In x (Query.sortBy le l) <-> In x l.
Proof.
  rewrite <- !list_elem_of_In. now rewrite (sortBy_Permutation l).
Qed.

Lemma sortBy_length l : length (Query.sortBy le l) = length l.
Proof. now rewrite (sortBy_Permutation l). Qed.

Hypothesis le_total : forall x y, le x y = true \/ le y x = true.

Lemma insertBy_Sorted x l :
  Sorted (fun a b => le a b = true) l ->
  Sorted (fun a b => le a b = true) (Query.insertBy le x l).
Proof.
  induction 1 as [|y l Hs IH Hd]; cbn; [repeat constructor|].
  destruct (le x y) eqn:E.
  - constructor; [now constructor|]. now constructor.
  - constructor; [exact IH|].
    destruct Hd as [|z l Hyz]; cbn.
    + constructor. destruct (le_total x y); congruence.
    + destruct (le x z); constructor; [|exact Hyz].
      destruct (le_total x y); congruence.
Qed.

(** The result of a sort is in order. *)
Lemma sortBy_Sorted l : Sorted (fun a b => le a b = true) (Query.sortBy le l).
Proof. induction l as [|x l IH]; cbn; [constructor|]. now apply insertBy_Sorted. Qed.

Lemma insertBy_snoc y l x :
  le y x = true -> Query.insertBy le y (l ++ [x]) = Query.insertBy le y l ++ [x].
Proof.
  intros Hyx. induction l as [|z l IH]; cbn; [now rewrite Hyx|].
  destruct (le y z); [reflexivity|]. now rewrite IH.
Qed.

(** A document that sorts after all the others comes last. *)
Lemma sortBy_snoc l x :
  (forall y, In y l -> le y x = true) -> Query.sortBy le (l ++ [x]) = Query.sortBy le l ++ [x].
Proof.
  induction l as [|y l IH]; intros H; [reflexivity|].
  change (Query.sortBy le ((y :: l) ++ [x]))
    with (Query.insertBy le y (Query.sortBy le (l ++ [x]))).
  rewrite IH by (intros z Hz; apply H; now right).
  apply insertBy_snoc. apply H. now left.
Qed.

End QueryOrder.

Lemma byId_total {A} (d1 d2 : string * A) :
  Query.byId d1 d2 = true \/ Query.byId d2 d1 = true.
Proof. apply String.leb_total. Qed.

Lemma byExpenseId_total e1 e2 :
  Query.byExpenseId e1 e2 = true \/ Query.byExpenseId e2 e1 = true.
Proof. apply String.leb_total. Qed.

(** ** Write batches over the budgets collection *)

Import OCRScreen.

Section Batch.
Context {U : Type} (g : U -> Budget.t -> Budget.t).

Lemma applyAll_cons k0 u0 ops m :
  applyAll g ((k0, u0) :: ops) m = applyAll g ops (alter (g u0) k0 m).
Proof. reflexivity. Qed.

(** A batch leaves the documents it does not name alone. *)
Lemma applyAll_other ops : forall m k,
  ~ In k (map fst ops) -> applyAll g ops m !! k = m !! k.
Proof.
  induction ops as [|[k0 u0] ops IH]; intros m k Hk; [reflexivity|].
  rewrite applyAll_cons, IH by (cbn in Hk; tauto).
  apply lookup_alter_ne. cbn in Hk. tauto.
Qed.

(** A batch that names each document once applies to it the update it
    carries for it. *)
Lemma applyAll_target ops : forall m k u,
  NoDup (map fst ops) -> In (k, u) ops -> applyAll g ops m !! k = g u <$> m !! k.
Proof.
  induction ops as [|[k0 u0] ops IH]; intros m k u Hnd Hin; [destruct Hin|].
  cbn in Hnd. apply NoDup_cons in Hnd as [Hk0 Hnd].
  rewrite applyAll_cons. destruct Hin as [E|Hin].
  - injection E as -> ->. rewrite applyAll_other.
    + apply lookup_alter_eq.
    + intros Hin'. apply Hk0. now apply list_elem_of_In.
  - rewrite (IH _ _ _ Hnd Hin). rewrite lookup_alter_ne; [reflexivity|].
    intros ->. apply Hk0. apply list_elem_of_In.
    change k with (fst (k, u)). now apply in_map.
Qed.

End Batch.

Lemma NoDup_fst_filter {A} (f : string * A -> bool) (l : list (string * A)) :
  NoDup (map fst l) -> NoDup (map fst (List.filter f l)).
Proof.
  induction l as [|x l IH]; cbn; [auto|]. intros Hnd.
  apply NoDup_cons in Hnd as [Hx Hnd]. destruct (f x); cbn; [|auto].
  apply NoDup_cons. split; [|auto].
  intros Hin. apply Hx. apply list_elem_of_In. apply list_elem_of_In in Hin.
  apply in_map_iff in Hin as (y & <- & Hy). apply filter_In in Hy as [Hy _].
  now apply in_map.
Qed.

Lemma queryBudgets_In uid category fs id b :
  In (id, b) (queryBudgets uid category fs)
  <-> budgets fs !! id = Some b /\ activeBudget uid category b = true.
Proof.
  unfold queryBudgets.
  rewrite sortBy_In, filter_In, <- list_elem_of_In, elem_of_map_to_list.
  reflexivity.
Qed.

Lemma queryBudgets_NoDup uid category fs :
  NoDup (map fst (queryBudgets uid category fs)).
Proof.
  unfold queryBudgets. rewrite (sortBy_Permutation Query.byId _).
  apply NoDup_fst_filter. apply (NoDup_fst_map_to_list (budgets fs)).
Qed.

Lemma batchFor_keys env uid category amount fs :
  map fst (batchFor env uid category amount fs) = map fst (queryBudgets uid category fs).
Proof. unfold batchFor. rewrite map_map. reflexivity. Qed.

(** The batch is accepted exactly when the remote accepts every write in it. *)
Lemma commit_accepts env uid category amount fs :
  (forall id b, budgets fs !! id = Some b -> activeBudget uid category b = true ->
                writeOk env id = true) ->
  commit env (batchFor env uid category amount fs) (budgets fs)
  = Some (applyAll (applyUpdate (serverTime env))
            (batchFor env uid category amount fs) (budgets fs)).
Proof.
  intros Hok. unfold commit.
  replace (forallb _ _) with true; [reflexivity|]. symmetry.
  apply forallb_forall. intros [id u] Hin. cbn.
  apply in_map_iff in Hin as ([id' b] & E & Hin). injection E as -> <-.
  apply queryBudgets_In in Hin as [Hb Ha].
  rewrite (Hok _ _ Hb Ha). unfold exists_doc. now rewrite Hb.
Qed.

(** One refused write fails the whole batch. *)
Lemma commit_rejects env uid category amount fs id b :
  budgets fs !! id = Some b -> activeBudget uid category b = true ->
  writeOk env id = false ->
  commit env (batchFor env uid category amount fs) (budgets fs) = None.
Proof.
  intros Hb Ha Hw. unfold commit.
  destruct (forallb _ _) eqn:E; [|reflexivity].
  rewrite forallb_forall in E.
  specialize (E (id, spendingUpdate env amount b)). cbn in E.
  rewrite Hw in E. discriminate E.
  apply in_map_iff. exists (id, b). split; [reflexivity|]. now apply queryBudgets_In.
Qed.

(** After the batch, every document of the collection: updated if the query
    selected it, untouched otherwise. *)
Lemma applied_lookup env uid category amount fs id b :
  budgets fs !! id = Some b ->
  applyAll (applyUpdate (serverTime env)) (batchFor env uid category amount fs) (budgets fs)
    !! id
  = Some (if activeBudget uid category b
          then applyUpdate (serverTime env) (spendingUpdate env amount b) b else b).
Proof.
  intros Hb. destruct (activeBudget uid category b) eqn:Ha.
  - rewrite (applyAll_target _ _ _ _ (spendingUpdate env amount b)).
    + now rewrite Hb.
    + rewrite batchFor_keys. apply queryBudgets_NoDup.
    + apply in_map_iff. exists (id, b). split; [reflexivity|]. now apply queryBudgets_In.
  - rewrite applyAll_other; [assumption|].
    rewrite batchFor_keys. intros Hin. apply in_map_iff in Hin as ([id' b'] & E & Hin).
    cbn in E. subst id'. apply queryBudgets_In in Hin as [Hb' Ha']. congruence.
Qed.

(** ** Updating the budgets *)

Lemma updateBudgetSpending_accepted env category amount w uid :
  currentUser env = Some uid ->
  batchAccepted env uid category (db w) ->
  updateBudgetSpending env category amount w
  = {| db := {| budgets := applyAll (applyUpdate (serverTime env))
                             (batchFor env uid category amount (db w)) (budgets (db w));
                expenses := expenses (db w); users := users (db w) |};
       trace := trace w ++ [EvRemote (QueryBudgets uid category);
                            EvRemote (CommitBatch (batchFor env uid category amount (db w)));
                            EvConsoleLog "Budget spending updated successfully"] |}.
Proof.
  intros Hu Hok. unfold updateBudgetSpending. rewrite Hu. cbn [db emit].
  rewrite (commit_accepts env uid category amount (db w) Hok).
  unfold emit, setBudgets. cbn [db trace]. rewrite <- !app_assoc. reflexivity.
Qed.

Lemma updateBudgetSpending_rejected env category amount w uid id b :
  currentUser env = Some uid ->
  budgets (db w) !! id = Some b -> activeBudget uid category b = true ->
  writeOk env id = false ->
  updateBudgetSpending env category amount w
  = {| db := db w;
       trace := trace w ++ [EvRemote (QueryBudgets uid category);
                            EvRemote (CommitBatch (batchFor env uid category amount (db w)));
                            EvConsoleError "Error updating budget spending:"] |}.
Proof.
  intros Hu Hb Ha Hw. unfold updateBudgetSpending. rewrite Hu. cbn [db emit].
  rewrite (commit_rejects env uid category amount (db w) id b Hb Ha Hw).
  unfold emit. cbn [db trace]. rewrite <- !app_assoc. reflexivity.
Qed.

(** C1. An active budget on the expense's category whose stored period key
    differs from the current one is reset when an expense of [amount] is
    recorded and the batch is committed: the stored key becomes the current
    key and the accumulator becomes exactly [amount], whatever it was. *)
Theorem C1_rollover_resets_accumulator env category amount w uid id b :
  currentUser env = Some uid ->
  budgets (db w) !! id = Some b ->
  activeBudget uid category b = true ->
  Budget.currentPeriod b <> getCurrentPeriod (date env) (Budget.budgetType b) (now env) ->
  batchAccepted env uid category (db w) ->
  budgets (db (updateBudgetSpending env category amount w)) !! id
  = Some (Budget.mk (Budget.userId b) (Budget.category b) (Budget.budgetType b)
            (Budget.budgetAmount b)
            (getCurrentPeriod (date env) (Budget.budgetType b) (now env))
            amount (Budget.isActive b) (serverTime env)).
Proof.
  intros Hu Hb Ha Hp Hok.
  rewrite (updateBudgetSpending_accepted _ _ _ _ _ Hu Hok). cbn [db budgets].
  rewrite (applied_lookup _ _ _ _ _ _ _ Hb), Ha.
  unfold spendingUpdate, applyUpdate.
  apply String.eqb_neq in Hp. rewrite Hp. reflexivity.
Qed.

Lemma C1_rollover_witness :
  budgets (db (updateBudgetSpending (Examples.deviceAt Examples.june10 (fun _ => true))
                 "food-dining" 30
                 (Examples.store {[ "b1" := Examples.foodBudget "2024-05" 85 ]} [] ∅)))
    !! "b1"
  = Some (Budget.mk "u1" "food-dining" "monthly" 100 "2024-06" 30 true Examples.june10).
Proof.
  apply (C1_rollover_resets_accumulator
           (Examples.deviceAt Examples.june10 (fun _ => true)) "food-dining" 30
           (Examples.store {[ "b1" := Examples.foodBudget "2024-05" 85 ]} [] ∅)
           "u1" "b1" (Examples.foodBudget "2024-05" 85)).
  - reflexivity.
  - vm_compute. reflexivity.
  - reflexivity.
  - vm_compute. discriminate.
  - intros id b _ _. reflexivity.
Defined.

(** C2. An active budget on the expense's category whose stored period key
    equals the current one accumulates: the accumulator becomes the prior
    accumulator, as the code reads it ([currentSpent || 0]), plus [amount],
    and the stored key stays. The value read is the stored one for every
    number other than [NaN] and the negative zero. *)
Theorem C2_same_period_accumulates env category amount w uid id b :
  currentUser env = Some uid ->
  budgets (db w) !! id = Some b ->
  activeBudget uid category b = true ->
  Budget.currentPeriod b = getCurrentPeriod (date env) (Budget.budgetType b) (now env) ->
  batchAccepted env uid category (db w) ->
  budgets (db (updateBudgetSpending env category amount w)) !! id
  = Some (Budget.mk (Budget.userId b) (Budget.category b) (Budget.budgetType b)
            (Budget.budgetAmount b) (Budget.currentPeriod b)
            (Js.or_else (Budget.currentSpent b) 0 + amount)%float
            (Budget.isActive b) (serverTime env))
  /\ (is_nan (Budget.currentSpent b) = false ->
      Prim2SF (Budget.currentSpent b) <> S754_zero true ->
      (Js.or_else (Budget.currentSpent b) 0 + amount
       = Budget.currentSpent b + amount)%float).
Proof.
  intros Hu Hb Ha Hp Hok. split.
  - rewrite (updateBudgetSpending_accepted _ _ _ _ _ Hu Hok). cbn [db budgets].
    rewrite (applied_lookup _ _ _ _ _ _ _ Hb), Ha.
    unfold spendingUpdate, applyUpdate.
    apply String.eqb_eq in Hp. rewrite Hp. reflexivity.
  - intros Hn Hz. now rewrite or_else_number.
Qed.

Lemma C2_accumulate_witness :
  budgets (db (updateBudgetSpending (Examples.deviceAt Examples.june10 (fun _ => true))
                 "food-dining" 10
                 (Examples.store {[ "b1" := Examples.foodBudget "2024-06" 85 ]} [] ∅)))
    !! "b1"
  = Some (Budget.mk "u1" "food-dining" "monthly" 100 "2024-06" 95 true Examples.june10)
  /\ (Js.or_else 85 0 + 10 = 85 + 10)%float.
Proof.
  destruct (C2_same_period_accumulates
              (Examples.deviceAt Examples.june10 (fun _ => true)) "food-dining" 10
              (Examples.store {[ "b1" := Examples.foodBudget "2024-06" 85 ]} [] ∅)
              "u1" "b1" (Examples.foodBudget "2024-06" 85)) as [H1 H2].
  - reflexivity.
  - vm_compute. reflexivity.
  - reflexivity.
  - vm_compute. reflexivity.
  - intros id b _ _. reflexivity.
  - split.
    + exact H1.
    + apply H2; [reflexivity|vm_compute; discriminate].
Defined.

(** ** The budget alert check *)

Lemma alertsOf_app l1 l2 : alertsOf (l1 ++ l2) = alertsOf l1 ++ alertsOf l2.
Proof. unfold alertsOf. apply omap_app. Qed.

Lemma emitAlerts_trace alerts : forall w,
  trace (emitAlerts alerts w) = trace w ++ map EvAlert alerts
  /\ db (emitAlerts alerts w) = db w.
Proof.
  induction alerts as [|a alerts IH]; intros w; cbn.
  - now rewrite app_nil_r.
  - destruct (IH (emit (EvAlert a) w)) as [Ht Hd]. unfold emitAlerts in Ht, Hd.
    rewrite Ht, Hd. cbn. now rewrite <- app_assoc.
Qed.

Lemma alertsOf_alerts alerts : alertsOf (map EvAlert alerts) = alerts.
Proof. induction alerts as [|a alerts IH]; cbn; [reflexivity|]. now f_equal. Qed.

(** C3, as the code has it. The alert check shows, for the user's active
    budgets on the category, each once and in the order of their document
    ids, what its loop body yields; and for every budget whose stored
    period key equals the current one that body signals "exceeded" exactly
    when accumulator / budget amount, each read with the code's [|| 0], is
    at least 1, "warning" exactly when that ratio is in [0.9, 1), and
    nothing when it is below 0.9. The values read are the stored ones for
    all numbers other than [NaN] and the negative zero; a stored amount of
    [NaN] is read as 0. *)
Theorem C3_budget_alert_thresholds env category amount w uid b :
  currentUser env = Some uid ->
  Budget.currentPeriod b = getCurrentPeriod (date env) (Budget.budgetType b) (now env) ->
  alertsOf (trace (checkBudgetAlerts env category amount w))
  = alertsOf (trace w)
    ++ omap (fun d => budgetAlert env category (snd d)) (queryBudgets uid category (db w))
  /\ (forall id b',
        In (id, b') (queryBudgets uid category (db w))
        <-> budgets (db w) !! id = Some b'
            /\ Budget.userId b' = uid /\ Budget.category b' = category
            /\ Budget.isActive b' = true)
  /\ Sorted (fun d1 d2 => String.leb (fst d1) (fst d2) = true)
       (queryBudgets uid category (db w))
  /\ NoDup (map fst (queryBudgets uid category (db w)))
  /\ (signalOf (budgetAlert env category b) = Some Exceeded
      <-> (1 <=? ratio b)%float = true)
  /\ (signalOf (budgetAlert env category b) = Some Warning
      <-> (Js.nineTenths <=? ratio b)%float = true /\ (ratio b <? 1)%float = true)
  /\ ((ratio b <? Js.nineTenths)%float = true -> budgetAlert env category b = None)
  /\ (is_nan (Budget.currentSpent b) = false ->
      Prim2SF (Budget.currentSpent b) <> S754_zero true ->
      is_nan (Budget.budgetAmount b) = false ->
      Prim2SF (Budget.budgetAmount b) <> S754_zero true ->
      ratio b = (Budget.currentSpent b / Budget.budgetAmount b)%float)
  /\ (is_nan (Budget.budgetAmount b) = true ->
      ratio b = (Js.or_else (Budget.currentSpent b) 0 / 0)%float).
Proof.
  intros Hu Hp. split.
  { unfold checkBudgetAlerts. rewrite Hu.
    destruct (emitAlerts_trace
                (omap (fun d => budgetAlert env category (snd d))
                   (queryBudgets uid category (db (emit (EvRemote (QueryBudgets uid category)) w))))
                (emit (EvRemote (QueryBudgets uid category)) w)) as [-> _].
    cbn [emit db trace]. rewrite !alertsOf_app, alertsOf_alerts. cbn. now rewrite app_nil_r. }
  split.
  { intros id b'. rewrite queryBudgets_In. unfold activeBudget.
    rewrite !andb_true_iff, !String.eqb_eq, eqb_true_iff. tauto. }
  split.
  { apply (sortBy_Sorted Query.byId). intros d1 d2. apply byId_total. }
  split; [apply queryBudgets_NoDup|].
  unfold budgetAlert. apply String.eqb_eq in Hp. rewrite Hp.
  change (Js.or_else (Budget.currentSpent b) 0 / Js.or_else (Budget.budgetAmount b) 0)%float
    with (ratio b).
  destruct (percent_thresholds (ratio b)) as [-> ->].
  assert (Hraw : is_nan (Budget.currentSpent b) = false ->
                 Prim2SF (Budget.currentSpent b) <> S754_zero true ->
                 is_nan (Budget.budgetAmount b) = false ->
                 Prim2SF (Budget.budgetAmount b) <> S754_zero true ->
                 ratio b = (Budget.currentSpent b / Budget.budgetAmount b)%float).
  { intros H1 H2 H3 H4. unfold ratio. now rewrite !or_else_number. }
  assert (Hnan : is_nan (Budget.budgetAmount b) = true ->
                 ratio b = (Js.or_else (Budget.currentSpent b) 0 / 0)%float).
  { intros H. unfold ratio. f_equal. unfold Js.or_else, Js.truthy. now rewrite H. }
  destruct (1 <=? ratio b)%float eqn:E1.
  - pose proof (leb_true_ltb_false _ _ E1) as L1.
    pose proof (leb_true_ltb_false _ _ (one_above_nine_tenths _ E1)) as L9.
    cbn [signalOf]. split; [|split; [|split; [|split; [exact Hraw|exact Hnan]]]].
    + split; congruence.
    + split; [congruence|]. intros [_ H]. congruence.
    + congruence.
  - destruct (Js.nineTenths <=? ratio b)%float eqn:E9.
    + pose proof (below_one _ _ E9 E1) as L1.
      pose proof (leb_true_ltb_false _ _ E9) as L9.
      cbn [signalOf]. split; [|split; [|split; [|split; [exact Hraw|exact Hnan]]]].
      * split; congruence.
      * split; [auto|reflexivity].
      * congruence.
    + cbn [signalOf]. split; [|split; [|split; [|split; [exact Hraw|exact Hnan]]]].
      * split; congruence.
      * split; [congruence|]. intros [H _]. congruence.
      * reflexivity.
Qed.

Lemma C3_thresholds_witness :
  alertsOf (trace (checkBudgetAlerts (Examples.deviceAt Examples.june10later (fun _ => true))
                     "food-dining" 10
                     (Examples.store {[ "b1" := Examples.foodBudget "2024-06" 95 ]} [] ∅)))
  = [AlertBudgetWarning 95 "monthly" "food-dining" 95 100]
  /\ (signalOf (budgetAlert (Examples.deviceAt Examples.june10later (fun _ => true))
                  "food-dining" (Examples.foodBudget "2024-06" 95)) = Some Warning
      <-> (Js.nineTenths <=? 95 / 100)%float = true /\ (95 / 100 <? 1)%float = true).
Proof.
  destruct (C3_budget_alert_thresholds
              (Examples.deviceAt Examples.june10later (fun _ => true)) "food-dining" 10
              (Examples.store {[ "b1" := Examples.foodBudget "2024-06" 95 ]} [] ∅)
              "u1" (Examples.foodBudget "2024-06" 95)) as (H1 & _ & _ & _ & _ & H3 & _ & _ & _).
  - reflexivity.
  - vm_compute. reflexivity.
  - split; [rewrite H1; vm_compute; reflexivity|exact H3].
Defined.

(** C3 as the specification words it fails on a budget whose stored amount
    is [NaN], which is what [saveBudget] stores for the text "abc": the
    quotient of the stored numbers is [NaN], which is not at least 1, and
    the check, reading the amount as 0, shows the exceeded alert after the
    first expense. *)
Lemma C3_nan_budget_counterexample :
  let home := HomeExamples.homeAt Examples.june10 in
  let saved :=
    HomeScreen.saveBudget home (HomeExamples.budgetForm "food-dining" "monthly" "abc" [])
      (HomeExamples.storeOf ∅ [] ∅) in
  let env := Examples.deviceAt Examples.june10 (fun _ => true) in
  let later := Examples.deviceAt Examples.june10later (fun _ => true) in
  let w' :=
    saveExpenseAndSettle env later (Examples.form 5 Examples.shop)
      {| db := HomeScreen.store saved; trace := [] |} in
  budgets (db w') !! "b9"
  = Some (Budget.mk "u1" "food-dining" "monthly" nan "2024-06" 5 true Examples.june10)
  /\ (1 <=? 5 / nan)%float = false
  /\ alertsOf (trace w') = [AlertSuccess 5; AlertBudgetExceeded "monthly" "food-dining" 5 0]
  /\ ~ Claimed.budgetSignalsByStoredRatio.
Proof.
  cbv zeta. split; [vm_compute; reflexivity|]. split; [vm_compute; reflexivity|].
  split; [vm_compute; reflexivity|].
  intros H.
  destruct (H (Examples.deviceAt Examples.june10later (fun _ => true)) "food-dining"
              (Budget.mk "u1" "food-dining" "monthly" nan "2024-06" 5 true Examples.june10))
    as (H1 & _ & _).
  - vm_compute. reflexivity.
  - cbv zeta in H1. destruct H1 as [H1 _].
    assert (Hs : signalOf
                   (budgetAlert (Examples.deviceAt Examples.june10later (fun _ => true))
                      "food-dining"
                      (Budget.mk "u1" "food-dining" "monthly" nan "2024-06" 5 true
                         Examples.june10))
                 = Some Exceeded) by (vm_compute; reflexivity).
    specialize (H1 Hs). vm_compute in H1. discriminate.
Qed.

(** ** The monthly overspending check *)

(** What the check does for a signed-in user, with or without a user
    document: it writes nothing and shows one alert, the overspending
    alert, when the total it computes reaches the limit it read. *)
Lemma checkOverspendingAlert_alerts env amount w uid :
  currentUser env = Some uid ->
  let api := date env in
  let startOfMonth :=
    makeDate api (getFullYear api (now env)) (getMonth api (now env)) 1 0 0 0 in
  let endOfMonth :=
    makeDate api (getFullYear api (now env)) (getMonth api (now env) + 1) 0 23 59 59 in
  let total := totalMonthlySpent (queryExpenses uid startOfMonth endOfMonth (db w)) amount in
  let limit :=
    match users (db w) !! uid with
    | Some userData => overspendingLimit userData
    | None => 1000%float
    end in
  db (checkOverspendingAlert env amount w) = db w
  /\ alertsOf (trace (checkOverspendingAlert env amount w))
     = alertsOf (trace w)
       ++ (if (limit <=? total)%float then [AlertOverspending total limit] else []).
Proof.
  intros Hu api startOfMonth endOfMonth total limit.
  unfold checkOverspendingAlert. rewrite Hu.
  unfold Query.notExistsProperty. cbn [emit db].
  fold api. fold startOfMonth. fold endOfMonth. fold total. fold limit.
  destruct (limit <=? total)%float; cbn [emit db trace]; split; try reflexivity.
  - rewrite !alertsOf_app. cbn. now rewrite !app_nil_r.
  - rewrite !alertsOf_app. cbn. now rewrite !app_nil_r.
Qed.

(** The total the check compares is the month's sum, the stored documents
    only, plus the amount passed in. *)
Lemma totalMonthlySpent_is_sum_plus_amount env uid fs amount :
  let api := date env in
  let startOfMonth :=
    makeDate api (getFullYear api (now env)) (getMonth api (now env)) 1 0 0 0 in
  let endOfMonth :=
    makeDate api (getFullYear api (now env)) (getMonth api (now env) + 1) 0 23 59 59 in
  totalMonthlySpent (queryExpenses uid startOfMonth endOfMonth fs) amount
  = (Claimed.monthlySum env uid fs + amount)%float.
Proof. reflexivity. Qed.

(** C4. The code departs from the claim. User u1 has a threshold of 1000
    and one expense of 500 this month (one of 700 is from May, one of 400 is
    another user's); they record an expense of 300. The month's sum,
    the new amount included, is 800, below 90% of the threshold, so the
    claim has no signal. The check runs after the document is stored, its
    query returns the new document, and it adds the amount once more: it
    compares 1100 and shows the overspending alert. *)
Theorem C4_new_expense_counted_twice :
  let env := Examples.deviceAt Examples.june10 (fun _ => true) in
  let later := Examples.deviceAt Examples.june10later (fun _ => true) in
  let w := Examples.store ∅
             [Examples.expenseWith "e1" "u1" 500 Examples.june5;
              Examples.expenseWith "e2" "u1" 700 (UtcDate.make 2024 4 20 9 0 0);
              Examples.expenseWith "e3" "u2" 400 Examples.june5]
             {[ "u1" := UserDoc.mk (Some 1000%float) ]} in
  let w' := saveExpenseAndSettle env later (Examples.form 300 Examples.shop) w in
  map (fun e => (Expense.id e, Expense.amount e))
    (queryExpenses "u1" (UtcDate.make 2024 5 1 0 0 0) (UtcDate.make 2024 6 0 23 59 59) (db w'))
  = [("e1", 500%float); ("e5", 300%float)]
  /\ Claimed.monthlySum later "u1" (db w') = 800%float
  /\ (Js.nineTenths * 1000 <=? 800)%float = false
  /\ alertsOf (trace w') = [AlertSuccess 300; AlertOverspending 1100 1000].
Proof. cbv zeta. repeat split; vm_compute; reflexivity. Qed.

(** The check has no second, lower cutoff: with 900 already spent this
    month and a threshold of 1000, recording an expense of 10 brings the
    month to 910, above 90% of the threshold, and no alert but the
    confirmation of the save is shown. *)
Example overspending_has_no_warning :
  let env := Examples.deviceAt Examples.june10 (fun _ => true) in
  let later := Examples.deviceAt Examples.june10later (fun _ => true) in
  let w := Examples.store ∅ [Examples.expenseOf 900 Examples.june5]
             {[ "u1" := UserDoc.mk (Some 1000%float) ]} in
  let w' := saveExpenseAndSettle env later (Examples.form 10 Examples.shop) w in
  Claimed.monthlySum later "u1" (db w') = 910%float
  /\ (Js.nineTenths * 1000 <=? 910)%float = true
  /\ alertsOf (trace w') = [AlertSuccess 10].
Proof. cbv zeta. repeat split; vm_compute; reflexivity. Qed.

(** ** The relay *)

(** C5, as the code has it. A non-PDF upload is answered by the error
    middleware before the handler runs, so no extraction is attempted; when
    the text was extracted and the completion call fails or returns text
    that does not parse as JSON, the answer is a success whose analysis has
    its five fields null; when the extraction times out, the answer is the
    500 error of the handler's [catch]. *)
Theorem C5_relay_degrades_analysis_only env req :
  (forall f, Relay.file req = Some f -> Relay.mimetype f <> "application/pdf" ->
     Relay.postExtractText env req
     = ({| Relay.status := 500;
           Relay.body := Relay.Failure "Only PDF files are allowed!" None |}, []))
  /\ (forall f text,
        Relay.upload_single req = Relay.Stored f ->
        Relay.extraction env = Relay.Extracted text ->
        match Relay.completion env with
        | Relay.CompletionFailed _ => True
        | Relay.Completed c => Relay.jsonParse env (Relay.contentText c) = None
        end ->
        fst (Relay.postExtractText env req)
        = {| Relay.status := 200;
             Relay.body := Relay.Success (Relay.originalname f) text Relay.nullAnalysis
                             "Text extracted and analyzed successfully" |})
  /\ (forall f,
        Relay.upload_single req = Relay.Stored f ->
        Relay.extraction env = Relay.ExtractionTimeout ->
        fst (Relay.postExtractText env req)
        = {| Relay.status := 500;
             Relay.body := Relay.Failure "Failed to extract text from PDF"
                             (Some "Text extraction timeout") |}).
Proof.
  repeat split.
  - intros f Hf Hm. unfold Relay.postExtractText, Relay.upload_single. rewrite Hf.
    apply String.eqb_neq in Hm. now rewrite Hm.
  - intros f text Hs He Hc. unfold Relay.postExtractText. rewrite Hs.
    unfold Relay.extractTextHandler, Relay.analyzeFinancialDocument. rewrite He.
    destruct (Relay.completion env) as [c|message]; [rewrite Hc|]; reflexivity.
  - intros f Hs He. unfold Relay.postExtractText. rewrite Hs.
    unfold Relay.extractTextHandler. now rewrite He.
Qed.

Lemma C5_relay_witness :
  Relay.postExtractText
    (Examples.relayWith (Relay.Extracted "TOTAL RM 25.50") (Relay.CompletionFailed "503"))
    {| Relay.file := Some Examples.photo |}
  = ({| Relay.status := 500;
        Relay.body := Relay.Failure "Only PDF files are allowed!" None |}, [])
  /\ fst (Relay.postExtractText
            (Examples.relayWith (Relay.Extracted "TOTAL RM 25.50")
               (Relay.Completed (Relay.ContentText "Sorry, I cannot help.")))
            {| Relay.file := Some Examples.receipt |})
     = {| Relay.status := 200;
          Relay.body := Relay.Success "receipt.pdf" "TOTAL RM 25.50" Relay.nullAnalysis
                          "Text extracted and analyzed successfully" |}
  /\ fst (Relay.postExtractText
            (Examples.relayWith Relay.ExtractionTimeout (Relay.CompletionFailed "503"))
            {| Relay.file := Some Examples.receipt |})
     = {| Relay.status := 500;
          Relay.body := Relay.Failure "Failed to extract text from PDF"
                          (Some "Text extraction timeout") |}.
Proof.
  split; [|split].
  - apply (proj1 (C5_relay_degrades_analysis_only _ _) Examples.photo);
      [reflexivity|discriminate].
  - apply (proj1 (proj2 (C5_relay_degrades_analysis_only _ _)) Examples.receipt);
      reflexivity.
  - apply (proj2 (proj2 (C5_relay_degrades_analysis_only _ _)) Examples.receipt);
      reflexivity.
Defined.

(** C5 as the specification words it fails: a PDF whose extraction times
    out is answered with status 500 and no analysis at all. *)
Lemma C5_timeout_counterexample :
  let r := fst (Relay.postExtractText
                  (Examples.relayWith Relay.ExtractionTimeout (Relay.CompletionFailed "503"))
                  {| Relay.file := Some Examples.receipt |}) in
  Relay.status r = 500
  /\ Relay.succeeded r = false
  /\ Relay.analysisOf r = None
  /\ ~ Claimed.timeoutYieldsNullAnalysis.
Proof.
  cbv zeta. split; [reflexivity|]. split; [reflexivity|]. split; [reflexivity|].
  intros H.
  destruct (H (Examples.relayWith Relay.ExtractionTimeout (Relay.CompletionFailed "503"))
              {| Relay.file := Some Examples.receipt |} Examples.receipt eq_refl eq_refl)
    as [Hs _].
  discriminate Hs.
Qed.

(** ** A failing budget write *)

(** C6, as the code has it. The updates of all active budgets on the
    category go out in one atomic batch, committed once: when the remote
    refuses the write of one of them, no budget is updated, the failure is
    logged to the console, and nothing is retried. *)
Theorem C6_budget_batch_is_atomic env category amount w uid id b :
  currentUser env = Some uid ->
  budgets (db w) !! id = Some b ->
  activeBudget uid category b = true ->
  writeOk env id = false ->
  db (updateBudgetSpending env category amount w) = db w
  /\ trace (updateBudgetSpending env category amount w)
     = trace w ++ [EvRemote (QueryBudgets uid category);
                   EvRemote (CommitBatch (batchFor env uid category amount (db w)));
                   EvConsoleError "Error updating budget spending:"].
Proof.
  intros Hu Hb Ha Hw.
  rewrite (updateBudgetSpending_rejected _ _ _ _ _ _ _ Hu Hb Ha Hw). split; reflexivity.
Qed.

Lemma C6_atomic_witness :
  let env := Examples.deviceAt Examples.june10 (fun id => negb (String.eqb id "b1")) in
  let w := Examples.store {[ "b1" := Examples.foodBudget "2024-06" 85;
                             "b2" := Examples.foodBudget "2024-06" 40 ]} [] ∅ in
  db (updateBudgetSpending env "food-dining" 10 w) = db w
  /\ trace (updateBudgetSpending env "food-dining" 10 w)
     = trace w ++ [EvRemote (QueryBudgets "u1" "food-dining");
                   EvRemote (CommitBatch (batchFor env "u1" "food-dining" 10 (db w)));
                   EvConsoleError "Error updating budget spending:"].
Proof.
  cbv zeta.
  apply (C6_budget_batch_is_atomic
           (Examples.deviceAt Examples.june10 (fun id => negb (String.eqb id "b1")))
           "food-dining" 10
           (Examples.store {[ "b1" := Examples.foodBudget "2024-06" 85;
                              "b2" := Examples.foodBudget "2024-06" 40 ]} [] ∅)
           "u1" "b1" (Examples.foodBudget "2024-06" 85)).
  - reflexivity.
  - vm_compute. reflexivity.
  - reflexivity.
  - reflexivity.
Defined.

(** C6 as the specification words it fails: of two budgets on the category,
    the remote refuses the write to the first only; the second, whose write
    it would accept and whose update would make its accumulator 50, keeps
    its accumulator of 40. *)
Lemma C6_independent_counterexample :
  let env := Examples.deviceAt Examples.june10 (fun id => negb (String.eqb id "b1")) in
  let w := Examples.store {[ "b1" := Examples.foodBudget "2024-06" 85;
                             "b2" := Examples.foodBudget "2024-06" 40 ]} [] ∅ in
  writeOk env "b2" = true
  /\ budgets (db (updateBudgetSpending env "food-dining" 10 w)) !! "b2"
     = Some (Examples.foodBudget "2024-06" 40)
  /\ Budget.currentSpent
       (applyUpdate (serverTime env)
          (spendingUpdate env 10 (Examples.foodBudget "2024-06" 40))
          (Examples.foodBudget "2024-06" 40)) = 50%float
  /\ ~ Claimed.independentBudgetUpdates.
Proof.
  cbv zeta. split; [reflexivity|]. split; [vm_compute; reflexivity|].
  split; [vm_compute; reflexivity|].
  intros H.
  specialize (H (Examples.deviceAt Examples.june10 (fun id => negb (String.eqb id "b1")))
                "food-dining" 10%float
                (Examples.store {[ "b1" := Examples.foodBudget "2024-06" 85;
                                   "b2" := Examples.foodBudget "2024-06" 40 ]} [] ∅)
                "u1" "b2" (Examples.foodBudget "2024-06" 40)).
  assert (Hb : budgets (db (Examples.store {[ "b1" := Examples.foodBudget "2024-06" 85;
                                              "b2" := Examples.foodBudget "2024-06" 40 ]}
                              [] ∅)) !! "b2" = Some (Examples.foodBudget "2024-06" 40))
    by (vm_compute; reflexivity).
  specialize (H eq_refl Hb eq_refl eq_refl).
  apply (f_equal (fun o => match o with
                           | Some b => (Budget.currentSpent b =? 40)%float
                           | None => false
                           end)) in H.
  vm_compute in H. discriminate H.
Qed.

(** ** Saving an expense *)

(** C7. With no authenticated user, saving an expense shows the error and
    stops: the trace gains that one alert, no remote call is made, the store
    is as it was and no timer is set; the budget update on its own returns
    at once as well. *)
Theorem C7_signed_out_aborts_before_writes env s w category amount :
  currentUser env = None ->
  saveExpense env s w
  = ({| db := db w;
        trace := trace w ++ [EvAlert (AlertError "You must be logged in to save expenses")] |},
     [])
  /\ updateBudgetSpending env category amount w = w.
Proof.
  intros Hu. unfold saveExpense, updateBudgetSpending. rewrite Hu. split; reflexivity.
Qed.

Lemma C7_signed_out_witness :
  saveExpense (Examples.signedOutAt Examples.june10) (Examples.form 10 Examples.shop)
    (Examples.store {[ "b1" := Examples.foodBudget "2024-06" 85 ]} [] ∅)
  = ({| db := {| budgets := {[ "b1" := Examples.foodBudget "2024-06" 85 ]};
                 expenses := []; users := ∅ |};
        trace := [EvAlert (AlertError "You must be logged in to save expenses")] |}, [])
  /\ updateBudgetSpending (Examples.signedOutAt Examples.june10) "food-dining" 10
       (Examples.store {[ "b1" := Examples.foodBudget "2024-06" 85 ]} [] ∅)
     = Examples.store {[ "b1" := Examples.foodBudget "2024-06" 85 ]} [] ∅.
Proof.
  apply (C7_signed_out_aborts_before_writes (Examples.signedOutAt Examples.june10)
           (Examples.form 10 Examples.shop)
           (Examples.store {[ "b1" := Examples.foodBudget "2024-06" 85 ]} [] ∅)
           "food-dining" 10).
  reflexivity.
Defined.

Lemma trimStart_blank s : forallb Js.isWhiteSpace s = true -> Js.trimStart s = [].
Proof.
  induction s as [|c s IH]; cbn; [reflexivity|].
  intros H. apply andb_true_iff in H as [-> H]. auto.
Qed.

Lemma trim_blank s : forallb Js.isWhiteSpace s = true -> Js.trim s = [].
Proof. intros H. unfold Js.trim, Js.trimEnd. now rewrite (trimStart_blank s H). Qed.

(** C10. When the amount is not strictly positive (zero, negative or
    [NaN]) or the merchant name is empty or made of white space only,
    saving an expense does nothing but show an error: the trace gains one
    alert and no remote call, the store is as it was, no timer is set. *)
Theorem C10_invalid_form_is_rejected env s w :
  (0 <? amount (expenseData s))%float = false
  \/ forallb Js.isWhiteSpace (merchantName (expenseData s)) = true ->
  exists message,
    saveExpense env s w
    = ({| db := db w; trace := trace w ++ [EvAlert (AlertError message)] |}, []).
Proof.
  intros H. unfold saveExpense.
  destruct (currentUser env) as [uid|]; [|eexists; reflexivity].
  destruct (negb (Js.truthy (amount (expenseData s))) || (amount (expenseData s) <=? 0)%float)
    eqn:Ea; [eexists; reflexivity|].
  destruct H as [H|H].
  - rewrite (not_positive_is_invalid _ H) in Ea. discriminate Ea.
  - rewrite (trim_blank _ H). eexists; reflexivity.
Qed.

Lemma C10_invalid_form_witness :
  exists message,
    saveExpense (Examples.deviceAt Examples.june10 (fun _ => true))
      (Examples.form 25 [32; 9; 160])
      (Examples.store {[ "b1" := Examples.foodBudget "2024-06" 85 ]} [] ∅)
    = ({| db := db (Examples.store {[ "b1" := Examples.foodBudget "2024-06" 85 ]} [] ∅);
          trace := trace (Examples.store {[ "b1" := Examples.foodBudget "2024-06" 85 ]} [] ∅)
                   ++ [EvAlert (AlertError message)] |}, []).
Proof.
  apply (C10_invalid_form_is_rejected (Examples.deviceAt Examples.june10 (fun _ => true))
           (Examples.form 25 [32; 9; 160])
           (Examples.store {[ "b1" := Examples.foodBudget "2024-06" 85 ]} [] ∅)).
  right. reflexivity.
Defined.

(** ** Period keys *)

(** C8. Two dates have the same monthly key exactly when the device's
    calendar puts them in the same month of the same year. *)
Theorem C8_monthly_key_same_month api d1 d2 :
  getCurrentPeriod api "monthly" d1 = getCurrentPeriod api "monthly" d2
  <-> getFullYear api d1 = getFullYear api d2 /\ getMonth api d1 = getMonth api d2.
Proof.
  unfold getCurrentPeriod. cbn [String.eqb Ascii.eqb Bool.eqb]. split.
  - intros E. change ("-" +:+ ?x) with (String "-" x) in E.
    apply toString_dash_split in E as [Hy Hm].
    apply padStart2_inj in Hm. split; [assumption|lia].
  - intros [-> ->]. reflexivity.
Qed.

Lemma ceil_succ_div x : Js.ceil_div (x + 1) 7 = x / 7 + 1.
Proof. unfold Js.ceil_div. Z.div_mod_to_equations. lia. Qed.

(** C9, as the code has it. The weekly key is the calendar year joined with
    a week number computed from two inputs: the whole days elapsed since
    1 January of that year and the weekday of that 1 January (0 for
    Sunday). The week number is their sum plus one, divided by 7 and rounded
    up, which is the sum divided by 7 and rounded down, plus one. *)
Theorem C9_weekly_key_counts_from_sunday api now :
  let startOfYear := makeDate api (getFullYear api now) 0 1 0 0 0 in
  let days := (now - startOfYear) / 86400000 in
  getCurrentPeriod api "weekly" now
  = Js.toString (getFullYear api now) +:+ "-W"
      +:+ Js.padStart 2 "0"%char (Js.toString ((days + getDay api startOfYear) / 7 + 1)).
Proof.
  cbv zeta. unfold getCurrentPeriod. cbn [String.eqb Ascii.eqb Bool.eqb].
  rewrite ceil_succ_div. reflexivity.
Qed.

(** C9 as the specification words it fails: on Monday 1 January 2024 no day
    has elapsed, the words give week 0 and the code gives week 1; and
    7 January falls in week 2 of 2022 but in week 1 of 2023, with six days
    elapsed in both. *)
Lemma C9_elapsed_days_counterexample :
  getCurrentPeriod UtcDate.utc "weekly" (UtcDate.make 2024 0 1 0 0 0) = "2024-W01"
  /\ Claimed.weeklyKeyBySpec UtcDate.utc (UtcDate.make 2024 0 1 0 0 0) = "2024-W00"
  /\ getCurrentPeriod UtcDate.utc "weekly" (UtcDate.make 2022 0 7 0 0 0) = "2022-W02"
  /\ getCurrentPeriod UtcDate.utc "weekly" (UtcDate.make 2023 0 7 0 0 0) = "2023-W01"
  /\ ~ Claimed.weeklyKeyFromElapsedDays.
Proof.
  split; [vm_compute; reflexivity|]. split; [vm_compute; reflexivity|].
  split; [vm_compute; reflexivity|]. split; [vm_compute; reflexivity|].
  intros H. specialize (H UtcDate.utc (UtcDate.make 2024 0 1 0 0 0)).
  vm_compute in H. discriminate H.
Qed.

(** ** Recording an expense reaches the budget update *)

(** [!a || a <= 0] fails for every strictly positive number. *)
Lemma positive_is_valid (a : float) :
  (0 <? a)%float = true -> negb (Js.truthy a) || (a <=? 0)%float = false.
Proof.
  unfold Js.truthy, is_nan, is_zero. rewrite negb_involutive.
  rewrite ltb_spec, leb_spec, !FloatAxioms.eqb_spec.
  change (Prim2SF 0) with (S754_zero false). change (Prim2SF zero) with (S754_zero false).
  destruct (Prim2SF a) as [s|s| |s m e]; intros H.
  - destruct s; discriminate H.
  - destruct s; [discriminate H|reflexivity].
  - discriminate H.
  - destruct s; [discriminate H|].
    unfold SFeqb, SFleb, SFcompare. rewrite Z.compare_refl, Pos.compare_cont_refl.
    reflexivity.
Qed.

Lemma updateBudgetSpending_reads_budgets env category amount w w' :
  budgets (db w) = budgets (db w') ->
  budgets (db (updateBudgetSpending env category amount w))
  = budgets (db (updateBudgetSpending env category amount w')).
Proof.
  intros E. unfold updateBudgetSpending.
  destruct (currentUser env) as [uid|]; [|assumption].
  cbn [emit db]. unfold batchFor, queryBudgets. rewrite E.
  destruct (commit env _ (budgets (db w'))); cbn; [reflexivity|assumption].
Qed.

(** A valid form saved by a signed-in user adds the expense document and
    leaves the budgets as [updateBudgetSpending] leaves them, so C1 and C2
    describe what recording an expense does to each budget. *)
Lemma saveExpense_records env s w uid :
  currentUser env = Some uid ->
  (0 <? amount (expenseData s))%float = true ->
  Js.trim (merchantName (expenseData s)) <> [] ->
  addError env = None ->
  expenses (db (fst (saveExpense env s w))) = expenses (db w) ++ [expenseDoc env uid s]
  /\ budgets (db (fst (saveExpense env s w)))
     = budgets (db (updateBudgetSpending env (category (expenseData s))
                      (amount (expenseData s)) w))
  /\ snd (saveExpense env s w)
     = [{| timerCategory := category (expenseData s);
           timerAmount := amount (expenseData s) |}].
Proof.
  intros Hu Ha Hm He. unfold saveExpense. rewrite Hu, (positive_is_valid _ Ha), He.
  destruct (Js.trim (merchantName (expenseData s))) as [|c t] eqn:Et; [congruence|].
  cbn [Js.isEmpty fst snd emit db]. repeat split.
  - unfold updateBudgetSpending. rewrite Hu. cbn [emit db addExpense].
    destruct (commit env _ _); reflexivity.
  - apply updateBudgetSpending_reads_budgets. reflexivity.
Qed.

(** ** The scenarios of the specification, end to end *)

(** Budget 100, monthly, 85 spent: an expense of 10 in the same month brings
    the accumulator to 95 and, once the timer fires, the warning. *)
Example scenario_warning_at_95 :
  let w' := saveExpenseAndSettle (Examples.deviceAt Examples.june10 (fun _ => true))
              (Examples.deviceAt Examples.june10later (fun _ => true))
              (Examples.form 10 Examples.shop)
              (Examples.store {[ "b1" := Examples.foodBudget "2024-06" 85 ]} [] ∅) in
  budgets (db w') !! "b1"
  = Some (Budget.mk "u1" "food-dining" "monthly" 100 "2024-06" 95 true Examples.june10)
  /\ alertsOf (trace w')
     = [AlertSuccess 10; AlertBudgetWarning 95 "monthly" "food-dining" 95 100].
Proof. cbv zeta. split; vm_compute; reflexivity. Qed.

(** The same budget with an expense of 20: 105 and the exceeded alert. *)
Example scenario_exceeded_at_105 :
  let w' := saveExpenseAndSettle (Examples.deviceAt Examples.june10 (fun _ => true))
              (Examples.deviceAt Examples.june10later (fun _ => true))
              (Examples.form 20 Examples.shop)
              (Examples.store {[ "b1" := Examples.foodBudget "2024-06" 85 ]} [] ∅) in
  budgets (db w') !! "b1"
  = Some (Budget.mk "u1" "food-dining" "monthly" 100 "2024-06" 105 true Examples.june10)
  /\ alertsOf (trace w')
     = [AlertSuccess 20; AlertBudgetExceeded "monthly" "food-dining" 105 100].
Proof. cbv zeta. split; vm_compute; reflexivity. Qed.

(** Stored key 2024-05, current month 2024-06: an expense of 30 resets the
    accumulator to 30. *)
Example scenario_reset_to_30 :
  let w' := saveExpenseAndSettle (Examples.deviceAt Examples.june10 (fun _ => true))
              (Examples.deviceAt Examples.june10later (fun _ => true))
              (Examples.form 30 Examples.shop)
              (Examples.store {[ "b1" := Examples.foodBudget "2024-05" 85 ]} [] ∅) in
  budgets (db w') !! "b1"
  = Some (Budget.mk "u1" "food-dining" "monthly" 100 "2024-06" 30 true Examples.june10)
  /\ alertsOf (trace w') = [AlertSuccess 30].
Proof. cbv zeta. split; vm_compute; reflexivity. Qed.

(** * Further properties of the code *)

(** ** The relay's answers and its clean-up *)

Ltac relay_cases :=
  repeat split; intros;
  repeat match goal with
         | H : _ /\ _ |- _ => destruct H
         | H : _ \/ _ |- _ => destruct H
         | H : exists _, _ |- _ => destruct H
         end;
  try discriminate; eauto.

(** X1. The status of the relay's answer depends on the upload and on the
    text extraction only: it is the success answer (status 200) exactly when
    the upload was stored and the text was extracted, whatever the
    completion call did; it is 400 exactly when no file came or the file was
    over the size limit; every other answer has status 500. *)
Theorem relay_status_by_upload_and_extraction env req :
  let r := fst (Relay.postExtractText env req) in
  (Relay.succeeded r = true
   <-> (exists f, Relay.upload_single req = Relay.Stored f)
       /\ (exists text, Relay.extraction env = Relay.Extracted text))
  /\ (Relay.status r = 400
      <-> Relay.upload_single req = Relay.NoFile
          \/ Relay.upload_single req = Relay.LimitFileSize)
  /\ (Relay.succeeded r = false -> Relay.status r = 400 \/ Relay.status r = 500)
  /\ (Relay.succeeded r = true <-> Relay.status r = 200).
Proof.
  cbv zeta. unfold Relay.postExtractText.
  destruct (Relay.upload_single req) as [|f|message|] eqn:Eu; cbn.
  - relay_cases.
  - unfold Relay.analyzeFinancialDocument.
    destruct (Relay.extraction env) as [text|message|] eqn:Ee.
    + destruct (Relay.completion env) as [c|message];
        [destruct (Relay.jsonParse env (Relay.contentText c))|]; cbn; relay_cases.
    + cbn. relay_cases.
    + cbn. relay_cases.
  - relay_cases.
  - relay_cases.
Qed.

(** X2. A stored upload is deleted exactly once and last: the handler's
    actions start with the extraction on the stored path and end with the
    removal of that path, with no other extraction or removal in between,
    whether the extraction succeeded, failed or timed out. When the upload
    was not stored (no file, not a PDF, too large) the relay extracts and
    removes nothing. *)
Theorem relay_removes_stored_upload_once env req :
  match Relay.upload_single req with
  | Relay.Stored f =>
    exists middle,
      snd (Relay.postExtractText env req)
      = Relay.EvExtractText (Relay.path f) :: middle ++ [Relay.EvUnlink (Relay.path f)]
      /\ forallb (fun e => negb (Relay.isExtraction e) && negb (RelayTrace.isUnlink e)) middle
         = true
  | _ => snd (Relay.postExtractText env req) = []
  end.
Proof.
  unfold Relay.postExtractText.
  destruct (Relay.upload_single req) as [|f|message|]; try reflexivity.
  unfold Relay.extractTextHandler, Relay.analyzeFinancialDocument.
  destruct (Relay.extraction env) as [text|message|].
  - destruct (Relay.completion env) as [c|message];
      [destruct (Relay.jsonParse env (Relay.contentText c))|]; cbn.
    + exists [Relay.EvCompletion text]. split; reflexivity.
    + exists [Relay.EvCompletion text;
              Relay.EvConsoleError "Failed to parse Groq response as JSON:"].
      split; reflexivity.
    + exists [Relay.EvCompletion text;
              Relay.EvConsoleError "Error analyzing document with Groq:"].
      split; reflexivity.
  - cbn. exists [Relay.EvConsoleError "Error extracting text:"]. split; reflexivity.
  - cbn. exists [Relay.EvConsoleError "Error extracting text:"]. split; reflexivity.
Qed.

(** X3. The completion service is called at most once, and only with the
    text that was extracted from a stored upload: when the upload is
    refused or the extraction fails or times out, nothing is sent to it. *)
Theorem relay_sends_only_extracted_text env req :
  List.filter RelayTrace.isCompletion (snd (Relay.postExtractText env req))
  = match Relay.upload_single req, Relay.extraction env with
    | Relay.Stored _, Relay.Extracted text => [Relay.EvCompletion text]
    | _, _ => []
    end.
Proof.
  unfold Relay.postExtractText.
  destruct (Relay.upload_single req) as [|f|message|]; try reflexivity.
  unfold Relay.extractTextHandler, Relay.analyzeFinancialDocument.
  destruct (Relay.extraction env) as [text|message|]; try reflexivity.
  destruct (Relay.completion env) as [c|message];
    [destruct (Relay.jsonParse env (Relay.contentText c))|]; reflexivity.
Qed.

(** ** What saving an expense stores *)

Lemma trimStart_head s c t : Js.trimStart s = c :: t -> Js.isWhiteSpace c = false.
Proof.
  induction s as [|a s IH]; cbn; [discriminate|].
  destruct (Js.isWhiteSpace a) eqn:E; [exact IH|].
  intros H. injection H as <- _. exact E.
Qed.

Lemma trimStart_suffix s : exists p, s = p ++ Js.trimStart s.
Proof.
  induction s as [|a s [p IH]]; cbn; [now exists []|].
  destruct (Js.isWhiteSpace a).
  - exists (a :: p). cbn. now f_equal.
  - now exists [].
Qed.

Lemma trimEnd_prefix s : exists q, s = Js.trimEnd s ++ q.
Proof.
  unfold Js.trimEnd. destruct (trimStart_suffix (rev s)) as [p Hp].
  exists (rev p). rewrite <- rev_app_distr, <- Hp. now rewrite rev_involutive.
Qed.

(** What [trim] returns neither starts nor ends with white space. *)
Lemma trim_head s c : head (Js.trim s) = Some c -> Js.isWhiteSpace c = false.
Proof.
  unfold Js.trim. destruct (trimEnd_prefix (Js.trimStart s)) as [q Hq].
  destruct (Js.trimEnd (Js.trimStart s)) as [|a t]; [discriminate|].
  cbn. intros H. injection H as <-.
  apply (trimStart_head s a (t ++ q)). exact Hq.
Qed.

Lemma trim_last s c : last (Js.trim s) = Some c -> Js.isWhiteSpace c = false.
Proof.
  unfold Js.trim, Js.trimEnd.
  destruct (Js.trimStart (rev (Js.trimStart s))) as [|a t] eqn:E; [discriminate|].
  cbn [rev]. rewrite last_snoc. intros H. injection H as <-.
  exact (trimStart_head _ _ _ E).
Qed.

(** X4. Whatever the form and the environment, saving an expense adds at
    most one document to the expenses, and a document it adds belongs to
    the signed-in user, has a strictly positive amount and a merchant name
    that is not empty and neither starts nor ends with white space, and
    carries the server's time. *)
Theorem saved_expense_is_well_formed env s w :
  let w' := fst (saveExpense env s w) in
  expenses (db w') = expenses (db w)
  \/ exists uid doc,
       currentUser env = Some uid
       /\ expenses (db w') = expenses (db w) ++ [doc]
       /\ Expense.userId doc = uid
       /\ (0 <? Expense.amount doc)%float = true
       /\ Expense.merchantName doc <> []
       /\ (forall c, head (Expense.merchantName doc) = Some c -> Js.isWhiteSpace c = false)
       /\ (forall c, last (Expense.merchantName doc) = Some c -> Js.isWhiteSpace c = false)
       /\ Expense.createdAt doc = serverTime env.
Proof.
  cbv zeta. unfold saveExpense.
  destruct (currentUser env) as [uid|] eqn:Hu; [|left; reflexivity].
  destruct (negb (Js.truthy (amount (expenseData s))) || (amount (expenseData s) <=? 0)%float)
    eqn:Ea; [left; reflexivity|].
  destruct (Js.isEmpty (Js.trim (merchantName (expenseData s)))) eqn:Em; [left; reflexivity|].
  destruct (addError env) as [message|]; [left; reflexivity|].
  right. exists uid, (expenseDoc env uid s). split; [reflexivity|]. split.
  { cbn [fst emit db]. unfold updateBudgetSpending. rewrite Hu. cbn [emit db addExpense].
    destruct (commit env _ _); reflexivity. }
  split; [reflexivity|]. split.
  { cbn. destruct (0 <? amount (expenseData s))%float eqn:Ep; [reflexivity|].
    rewrite (not_positive_is_invalid _ Ep) in Ea. discriminate Ea. }
  split.
  { cbn. intros E. rewrite E in Em. discriminate Em. }
  split; [intros c; apply trim_head|]. split; [intros c; apply trim_last|reflexivity].
Qed.

(** X5. When the remote refuses to add the expense, nothing is written and
    nothing follows: the store is as it was, no timer is set (so no budget
    or overspending check runs), and the alerts gain exactly one error
    alert, never the success alert. *)
Theorem refused_expense_changes_nothing env s w message :
  addError env = Some message ->
  db (fst (saveExpense env s w)) = db w
  /\ snd (saveExpense env s w) = []
  /\ exists text,
       alertsOf (trace (fst (saveExpense env s w))) = alertsOf (trace w) ++ [AlertError text].
Proof.
  intros He. unfold saveExpense.
  destruct (currentUser env) as [uid|];
    [|cbn; rewrite alertsOf_app; eauto].
  destruct (negb (Js.truthy (amount (expenseData s))) || (amount (expenseData s) <=? 0)%float);
    [cbn; rewrite alertsOf_app; eauto|].
  destruct (Js.isEmpty (Js.trim (merchantName (expenseData s))));
    [cbn; rewrite alertsOf_app; eauto|].
  rewrite He. cbn [fst snd emit db trace]. split; [reflexivity|]. split; [reflexivity|].
  rewrite !alertsOf_app. cbn. rewrite !app_nil_r. eauto.
Qed.

Lemma refused_expense_witness :
  let env := {| date := UtcDate.utc; currentUser := Some "u1"; now := Examples.june10;
                serverTime := Examples.june10; addError := Some "unavailable";
                writeOk := fun _ => true; newExpenseId := "e5" |} in
  let w := Examples.store {[ "b1" := Examples.foodBudget "2024-06" 85 ]} [] ∅ in
  db (fst (saveExpense env (Examples.form 10 Examples.shop) w)) = db w
  /\ snd (saveExpense env (Examples.form 10 Examples.shop) w) = []
  /\ exists text,
       alertsOf (trace (fst (saveExpense env (Examples.form 10 Examples.shop) w)))
       = alertsOf (trace w) ++ [AlertError text].
Proof.
  cbv zeta.
  apply (refused_expense_changes_nothing
           {| date := UtcDate.utc; currentUser := Some "u1"; now := Examples.june10;
              serverTime := Examples.june10; addError := Some "unavailable";
              writeOk := fun _ => true; newExpenseId := "e5" |}
           (Examples.form 10 Examples.shop)
           (Examples.store {[ "b1" := Examples.foodBudget "2024-06" 85 ]} [] ∅)
           "unavailable").
  reflexivity.
Defined.

(** X6. A budget update that fails does not undo or flag the save: with a
    valid form and an accepted expense, when the remote refuses the write to
    one of the category's active budgets, the expense document stays
    stored, no budget changes, the only alert shown is the success alert,
    and the timer for the checks is set as usual. *)
Theorem failed_budget_update_is_silent env s w uid id b :
  currentUser env = Some uid ->
  (0 <? amount (expenseData s))%float = true ->
  Js.trim (merchantName (expenseData s)) <> [] ->
  addError env = None ->
  budgets (db w) !! id = Some b ->
  activeBudget uid (category (expenseData s)) b = true ->
  writeOk env id = false ->
  let w' := fst (saveExpense env s w) in
  expenses (db w') = expenses (db w) ++ [expenseDoc env uid s]
  /\ budgets (db w') = budgets (db w)
  /\ alertsOf (trace w') = alertsOf (trace w) ++ [AlertSuccess (amount (expenseData s))]
  /\ snd (saveExpense env s w)
     = [{| timerCategory := category (expenseData s);
           timerAmount := amount (expenseData s) |}].
Proof.
  intros Hu Ha Hm He Hb Hact Hw. cbv zeta.
  unfold saveExpense. rewrite Hu, (positive_is_valid _ Ha), He.
  destruct (Js.trim (merchantName (expenseData s))) as [|c t] eqn:Et; [congruence|].
  cbn [Js.isEmpty fst snd].
  rewrite (updateBudgetSpending_rejected env _ _ _ uid id b Hu); try assumption.
  cbn [emit db trace addExpense budgets expenses].
  split; [reflexivity|]. split; [reflexivity|]. split; [|reflexivity].
  rewrite !alertsOf_app. cbn. now rewrite !app_nil_r.
Qed.

Lemma failed_budget_update_witness :
  let env := Examples.deviceAt Examples.june10 (fun id => negb (String.eqb id "b1")) in
  let s := Examples.form 10 Examples.shop in
  let w := Examples.store {[ "b1" := Examples.foodBudget "2024-06" 85 ]} [] ∅ in
  expenses (db (fst (saveExpense env s w))) = expenses (db w) ++ [expenseDoc env "u1" s]
  /\ budgets (db (fst (saveExpense env s w))) = budgets (db w)
  /\ alertsOf (trace (fst (saveExpense env s w))) = alertsOf (trace w) ++ [AlertSuccess 10]
  /\ snd (saveExpense env s w) = [{| timerCategory := "food-dining"; timerAmount := 10 |}].
Proof.
  cbv zeta.
  apply (failed_budget_update_is_silent
           (Examples.deviceAt Examples.june10 (fun id => negb (String.eqb id "b1")))
           (Examples.form 10 Examples.shop)
           (Examples.store {[ "b1" := Examples.foodBudget "2024-06" 85 ]} [] ∅)
           "u1" "b1" (Examples.foodBudget "2024-06" 85)).
  - reflexivity.
  - reflexivity.
  - vm_compute. discriminate.
  - reflexivity.
  - vm_compute. reflexivity.
  - reflexivity.
  - reflexivity.
Defined.

(** ** What the budget update leaves alone *)

Lemma applyAll_missing env uid category amount fs id :
  budgets fs !! id = None ->
  applyAll (applyUpdate (serverTime env)) (batchFor env uid category amount fs) (budgets fs)
    !! id = None.
Proof.
  intros Hn. rewrite applyAll_other; [assumption|].
  rewrite batchFor_keys. intros Hin. apply in_map_iff in Hin as ([id' b'] & E & Hin).
  cbn in E. subst id'. apply queryBudgets_In in Hin as [Hb' _]. congruence.
Qed.

(** X7. Recording an expense never adds or removes a budget and never
    touches the expenses or the user documents; a budget document changes
    only if it is an active budget of the signed-in user on the expense's
    category, and then only in its period key, accumulator and update time:
    owner, category, type, amount and active flag stay. *)
Theorem budget_update_touches_matching_budgets_only env category amount w :
  let w' := updateBudgetSpending env category amount w in
  expenses (db w') = expenses (db w)
  /\ users (db w') = users (db w)
  /\ forall id,
       budgets (db w') !! id = budgets (db w) !! id
       \/ exists uid b b',
            currentUser env = Some uid
            /\ budgets (db w) !! id = Some b
            /\ activeBudget uid category b = true
            /\ budgets (db w') !! id = Some b'
            /\ Budget.userId b' = Budget.userId b
            /\ Budget.category b' = Budget.category b
            /\ Budget.budgetType b' = Budget.budgetType b
            /\ Budget.budgetAmount b' = Budget.budgetAmount b
            /\ Budget.isActive b' = Budget.isActive b.
Proof.
  cbv zeta. unfold updateBudgetSpending.
  destruct (currentUser env) as [uid|] eqn:Hu; [|auto].
  cbn [emit db]. unfold commit.
  destruct (forallb _ _); cbn [emit setBudgets db budgets expenses users]; [|auto].
  split; [reflexivity|]. split; [reflexivity|]. intros id.
  destruct (budgets (db w) !! id) as [b|] eqn:Hb.
  - change (batchFor env uid category amount
              {| db := db w; trace := trace w ++ [EvRemote (QueryBudgets uid category)] |}.(db))
      with (batchFor env uid category amount (db w)).
    rewrite (applied_lookup env uid category amount (db w) id b Hb).
    destruct (activeBudget uid category b) eqn:Ha; [|left; reflexivity].
    right. exists uid, b, (applyUpdate (serverTime env) (spendingUpdate env amount b) b).
    repeat split; try reflexivity; assumption.
  - left. now apply applyAll_missing.
Qed.

(** X8. Once an expense has been recorded, every budget it updated carries
    the current period key, so a second expense recorded in the same period
    adds to what the first one left, whether the first one reset the
    accumulator or added to it. *)
Theorem second_expense_adds_to_first env later category a1 a2 w uid id b :
  currentUser env = Some uid ->
  currentUser later = Some uid ->
  budgets (db w) !! id = Some b ->
  activeBudget uid category b = true ->
  (forall k, writeOk env k = true) ->
  (forall k, writeOk later k = true) ->
  getCurrentPeriod (date later) (Budget.budgetType b) (now later)
  = getCurrentPeriod (date env) (Budget.budgetType b) (now env) ->
  let first :=
    if String.eqb (Budget.currentPeriod b)
         (getCurrentPeriod (date env) (Budget.budgetType b) (now env))
    then (Js.or_else (Budget.currentSpent b) 0 + a1)%float else a1 in
  budgets (db (updateBudgetSpending later category a2
                 (updateBudgetSpending env category a1 w))) !! id
  = Some (Budget.mk (Budget.userId b) (Budget.category b) (Budget.budgetType b)
            (Budget.budgetAmount b)
            (getCurrentPeriod (date env) (Budget.budgetType b) (now env))
            (Js.or_else first 0 + a2)%float (Budget.isActive b) (serverTime later)).
Proof.
  intros Hu Hu' Hb Ha Hok Hok' Hp. cbv zeta.
  rewrite (updateBudgetSpending_accepted later _ _ _ uid Hu') by (intros k b' _ _; apply Hok').
  cbn [db budgets].
  assert (H1 : budgets (db (updateBudgetSpending env category a1 w)) !! id
               = Some (applyUpdate (serverTime env) (spendingUpdate env a1 b) b)).
  { rewrite (updateBudgetSpending_accepted env _ _ _ uid Hu) by (intros k b' _ _; apply Hok).
    cbn [db budgets]. rewrite (applied_lookup _ _ _ _ _ _ _ Hb), Ha. reflexivity. }
  rewrite (applied_lookup _ _ _ _ _ _ _ H1).
  replace (activeBudget uid category (applyUpdate (serverTime env) (spendingUpdate env a1 b) b))
    with true by (symmetry; exact Ha).
  f_equal. unfold spendingUpdate, applyUpdate. cbn [Budget.budgetType Budget.currentPeriod].
  rewrite Hp.
  destruct (String.eqb (Budget.currentPeriod b)
              (getCurrentPeriod (date env) (Budget.budgetType b) (now env))) eqn:E;
    cbn [negb newPeriod newSpent Budget.currentPeriod Budget.currentSpent Budget.userId
         Budget.category Budget.budgetType Budget.budgetAmount Budget.isActive].
  - rewrite E. cbn [negb newPeriod newSpent]. apply String.eqb_eq in E. now rewrite E.
  - rewrite String.eqb_refl. reflexivity.
Qed.

Lemma second_expense_witness :
  budgets (db (updateBudgetSpending (Examples.deviceAt Examples.june10later (fun _ => true))
                 "food-dining" 20
                 (updateBudgetSpending (Examples.deviceAt Examples.june10 (fun _ => true))
                    "food-dining" 30
                    (Examples.store {[ "b1" := Examples.foodBudget "2024-05" 85 ]} [] ∅))))
    !! "b1"
  = Some (Budget.mk "u1" "food-dining" "monthly" 100 "2024-06" 50 true Examples.june10later).
Proof.
  apply (second_expense_adds_to_first
           (Examples.deviceAt Examples.june10 (fun _ => true))
           (Examples.deviceAt Examples.june10later (fun _ => true))
           "food-dining" 30 20
           (Examples.store {[ "b1" := Examples.foodBudget "2024-05" 85 ]} [] ∅)
           "u1" "b1" (Examples.foodBudget "2024-05" 85)).
  - reflexivity.
  - reflexivity.
  - vm_compute. reflexivity.
  - reflexivity.
  - reflexivity.
  - reflexivity.
  - vm_compute. reflexivity.
Defined.

(** ** The checks only read *)

Lemma forallb_alerts_read alerts :
  forallb (fun e => negb (ScreenTrace.isWrite e)) (map EvAlert alerts) = true.
Proof. induction alerts as [|a alerts IH]; [reflexivity|exact IH]. Qed.

Lemma checkBudgetAlerts_reads env category amount w :
  db (checkBudgetAlerts env category amount w) = db w
  /\ exists es, trace (checkBudgetAlerts env category amount w) = trace w ++ es
                /\ forallb (fun e => negb (ScreenTrace.isWrite e)) es = true.
Proof.
  unfold checkBudgetAlerts. destruct (currentUser env) as [uid|].
  - match goal with |- context [emitAlerts ?a ?w0] =>
      destruct (emitAlerts_trace a w0) as [Ht Hd] end.
    rewrite Ht, Hd. cbn [emit db trace]. split; [reflexivity|].
    rewrite <- app_assoc. eexists. split; [reflexivity|].
    cbn. apply forallb_alerts_read.
  - split; [reflexivity|]. exists []. now rewrite app_nil_r.
Qed.

Lemma checkOverspendingAlert_reads env amount w :
  db (checkOverspendingAlert env amount w) = db w
  /\ exists es, trace (checkOverspendingAlert env amount w) = trace w ++ es
                /\ forallb (fun e => negb (ScreenTrace.isWrite e)) es = true.
Proof.
  unfold checkOverspendingAlert.
  destruct (currentUser env) as [uid|];
    [|split; [reflexivity|]; exists []; now rewrite app_nil_r].
  unfold Query.notExistsProperty. cbn [emit db].
  match goal with |- context [if ?c then _ else _] => destruct c end;
    cbn [emit db trace]; (split; [reflexivity|]);
    rewrite <- ?app_assoc; eexists; (split; [reflexivity|reflexivity]).
Qed.

(** X9. The two checks the timer starts only read: whatever the store, the
    user and the clock, they leave every collection as it was, and what
    they add to the trace holds queries and alerts but no write (no added
    expense, no committed batch). *)
Theorem checks_never_write env t w :
  db (runTimer env t w) = db w
  /\ exists es, trace (runTimer env t w) = trace w ++ es
                /\ forallb (fun e => negb (ScreenTrace.isWrite e)) es = true.
Proof.
  unfold runTimer.
  destruct (checkBudgetAlerts_reads env (timerCategory t) (timerAmount t) w)
    as (Hd1 & es1 & Ht1 & Hf1).
  destruct (checkOverspendingAlert_reads env (timerAmount t)
              (checkBudgetAlerts env (timerCategory t) (timerAmount t) w))
    as (Hd2 & es2 & Ht2 & Hf2).
  split; [congruence|]. exists (es1 ++ es2). split.
  - rewrite Ht2, Ht1. now rewrite app_assoc.
  - rewrite forallb_app, Hf1, Hf2. reflexivity.
Qed.

(** ** Weekly keys *)

(** X10. Two dates have the same weekly key exactly when the device's
    calendar puts them in the same year and [getCurrentPeriod] computes the
    same week number for them. *)
Theorem weekly_key_same_week api d1 d2 :
  getCurrentPeriod api "weekly" d1 = getCurrentPeriod api "weekly" d2
  <-> getFullYear api d1 = getFullYear api d2
      /\ Period.weekNumber api d1 = Period.weekNumber api d2.
Proof.
  unfold getCurrentPeriod. cbn [String.eqb Ascii.eqb Bool.eqb].
  fold (Period.weekNumber api d1). fold (Period.weekNumber api d2). split.
  - intros E. change ("-W" +:+ ?x) with (String "-" (String "W" x)) in E.
    apply toString_dash_split in E as [Hy Hw]. injection Hw as Hw.
    apply padStart2_inj in Hw. auto.
  - intros [-> ->]. reflexivity.
Qed.

(** On the UTC calendar a date lies at most 365 days after 1 January of its
    year. *)
Lemma year_start_bracket z :
  let y := fst (fst (UtcDate.civil_from_days z)) in
  UtcDate.days_from_civil y 1 1 <= z <= UtcDate.days_from_civil y 1 1 + 365.
Proof.
  cbv zeta. unfold UtcDate.civil_from_days, UtcDate.days_from_civil. cbn [fst snd].
  change (1 <=? 2) with true. change (2 <? 1) with false. cbv iota.
  set (z' := z + 719468).
  set (era := z' / 146097).
  set (doe := z' - era * 146097).
  set (yoe := (doe - doe / 1460 + doe / 36524 - doe / 146096) / 365).
  set (doy := doe - (365 * yoe + yoe / 4 - yoe / 100)).
  set (mp := (5 * doy + 2) / 153).
  assert (Hdoe : 0 <= doe <= 146096) by (unfold doe, era; Z.div_mod_to_equations; lia).
  assert (Hyoe : 0 <= yoe <= 399) by (unfold yoe; Z.div_mod_to_equations; lia).
  assert (Hdoy : 0 <= doy <= 365) by (unfold doy, yoe; Z.div_mod_to_equations; lia).
  destruct (mp <? 10) eqn:Emp.
  - apply Z.ltb_lt in Emp.
    replace (mp + 3 <=? 2) with false
      by (symmetry; apply Z.leb_gt; unfold mp; Z.div_mod_to_equations; lia).
    replace ((yoe + era * 400 - 1) / 400) with (if yoe =? 0 then era - 1 else era)
      by (destruct (Z.eqb_spec yoe 0); Z.div_mod_to_equations; lia).
    destruct (Z.eqb_spec yoe 0) as [Ey|Ey].
    + unfold mp, doy, doe, era, z' in *. Z.div_mod_to_equations. lia.
    + unfold mp, doy, doe, era, z' in *. Z.div_mod_to_equations. lia.
  - apply Z.ltb_ge in Emp.
    replace (mp - 9 <=? 2) with true
      by (symmetry; apply Z.leb_le; unfold mp; Z.div_mod_to_equations; lia).
    replace ((yoe + era * 400 + 1 - 1) / 400) with era by (Z.div_mod_to_equations; lia).
    unfold mp, doy, doe, era, z' in *. Z.div_mod_to_equations. lia.
Qed.

(** X11. On a device whose time zone is UTC, for every date whose year is
    not one of 0..99 (which the [Date] constructor reads as 1900..1999), the
    week number of the weekly key lies between 1 and 54. *)
Theorem utc_week_number_range t :
  UtcDate.fullYear t < 0 \/ 99 < UtcDate.fullYear t ->
  1 <= Period.weekNumber UtcDate.utc t <= 54.
Proof.
  intros Hy. unfold Period.weekNumber, UtcDate.utc.
  cbn [getFullYear getDay makeDate]. unfold UtcDate.make.
  replace ((0 <=? UtcDate.fullYear t) && (UtcDate.fullYear t <=? 99)) with false
    by (symmetry; apply andb_false_iff; destruct Hy;
        [left; apply Z.leb_gt; lia|right; apply Z.leb_gt; lia]).
  change (0 / 12) with 0. change (0 mod 12) with 0. change (0 + 1) with 1.
  replace (UtcDate.fullYear t + 0) with (UtcDate.fullYear t) by lia.
  pose proof (year_start_bracket (t / UtcDate.msPerDay)) as Hb. cbv zeta in Hb.
  fold (UtcDate.fullYear t) in Hb.
  set (s := UtcDate.days_from_civil (UtcDate.fullYear t) 1 1) in *.
  unfold UtcDate.weekDay, Js.floor_div, Js.ceil_div, UtcDate.msPerDay in *.
  Z.div_mod_to_equations. lia.
Qed.

Lemma utc_week_number_witness :
  1 <= Period.weekNumber UtcDate.utc (UtcDate.make 2000 11 31 12 0 0) <= 54
  /\ Period.weekNumber UtcDate.utc (UtcDate.make 2000 11 31 12 0 0) = 54
  /\ getCurrentPeriod UtcDate.utc "weekly" (UtcDate.make 2000 11 31 12 0 0) = "2000-W54".
Proof.
  split; [|split; vm_compute; reflexivity].
  apply (utc_week_number_range (UtcDate.make 2000 11 31 12 0 0)).
  right. vm_compute. reflexivity.
Defined.

(** ** The colours of the progress bars *)

Section RoundingColors.
Import Binary64 Binary64Colors.

Lemma above_100_above_75 x : SFleb c100 x = true -> SFleb c75 x = true.
Proof.
  destruct x as [s|s| |s m e]; try (destruct s; cbn; congruence); try discriminate.
  destruct s; [discriminate|]. unfold c100, c75. rewrite !SFleb_pos_finite.
  intros H. apply orb_true_iff in H. apply orb_true_iff.
  destruct H as [H|H]; [left; exact H|right].
  apply andb_true_iff in H as [He Hm]. apply andb_true_iff. split; [exact He|].
  apply Z.leb_le in Hm. apply Z.leb_le. lia.
Qed.

Ltac below_constant := apply orb_false_iff; split;
  [apply Z.ltb_ge; lia
  |apply andb_false_iff;
   first [left; apply Z.eqb_neq; lia | right; apply Z.leb_gt; lia]].

(** Below one half the product stays below 75. *)
Lemma mul100_small_75 m e :
  bounded prec emax m e = true -> e <= -54 ->
  SFleb c75 (SFmul prec emax (S754_finite false m e) c100) = false.
Proof.
  intros Hb He. destruct (bounded_facts m e Hb) as (Hr & Hhi & Hlo).
  assert (Hfin : forall m1 e', 0 <= m1 <= 9007199254740992 -> -1074 <= e' <= -47 ->
            SFleb c75 (finish false m1 e') = false).
  { intros m1 e' Hm1 He'. rewrite finish_form by lia.
    destruct (Z.eqb_spec m1 0); [reflexivity|].
    destruct (Z.eqb_spec m1 9007199254740992).
    - destruct (Z.leb_spec (e' + 1) 971); [|lia].
      unfold c75. rewrite !SFleb_pos_finite. below_constant.
    - destruct (Z.leb_spec e' 971); [|lia].
      unfold c75. rewrite !SFleb_pos_finite. below_constant. }
  destruct (Z.eq_dec e (-1074)) as [->|Hn].
  - destruct (mul100_subnormal m Hb) as (m1 & e' & Hm1 & He' & ->). apply Hfin; lia.
  - specialize (Hlo ltac:(lia)).
    destruct (mul100_normal m e Hb ltac:(lia)) as (k & m1 & Hk & Hm1 & ->).
    change (2 ^ 105) with 40564819207303340847894502572032 in Hk.
    destruct Hk as [[-> HM]|[-> HM]].
    + change (2 ^ 52) with 4503599627370496 in Hm1.
      apply Hfin; [Z.div_mod_to_equations; lia|lia].
    + change (2 ^ 53) with 9007199254740992 in Hm1.
      apply Hfin; [Z.div_mod_to_equations; lia|lia].
Qed.

(** Between one half and one the product reaches 75 exactly from three
    quarters on. *)
Lemma mul100_half_75 m :
  bounded prec emax m (-53) = true ->
  SFleb c75 (SFmul prec emax (S754_finite false m (-53)) c100)
  = (6755399441055744 <=? Zpos m).
Proof.
  intros Hb. destruct (bounded_facts m _ Hb) as (Hr & Hhi & Hlo). specialize (Hlo ltac:(lia)).
  destruct (Pos.eq_dec m 9007199254740991%positive) as [->|Hmax]; [vm_compute; reflexivity|].
  destruct (Pos.eq_dec m 6755399441055743%positive) as [->|Hedge]; [vm_compute; reflexivity|].
  destruct (mul100_normal m _ Hb ltac:(lia)) as (k & m1 & Hk & Hm1 & ->).
  change (2 ^ 105) with 40564819207303340847894502572032 in Hk.
  destruct Hk as [[-> HM]|[-> HM]].
  - change (2 ^ 52) with 4503599627370496 in Hm1.
    assert (4503599627370496 <= m1 <= 9007199254740992) by (Z.div_mod_to_equations; lia).
    replace (6755399441055744 <=? Zpos m) with false by (symmetry; apply Z.leb_gt; lia).
    rewrite finish_form by lia.
    destruct (Z.eqb_spec m1 0); [lia|].
    destruct (Z.eqb_spec m1 9007199254740992).
    + vm_compute; reflexivity.
    + change (-53 - 46 + 52 <=? 971) with true. cbv iota.
      unfold c75. rewrite !SFleb_pos_finite. below_constant.
  - change (2 ^ 53) with 9007199254740992 in Hm1.
    assert (Hne1 : Zpos m <> 9007199254740991) by (intros E; apply Hmax; lia).
    assert (Hne2 : Zpos m <> 6755399441055743) by (intros E; apply Hedge; lia).
    assert (4503599627370496 <= m1 < 7036874417766400) by (Z.div_mod_to_equations; lia).
    rewrite finish_form by lia.
    destruct (Z.eqb_spec m1 0); [lia|].
    destruct (Z.eqb_spec m1 9007199254740992); [lia|].
    change (-53 - 46 + 53 <=? 971) with true. cbv iota.
    unfold c75. rewrite !SFleb_pos_finite, Z2Pos.id by lia.
    change (-46 <? -53 - 46 + 53) with false. change (-46 =? -53 - 46 + 53) with true.
    cbn [orb andb].
    destruct (Z.leb_spec 6755399441055744 (Zpos m)).
    + apply Z.leb_le. Z.div_mod_to_equations; lia.
    + apply Z.leb_gt. Z.div_mod_to_equations; lia.
Qed.

(** For every double [r], comparing [r * 100] with 75 decides [0.75 <= r]. *)
Lemma percent_75 (r : float) : (75 <=? r * 100)%float = (0.75 <=? r)%float.
Proof.
  rewrite !leb_spec, mul_spec.
  change (Prim2SF 100) with c100. change (Prim2SF 75) with c75.
  change (Prim2SF 0.75) with c075.
  pose proof (Prim2SF_valid r) as Hv.
  destruct (Prim2SF r) as [s|s| |s m e].
  - destruct s; reflexivity.
  - destruct s; reflexivity.
  - reflexivity.
  - cbn [valid_binary] in Hv. destruct s.
    + unfold SF64mul. cbn [SFmul c100 xorb]. unfold c75.
      rewrite !SFleb_pos_neg_round. reflexivity.
    + unfold SF64mul. unfold c075. rewrite !SFleb_pos_finite.
      destruct (bounded_facts m e Hv) as (Hr & Hhi & Hlo).
      destruct (Z_le_gt_dec (-52) e) as [He|He].
      * destruct (mul100_ge m e Hv He) as [H100 _].
        rewrite (above_100_above_75 _ H100).
        replace (-53 <? e) with true by (symmetry; apply Z.ltb_lt; lia). reflexivity.
      * destruct (Z.eq_dec e (-53)) as [->|Hne].
        -- rewrite (mul100_half_75 m Hv). reflexivity.
        -- rewrite (mul100_small_75 m e Hv ltac:(lia)).
           replace (-53 <? e) with false by (symmetry; apply Z.ltb_ge; lia).
           replace (-53 =? e) with false by (symmetry; apply Z.eqb_neq; lia).
           reflexivity.
Qed.

(** What is at least one, or at least nine tenths, is at least three quarters. *)
Lemma above_three_quarters (r : float) :
  (1 <=? r)%float = true \/ (Js.nineTenths <=? r)%float = true -> (0.75 <=? r)%float = true.
Proof.
  rewrite !leb_spec. change (Prim2SF 1) with c1. change (Prim2SF Js.nineTenths) with c09.
  change (Prim2SF 0.75) with c075.
  destruct (Prim2SF r) as [s|s| |s m e].
  - intros [H|H]; discriminate H.
  - destruct s; cbn; intros [H|H]; congruence.
  - intros [H|H]; discriminate H.
  - destruct s; [intros [H|H]; discriminate H|].
    unfold c1, c09, c075. rewrite !SFleb_pos_finite.
    intros H. apply orb_true_iff.
    destruct H as [H|H]; apply orb_true_iff in H; destruct H as [H|H].
    + left. apply Z.ltb_lt in H. apply Z.ltb_lt. lia.
    + apply andb_true_iff in H as [H _]. apply Z.eqb_eq in H. left. apply Z.ltb_lt. lia.
    + left. exact H.
    + right. apply andb_true_iff in H as [He Hm]. apply andb_true_iff. split; [exact He|].
      apply Z.leb_le in Hm. apply Z.leb_le. lia.
Qed.

End RoundingColors.

(** X12. The colour of a progress bar: red exactly when spent / budget is
    at least 1, orange exactly when the quotient is at least 0.75 and below
    1, green otherwise, and in particular when the quotient is not a number
    (a budget of 0 with nothing spent). The comparisons of the code are on
    the quotient times 100; in binary64 they decide exactly these. *)
Theorem progress_color_thresholds spent budget :
  let r := (spent / budget)%float in
  (HomeScreen.getProgressColor spent budget = HomeScreen.Red
   <-> (1 <=? r)%float = true)
  /\ (HomeScreen.getProgressColor spent budget = HomeScreen.Orange
      <-> (0.75 <=? r)%float = true /\ (r <? 1)%float = true)
  /\ (HomeScreen.getProgressColor spent budget = HomeScreen.Green
      <-> (0.75 <=? r)%float = false).
Proof.
  cbv zeta. unfold HomeScreen.getProgressColor.
  destruct (percent_thresholds (spent / budget)) as [-> _]. rewrite percent_75.
  destruct (1 <=? spent / budget)%float eqn:E1.
  - pose proof (leb_true_ltb_false _ _ E1) as L1.
    rewrite (above_three_quarters _ (or_introl E1)).
    repeat split; try congruence. intros [_ H]. congruence.
  - destruct (0.75 <=? spent / budget)%float eqn:E75.
    + pose proof (below_one _ _ E75 E1) as L1.
      repeat split; congruence.
    + repeat split; try congruence. intros [H _]. congruence.
Qed.

Section Degenerate.
Import Binary64 Binary64Colors.

Lemma is_nan_spec (x : float) : is_nan x = true -> Prim2SF x = S754_nan.
Proof.
  unfold is_nan. rewrite FloatAxioms.eqb_spec.
  destruct (Prim2SF x) as [s|s| |s m e]; cbn; try reflexivity.
  - destruct s; discriminate.
  - destruct s; discriminate.
  - unfold SFeqb, SFcompare. destruct s; rewrite Z.compare_refl, Pos.compare_cont_refl;
      discriminate.
Qed.

(** A quotient whose numerator is [NaN] or a zero is [NaN] or a zero, and
    its hundredfold reaches none of the thresholds. *)
Lemma degenerate_quotient (x y : float) :
  Prim2SF x = S754_nan \/ (exists s, Prim2SF x = S754_zero s) ->
  (100 <=? x / y * 100)%float = false
  /\ (90 <=? x / y * 100)%float = false
  /\ (75 <=? x / y * 100)%float = false.
Proof.
  intros Hx. rewrite !leb_spec, mul_spec, div_spec.
  change (Prim2SF 100) with c100. change (Prim2SF 90) with c90. change (Prim2SF 75) with c75.
  unfold SF64mul, SF64div.
  destruct Hx as [->|[s ->]].
  - repeat split; reflexivity.
  - destruct (Prim2SF y) as [sy|sy| |sy my ey]; cbn [SFdiv SFmul c100];
      repeat split; try reflexivity; destruct (xorb (xorb s sy) false); reflexivity.
Qed.

(** [x || 0] differs from [x] only when [x] is [NaN] or the negative zero,
    and is the zero then. *)
Lemma or_else_cases (x : float) :
  Js.or_else x 0 = x
  \/ (Prim2SF x = S754_nan \/ (exists s, Prim2SF x = S754_zero s)) /\ Js.or_else x 0 = 0%float.
Proof.
  destruct (is_nan x) eqn:En.
  - right. split; [left; now apply is_nan_spec|].
    unfold Js.or_else, Js.truthy. now rewrite En.
  - destruct (Prim2SF x) as [s|s| |s m e] eqn:Ex;
      try (left; apply or_else_number; [assumption|rewrite Ex; discriminate]).
    right. split; [right; eauto|].
    unfold Js.or_else, Js.truthy, is_zero. rewrite En, FloatAxioms.eqb_spec, Ex.
    change (Prim2SF zero) with (S754_zero false). destruct s; reflexivity.
Qed.

End Degenerate.

(** X13. The home screen's bar and the alert after an expense agree on a
    budget of the current period whose amount is a number other than the
    negative zero: the alert signals "exceeded" exactly when the bar is red,
    a "warning" only when the bar is orange, and nothing when the bar is
    green, although the bar reads the stored accumulator as it is and the
    alert reads it with [|| 0]. *)
Theorem bar_color_agrees_with_alert env category b :
  Budget.currentPeriod b = getCurrentPeriod (date env) (Budget.budgetType b) (now env) ->
  is_nan (Budget.budgetAmount b) = false ->
  Prim2SF (Budget.budgetAmount b) <> S754_zero true ->
  let color := HomeScreen.getProgressColor (Budget.currentSpent b) (Budget.budgetAmount b) in
  (signalOf (budgetAlert env category b) = Some Exceeded <-> color = HomeScreen.Red)
  /\ (signalOf (budgetAlert env category b) = Some Warning -> color = HomeScreen.Orange)
  /\ (color = HomeScreen.Green -> budgetAlert env category b = None).
Proof.
  intros Hp Hn Hz. cbv zeta. unfold budgetAlert, HomeScreen.getProgressColor.
  apply String.eqb_eq in Hp. rewrite Hp. rewrite (or_else_number _ Hn Hz).
  destruct (or_else_cases (Budget.currentSpent b)) as [->|[Hd ->]].
  - set (r := (Budget.currentSpent b / Budget.budgetAmount b)%float).
    destruct (percent_thresholds r) as [E100 E90]. rewrite E100, E90, percent_75.
    destruct (1 <=? r)%float eqn:E1.
    + cbn [signalOf]. repeat split; congruence.
    + destruct (Js.nineTenths <=? r)%float eqn:E9.
      * rewrite (above_three_quarters _ (or_intror E9)). cbn [signalOf].
        repeat split; congruence.
      * cbn [signalOf]. repeat split; try congruence.
        destruct (0.75 <=? r)%float; congruence.
  - destruct (degenerate_quotient (Budget.currentSpent b) (Budget.budgetAmount b) Hd)
      as (-> & _ & ->).
    destruct (degenerate_quotient 0 (Budget.budgetAmount b)) as (-> & -> & _).
    { right. exists false. reflexivity. }
    cbn [signalOf]. repeat split; congruence.
Qed.

Lemma bar_color_witness :
  let env := Examples.deviceAt Examples.june10later (fun _ => true) in
  let b := Examples.foodBudget "2024-06" 95 in
  (signalOf (budgetAlert env "food-dining" b) = Some Exceeded
   <-> HomeScreen.getProgressColor 95 100 = HomeScreen.Red)
  /\ (signalOf (budgetAlert env "food-dining" b) = Some Warning
      -> HomeScreen.getProgressColor 95 100 = HomeScreen.Orange)
  /\ (HomeScreen.getProgressColor 95 100 = HomeScreen.Green
      -> budgetAlert env "food-dining" b = None).
Proof.
  cbv zeta.
  apply (bar_color_agrees_with_alert (Examples.deviceAt Examples.june10later (fun _ => true))
           "food-dining" (Examples.foodBudget "2024-06" 95)).
  - vm_compute. reflexivity.
  - reflexivity.
  - vm_compute. discriminate.
Defined.

(** ** Budgets set on the home screen and expenses recorded afterwards *)

Section ZeroPlus.

(** Adding to the zero gives the number added, the negative zero apart. *)
Lemma add_zero_l (a : float) : Prim2SF a <> S754_zero true -> (0 + a = a)%float.
Proof.
  intros Hz.
  assert (E : Prim2SF (0 + a) = Prim2SF a).
  { rewrite add_spec. change (Prim2SF 0) with (S754_zero false).
    unfold SF64add. destruct (Prim2SF a) as [s|s| |s m e]; try reflexivity.
    destruct s; [now destruct Hz|reflexivity]. }
  rewrite <- (SF2Prim_Prim2SF (0 + a)), E. apply SF2Prim_Prim2SF.
Qed.

Lemma positive_not_negative_zero (a : float) :
  (0 <? a)%float = true -> Prim2SF a <> S754_zero true.
Proof.
  rewrite ltb_spec. change (Prim2SF 0) with (S754_zero false).
  intros H E. rewrite E in H. discriminate H.
Qed.

(** What is not at most zero is not a zero. *)
Lemma not_le_zero_not_zero (x : float) : (x <=? 0)%float = false -> is_zero x = false.
Proof.
  unfold is_zero. rewrite leb_spec, FloatAxioms.eqb_spec.
  change (Prim2SF 0) with (S754_zero false). change (Prim2SF zero) with (S754_zero false).
  unfold SFleb, SFeqb. destruct (SFcompare (Prim2SF x) (S754_zero false)) as [[| |]|];
    congruence.
Qed.

End ZeroPlus.

(** A budget that is not active is left alone by every budget update. *)
Lemma updateBudgetSpending_skips_inactive env category amount w id b :
  budgets (db w) !! id = Some b ->
  Budget.isActive b = false ->
  budgets (db (updateBudgetSpending env category amount w)) !! id = Some b.
Proof.
  intros Hb Hi. unfold updateBudgetSpending.
  destruct (currentUser env) as [uid|]; [|exact Hb].
  cbn [emit db]. unfold commit.
  destruct (forallb _ _); cbn [emit setBudgets db budgets]; [|exact Hb].
  change (batchFor env uid category amount
            {| db := db w; trace := trace w ++ [EvRemote (QueryBudgets uid category)] |}.(db))
    with (batchFor env uid category amount (db w)).
  rewrite (applied_lookup env uid category amount (db w) id b Hb).
  unfold activeBudget. rewrite Hi. cbn. now rewrite !andb_false_r.
Qed.

(** The budgets of an accepted update, read at one document. *)
Lemma updateBudgetSpending_lookup env category amount fs uid id b :
  currentUser env = Some uid ->
  (forall k, writeOk env k = true) ->
  budgets fs !! id = Some b ->
  activeBudget uid category b = true ->
  budgets (db (updateBudgetSpending env category amount {| db := fs; trace := [] |})) !! id
  = Some (applyUpdate (serverTime env) (spendingUpdate env amount b) b).
Proof.
  intros Hu Hok Hb Ha.
  rewrite (updateBudgetSpending_accepted env _ _ _ uid Hu) by (intros k b' _ _; apply Hok).
  cbn [db budgets]. now rewrite (applied_lookup _ _ _ _ _ _ _ Hb), Ha.
Qed.

(** X14. A budget created on the home screen starts the current period at
    zero: when the form is valid, no budget of that category and type is
    listed and the remote accepts the new document, the first expense of a
    positive amount recorded on that category in the same period leaves the
    new budget with the amount from the form, the current period key and an
    accumulator equal to the expense's amount. *)
Theorem new_budget_counts_first_expense env later st fs uid amount :
  HomeScreen.St.user st = Some uid ->
  currentUser later = Some uid ->
  HomeScreen.invalidBudgetForm env st = false ->
  HomeScreen.existingBudget st = None ->
  HomeScreen.addBudgetError env = None ->
  (forall k, writeOk later k = true) ->
  getCurrentPeriod (date later) (HomeScreen.St.budgetType st) (now later)
  = getCurrentPeriod (date (HomeScreen.base env)) (HomeScreen.St.budgetType st)
      (now (HomeScreen.base env)) ->
  (0 <? amount)%float = true ->
  let o := HomeScreen.saveBudget env st fs in
  budgets (HomeScreen.store o) !! HomeScreen.newBudgetId env
  = Some (Budget.mk uid (HomeScreen.St.selectedCategory st) (HomeScreen.St.budgetType st)
            (HomeScreen.parseFloat env (HomeScreen.St.budgetAmount st))
            (getCurrentPeriod (date (HomeScreen.base env)) (HomeScreen.St.budgetType st)
               (now (HomeScreen.base env)))
            0 true (serverTime (HomeScreen.base env)))
  /\ budgets (db (updateBudgetSpending later (HomeScreen.St.selectedCategory st) amount
                    {| db := HomeScreen.store o; trace := [] |}))
       !! HomeScreen.newBudgetId env
     = Some (Budget.mk uid (HomeScreen.St.selectedCategory st) (HomeScreen.St.budgetType st)
               (HomeScreen.parseFloat env (HomeScreen.St.budgetAmount st))
               (getCurrentPeriod (date (HomeScreen.base env)) (HomeScreen.St.budgetType st)
                  (now (HomeScreen.base env)))
               amount true (serverTime later)).
Proof.
  intros Hu Hl Hv Hex Hadd Hok Hp Ha. cbv zeta.
  assert (Hs : budgets (HomeScreen.store (HomeScreen.saveBudget env st fs))
                 !! HomeScreen.newBudgetId env
               = Some (Budget.mk uid (HomeScreen.St.selectedCategory st)
                         (HomeScreen.St.budgetType st)
                         (HomeScreen.parseFloat env (HomeScreen.St.budgetAmount st))
                         (getCurrentPeriod (date (HomeScreen.base env))
                            (HomeScreen.St.budgetType st) (now (HomeScreen.base env)))
                         0 true (serverTime (HomeScreen.base env)))).
  { unfold HomeScreen.saveBudget, HomeScreen.loadBudgets. rewrite Hu, Hv, Hex, Hadd.
    destruct (currentUser (HomeScreen.base env)); cbn [HomeScreen.store HomeScreen.withBudgets budgets];
      apply lookup_insert_eq. }
  split; [exact Hs|].
  rewrite (updateBudgetSpending_lookup later _ _ _ uid _ _ Hl Hok Hs).
  - unfold spendingUpdate, applyUpdate.
    cbn [Budget.budgetType Budget.currentPeriod Budget.currentSpent Budget.userId
         Budget.category Budget.budgetAmount Budget.isActive].
    rewrite Hp, String.eqb_refl. cbn [negb newPeriod newSpent].
    change (Js.or_else 0 0) with 0%float.
    rewrite (add_zero_l amount (positive_not_negative_zero _ Ha)). reflexivity.
  - unfold activeBudget. cbn. now rewrite !String.eqb_refl.
Qed.

Lemma new_budget_witness :
  let o := HomeScreen.saveBudget (HomeExamples.homeAt Examples.june10)
             (HomeExamples.budgetForm "food-dining" "monthly" "150" [])
             (HomeExamples.storeOf ∅ [] ∅) in
  budgets (HomeScreen.store o) !! "b9"
  = Some (Budget.mk "u1" "food-dining" "monthly" 150 "2024-06" 0 true Examples.june10)
  /\ budgets (db (updateBudgetSpending (Examples.deviceAt Examples.june10later (fun _ => true))
                    "food-dining" 30 {| db := HomeScreen.store o; trace := [] |})) !! "b9"
     = Some (Budget.mk "u1" "food-dining" "monthly" 150 "2024-06" 30 true
               Examples.june10later).
Proof.
  cbv zeta.
  apply (new_budget_counts_first_expense (HomeExamples.homeAt Examples.june10)
           (Examples.deviceAt Examples.june10later (fun _ => true))
           (HomeExamples.budgetForm "food-dining" "monthly" "150" [])
           (HomeExamples.storeOf ∅ [] ∅) "u1" 30).
  - reflexivity.
  - reflexivity.
  - vm_compute. reflexivity.
  - reflexivity.
  - reflexivity.
  - reflexivity.
  - vm_compute. reflexivity.
  - reflexivity.
Defined.

(** X15. Changing the amount of a listed budget rewrites its period key to
    the current one and keeps its accumulator. So whatever period the
    stored key named, the next expense of the period adds to the old
    accumulator: the reset that a stale key would have caused does not
    happen. *)
Theorem budget_edit_keeps_accumulator env later st fs uid id listed b amount :
  HomeScreen.St.user st = Some uid ->
  currentUser later = Some uid ->
  HomeScreen.invalidBudgetForm env st = false ->
  HomeScreen.existingBudget st = Some (id, listed) ->
  budgets fs !! id = Some b ->
  activeBudget uid (HomeScreen.St.selectedCategory st) b = true ->
  Budget.budgetType b = HomeScreen.St.budgetType st ->
  writeOk (HomeScreen.base env) id = true ->
  (forall k, writeOk later k = true) ->
  getCurrentPeriod (date later) (HomeScreen.St.budgetType st) (now later)
  = getCurrentPeriod (date (HomeScreen.base env)) (HomeScreen.St.budgetType st)
      (now (HomeScreen.base env)) ->
  let o := HomeScreen.saveBudget env st fs in
  let key := getCurrentPeriod (date (HomeScreen.base env)) (HomeScreen.St.budgetType st)
               (now (HomeScreen.base env)) in
  budgets (HomeScreen.store o) !! id
  = Some (Budget.mk (Budget.userId b) (Budget.category b) (Budget.budgetType b)
            (HomeScreen.parseFloat env (HomeScreen.St.budgetAmount st)) key
            (Budget.currentSpent b) (Budget.isActive b) (serverTime (HomeScreen.base env)))
  /\ budgets (db (updateBudgetSpending later (HomeScreen.St.selectedCategory st) amount
                    {| db := HomeScreen.store o; trace := [] |})) !! id
     = Some (Budget.mk (Budget.userId b) (Budget.category b) (Budget.budgetType b)
               (HomeScreen.parseFloat env (HomeScreen.St.budgetAmount st)) key
               (Js.or_else (Budget.currentSpent b) 0 + amount)%float
               (Budget.isActive b) (serverTime later)).
Proof.
  intros Hu Hl Hv Hex Hb Hact Hty Hw Hok Hp. cbv zeta.
  assert (Hs : budgets (HomeScreen.store (HomeScreen.saveBudget env st fs)) !! id
               = Some (HomeScreen.setAmountAndPeriod (serverTime (HomeScreen.base env))
                         (HomeScreen.parseFloat env (HomeScreen.St.budgetAmount st))
                         (getCurrentPeriod (date (HomeScreen.base env))
                            (HomeScreen.St.budgetType st) (now (HomeScreen.base env))) b)).
  { unfold HomeScreen.saveBudget, HomeScreen.loadBudgets, HomeScreen.updateBudgetDoc.
    rewrite Hu, Hv, Hex, Hb, Hw.
    destruct (currentUser (HomeScreen.base env));
      cbn [HomeScreen.store HomeScreen.withBudgets budgets]; apply lookup_insert_eq. }
  split; [exact Hs|].
  rewrite (updateBudgetSpending_lookup later _ _ _ uid _ _ Hl Hok Hs).
  - unfold spendingUpdate, applyUpdate, HomeScreen.setAmountAndPeriod.
    cbn [Budget.budgetType Budget.currentPeriod Budget.currentSpent Budget.userId
         Budget.category Budget.budgetAmount Budget.isActive].
    rewrite Hty, Hp, String.eqb_refl. reflexivity.
  - exact Hact.
Qed.

Lemma budget_edit_witness :
  let o := HomeScreen.saveBudget (HomeExamples.homeAt Examples.june10)
             (HomeExamples.budgetForm "food-dining" "monthly" "150"
                [("b1", Examples.foodBudget "2024-05" 85)])
             (HomeExamples.storeOf {[ "b1" := Examples.foodBudget "2024-05" 85 ]} [] ∅) in
  budgets (HomeScreen.store o) !! "b1"
  = Some (Budget.mk "u1" "food-dining" "monthly" 150 "2024-06" 85 true Examples.june10)
  /\ budgets (db (updateBudgetSpending (Examples.deviceAt Examples.june10later (fun _ => true))
                    "food-dining" 30 {| db := HomeScreen.store o; trace := [] |})) !! "b1"
     = Some (Budget.mk "u1" "food-dining" "monthly" 150 "2024-06" 115 true
               Examples.june10later).
Proof.
  cbv zeta.
  apply (budget_edit_keeps_accumulator (HomeExamples.homeAt Examples.june10)
           (Examples.deviceAt Examples.june10later (fun _ => true))
           (HomeExamples.budgetForm "food-dining" "monthly" "150"
              [("b1", Examples.foodBudget "2024-05" 85)])
           (HomeExamples.storeOf {[ "b1" := Examples.foodBudget "2024-05" 85 ]} [] ∅)
           "u1" "b1" (Examples.foodBudget "2024-05" 85) (Examples.foodBudget "2024-05" 85) 30).
  - reflexivity.
  - reflexivity.
  - vm_compute. reflexivity.
  - reflexivity.
  - vm_compute. reflexivity.
  - reflexivity.
  - reflexivity.
  - reflexivity.
  - reflexivity.
  - vm_compute. reflexivity.
Defined.

(** ** Deleting a budget *)

Lemma queryActiveBudgets_In uid fs id b :
  In (id, b) (HomeScreen.queryActiveBudgets uid fs)
  <-> budgets fs !! id = Some b /\ Budget.userId b = uid /\ Budget.isActive b = true.
Proof.
  unfold HomeScreen.queryActiveBudgets.
  rewrite sortBy_In, filter_In, <- list_elem_of_In, elem_of_map_to_list. cbn [snd].
  rewrite andb_true_iff, String.eqb_eq. destruct (Budget.isActive b); cbn; intuition congruence.
Qed.

(** X16. Deleting a budget keeps the document and clears its active flag,
    nothing else but the update time. After that the budget is no longer
    listed on the home screen, no recorded expense changes it, and no
    budget query of the receipt screen (for the update or for the alerts)
    returns it. *)
Theorem deleted_budget_is_kept_but_ignored env st fs uid id b :
  currentUser (HomeScreen.base env) = Some uid ->
  budgets fs !! id = Some b ->
  writeOk (HomeScreen.base env) id = true ->
  let o := HomeScreen.deleteBudget env id st fs in
  let kept := Budget.mk (Budget.userId b) (Budget.category b) (Budget.budgetType b)
                (Budget.budgetAmount b) (Budget.currentPeriod b) (Budget.currentSpent b)
                false (serverTime (HomeScreen.base env)) in
  budgets (HomeScreen.store o) !! id = Some kept
  /\ (forall k, k <> id -> budgets (HomeScreen.store o) !! k = budgets fs !! k)
  /\ ~ In id (map fst (HomeScreen.St.budgets (HomeScreen.state o)))
  /\ (forall later category amount,
        budgets (db (updateBudgetSpending later category amount
                       {| db := HomeScreen.store o; trace := [] |})) !! id = Some kept)
  /\ (forall user category,
        ~ In id (map fst (queryBudgets user category (HomeScreen.store o)))).
Proof.
  intros Hu Hb Hw. cbv zeta.
  unfold HomeScreen.deleteBudget, HomeScreen.updateBudgetDoc, HomeScreen.loadBudgets.
  rewrite Hb, Hw, Hu. cbn [HomeScreen.store HomeScreen.state HomeScreen.St.budgets].
  set (fs' := HomeScreen.withBudgets _ fs).
  assert (Hk : budgets fs' !! id = Some (HomeScreen.deactivate (serverTime (HomeScreen.base env)) b))
    by apply lookup_insert_eq.
  split; [exact Hk|]. split.
  { intros k Hne. unfold fs'. cbn [HomeScreen.withBudgets budgets].
    now apply lookup_insert_ne. }
  split.
  { intros Hin. apply in_map_iff in Hin as ([id' b'] & E & Hin). cbn in E. subst id'.
    apply queryActiveBudgets_In in Hin as (Hb' & _ & Hact).
    rewrite Hk in Hb'. injection Hb' as <-. discriminate Hact. }
  split.
  { intros later category amount.
    apply (updateBudgetSpending_skips_inactive later category amount
             {| db := fs'; trace := [] |} id _ Hk). reflexivity. }
  intros user category Hin. apply in_map_iff in Hin as ([id' b'] & E & Hin).
  cbn in E. subst id'. apply queryBudgets_In in Hin as [Hb' Hact].
  rewrite Hk in Hb'. injection Hb' as <-.
  unfold activeBudget in Hact. cbn in Hact. rewrite !andb_false_r in Hact. discriminate Hact.
Qed.

Lemma deleted_budget_witness :
  let env := HomeExamples.homeAt Examples.june10 in
  let st := HomeExamples.budgetForm "" "monthly" "" [("b1", Examples.foodBudget "2024-06" 85)] in
  let fs := HomeExamples.storeOf {[ "b1" := Examples.foodBudget "2024-06" 85 ]} [] ∅ in
  let o := HomeScreen.deleteBudget env "b1" st fs in
  let kept := Budget.mk "u1" "food-dining" "monthly" 100 "2024-06" 85 false Examples.june10 in
  budgets (HomeScreen.store o) !! "b1" = Some kept
  /\ (forall k, k <> "b1" -> budgets (HomeScreen.store o) !! k = budgets fs !! k)
  /\ ~ In "b1" (map fst (HomeScreen.St.budgets (HomeScreen.state o)))
  /\ (forall later category amount,
        budgets (db (updateBudgetSpending later category amount
                       {| db := HomeScreen.store o; trace := [] |})) !! "b1" = Some kept)
  /\ (forall user category,
        ~ In "b1" (map fst (queryBudgets user category (HomeScreen.store o)))).
Proof.
  cbv zeta.
  apply (deleted_budget_is_kept_but_ignored (HomeExamples.homeAt Examples.june10)
           (HomeExamples.budgetForm "" "monthly" "" [("b1", Examples.foodBudget "2024-06" 85)])
           (HomeExamples.storeOf {[ "b1" := Examples.foodBudget "2024-06" 85 ]} [] ∅)
           "u1" "b1" (Examples.foodBudget "2024-06" 85)).
  - reflexivity.
  - vm_compute. reflexivity.
  - reflexivity.
Defined.

(** ** The monthly limit *)

(** X17. The limit saved on the home screen is the cutoff the overspending
    check uses afterwards: with a valid form and an accepted write, the user
    document then holds the parsed limit, the budgets and expenses are as
    they were, and the check reads that limit and alerts exactly when the
    total it computes reaches it. A text that parses to [NaN] passes the
    form's test as well; it is stored and read back as the default 1000. *)
Theorem saved_limit_is_the_alert_cutoff env later st fs uid u amount :
  HomeScreen.St.user st = Some uid ->
  currentUser later = Some uid ->
  HomeScreen.invalidLimitForm env st = false ->
  users fs !! uid = Some u ->
  HomeScreen.userWriteOk env uid = true ->
  let parsed := HomeScreen.parseFloat env (HomeScreen.St.overspendingLimit st) in
  let limit := if is_nan parsed then 1000%float else parsed in
  let o := HomeScreen.saveOverspendingLimit env st fs in
  let api := date later in
  let startOfMonth :=
    makeDate api (getFullYear api (now later)) (getMonth api (now later)) 1 0 0 0 in
  let endOfMonth :=
    makeDate api (getFullYear api (now later)) (getMonth api (now later) + 1) 0 23 59 59 in
  let total := totalMonthlySpent (queryExpenses uid startOfMonth endOfMonth fs) amount in
  users (HomeScreen.store o) !! uid = Some (UserDoc.mk (Some parsed))
  /\ budgets (HomeScreen.store o) = budgets fs
  /\ expenses (HomeScreen.store o) = expenses fs
  /\ HomeScreen.St.userPreferences (HomeScreen.state o) = parsed
  /\ alertsOf (trace (checkOverspendingAlert later amount
                        {| db := HomeScreen.store o; trace := [] |}))
     = if (limit <=? total)%float then [AlertOverspending total limit] else [].
Proof.
  intros Hu Hl Hv Hd Hw. cbv zeta.
  unfold HomeScreen.saveOverspendingLimit, HomeScreen.updateLimitDoc.
  rewrite Hu, Hv, Hd, Hw.
  cbn [HomeScreen.store HomeScreen.state HomeScreen.withUsers users budgets expenses
       HomeScreen.setLimitSaved HomeScreen.St.userPreferences].
  split; [apply lookup_insert_eq|]. split; [reflexivity|]. split; [reflexivity|].
  split; [reflexivity|].
  unfold checkOverspendingAlert, HomeScreen.withUsers, Query.notExistsProperty.
  rewrite Hl. cbn [emit db users].
  rewrite lookup_insert_eq.
  set (parsed := HomeScreen.parseFloat env (HomeScreen.St.overspendingLimit st)) in *.
  assert (Hlim : overspendingLimit (UserDoc.mk (Some parsed))
                 = if is_nan parsed then 1000%float else parsed).
  { unfold overspendingLimit, Js.or_else, Js.truthy. cbn [UserDoc.overspendingAlerts].
    destruct (is_nan parsed) eqn:En; [reflexivity|].
    unfold HomeScreen.invalidLimitForm in Hv. fold parsed in Hv.
    apply orb_false_iff in Hv as [_ Hv].
    now rewrite (not_le_zero_not_zero _ Hv). }
  rewrite Hlim.
  unfold queryExpenses. cbn [expenses].
  match goal with |- context [if ?c then _ else _] => destruct c end; reflexivity.
Qed.

Lemma saved_limit_witness :
  let o := HomeScreen.saveOverspendingLimit (HomeExamples.homeAt Examples.june10)
             (HomeExamples.limitForm "500")
             (HomeExamples.storeOf ∅ [Examples.expenseOf 480 Examples.june5]
                {[ "u1" := UserDoc.mk None ]}) in
  users (HomeScreen.store o) !! "u1" = Some (UserDoc.mk (Some 500%float))
  /\ budgets (HomeScreen.store o) = ∅
  /\ expenses (HomeScreen.store o) = [Examples.expenseOf 480 Examples.june5]
  /\ HomeScreen.St.userPreferences (HomeScreen.state o) = 500%float
  /\ alertsOf (trace (checkOverspendingAlert
                        (Examples.deviceAt Examples.june10later (fun _ => true)) 30
                        {| db := HomeScreen.store o; trace := [] |}))
     = [AlertOverspending 510 500].
Proof.
  cbv zeta.
  destruct (saved_limit_is_the_alert_cutoff (HomeExamples.homeAt Examples.june10)
              (Examples.deviceAt Examples.june10later (fun _ => true))
              (HomeExamples.limitForm "500")
              (HomeExamples.storeOf ∅ [Examples.expenseOf 480 Examples.june5]
                 {[ "u1" := UserDoc.mk None ]})
              "u1" (UserDoc.mk None) 30) as (H1 & H2 & H3 & H4 & H5).
  - reflexivity.
  - reflexivity.
  - vm_compute. reflexivity.
  - vm_compute. reflexivity.
  - reflexivity.
  - split; [rewrite H1; vm_compute; reflexivity|].
    split; [rewrite H2; reflexivity|].
    split; [rewrite H3; reflexivity|].
    split; [rewrite H4; vm_compute; reflexivity|].
    rewrite H5. vm_compute. reflexivity.
Defined.

(** ** From the picked file to the form *)

(** X18. What the receipt screen sends and what the relay takes. The
    upload is always declared a PDF, so the relay's filter never refuses it.
    When the picker reports the size the relay receives, the relay answers
    that the file is over the size limit exactly from 10485760 bytes on,
    the screen refuses the file as too large exactly above 10485760 bytes,
    and so the two differ at one size only: a file of exactly 10485760
    bytes passes the screen's test and is refused by the relay. *)
Theorem client_and_relay_differ_at_the_limit file storedAt bytes :
  (forall message,
     Relay.upload_single (ReceiptUpload.uploadOf file storedAt bytes)
     <> Relay.FilterError message)
  /\ (ReceiptUpload.size file = Some bytes ->
      (Relay.upload_single (ReceiptUpload.uploadOf file storedAt bytes) = Relay.LimitFileSize
       <-> 10485760 <= bytes)
      /\ (ReceiptUpload.tooLarge file = true <-> 10485760 < bytes)
      /\ (ReceiptUpload.tooLarge file = false
          /\ Relay.upload_single (ReceiptUpload.uploadOf file storedAt bytes)
             = Relay.LimitFileSize
          <-> bytes = 10485760)).
Proof.
  unfold Relay.upload_single, ReceiptUpload.uploadOf, ReceiptUpload.tooLarge.
  cbn [Relay.file Relay.mimetype Relay.size]. rewrite String.eqb_refl.
  unfold ReceiptUpload.maxFileSize, Relay.fileSizeLimit.
  split.
  - intros message. destruct (10 * 1024 * 1024 <=? bytes); discriminate.
  - intros ->.
    destruct (Z.leb_spec (10 * 1024 * 1024) bytes) as [H|H];
      destruct (Z.ltb_spec (10 * 1024 * 1024) bytes) as [H'|H'];
      destruct (Z.eqb_spec bytes 0) as [H0|H0]; cbn;
      repeat split; intros; try discriminate; try lia; try reflexivity;
      repeat match goal with
             | X : _ /\ _ |- _ => destruct X
             end; try discriminate; try lia.
Qed.

Lemma client_and_relay_limit_witness :
  let file := {| ReceiptUpload.name := "receipt.pdf"; ReceiptUpload.uri := "file:///receipt.pdf";
                 ReceiptUpload.size := Some 10485760 |} in
  ReceiptUpload.tooLarge file = false
  /\ Relay.upload_single (ReceiptUpload.uploadOf file "uploads/1-receipt.pdf" 10485760)
     = Relay.LimitFileSize.
Proof.
  cbv zeta.
  destruct (client_and_relay_differ_at_the_limit
              {| ReceiptUpload.name := "receipt.pdf"; ReceiptUpload.uri := "file:///receipt.pdf";
                 ReceiptUpload.size := Some 10485760 |}
              "uploads/1-receipt.pdf" 10485760) as [_ H].
  destruct (H eq_refl) as (_ & _ & H3). apply H3. reflexivity.
Defined.

Lemma relay_failure_status env req :
  Relay.succeeded (fst (Relay.postExtractText env req)) = false ->
  Relay.status (fst (Relay.postExtractText env req)) = 400
  \/ Relay.status (fst (Relay.postExtractText env req)) = 500.
Proof.
  unfold Relay.postExtractText.
  destruct (Relay.upload_single req) as [|f|message|]; cbn; auto.
  unfold Relay.analyzeFinancialDocument.
  destruct (Relay.extraction env) as [text|message|]; cbn; auto.
  destruct (Relay.completion env) as [c|message];
    [destruct (Relay.jsonParse env (Relay.contentText c))|]; cbn; discriminate.
Qed.

(** X19. Whatever goes wrong in the relay reaches the user as one and the
    same message: every answer of the relay that is not its success answer
    has a status outside 200..299, so the screen throws on [response.ok],
    shows the generic processing error, clears the extracted text and the
    analysis, and shows no confirmation form; the relay's own error text is
    never displayed. *)
Theorem relay_errors_show_the_generic_alert relayEnv req env file st data :
  ReceiptUpload.fetched env
  = ReceiptUpload.Responded
      (ReceiptUpload.responseOk (fst (Relay.postExtractText relayEnv req))) data ->
  Relay.succeeded (fst (Relay.postExtractText relayEnv req)) = false ->
  ReceiptUpload.processFile env file st
  = (ReceiptUpload.cleared st,
     [ReceiptUpload.EvFetch file; ReceiptUpload.EvConsoleError "Processing error:";
      ReceiptUpload.EvAlert "Error"
        "Failed to process the PDF. Please check your connection and try again."]).
Proof.
  intros Hf Hs. unfold ReceiptUpload.processFile. rewrite Hf.
  replace (ReceiptUpload.responseOk (fst (Relay.postExtractText relayEnv req))) with false;
    [reflexivity|].
  unfold ReceiptUpload.responseOk.
  destruct (relay_failure_status relayEnv req Hs) as [-> | ->]; reflexivity.
Qed.

Lemma relay_errors_witness :
  let r := fst (Relay.postExtractText
                  (Examples.relayWith Relay.ExtractionTimeout (Relay.CompletionFailed "503"))
                  {| Relay.file := Some Examples.receipt |}) in
  let env := {| ReceiptUpload.screenEnv := Examples.deviceAt Examples.june10 (fun _ => true);
                ReceiptUpload.parseFloat := HomeExamples.parseUnits;
                ReceiptUpload.fetched :=
                  ReceiptUpload.Responded (ReceiptUpload.responseOk r) None |} in
  let file := {| ReceiptUpload.name := "receipt.pdf"; ReceiptUpload.uri := "file:///receipt.pdf";
                 ReceiptUpload.size := Some 2048 |} in
  let st := {| ReceiptUpload.screen := Examples.form 10 Examples.shop;
               ReceiptUpload.analysisResult := None;
               ReceiptUpload.loading := false;
               ReceiptUpload.showConfirmation := true |} in
  ReceiptUpload.processFile env file st
  = (ReceiptUpload.cleared st,
     [ReceiptUpload.EvFetch file; ReceiptUpload.EvConsoleError "Processing error:";
      ReceiptUpload.EvAlert "Error"
        "Failed to process the PDF. Please check your connection and try again."]).
Proof.
  cbv zeta.
  apply (relay_errors_show_the_generic_alert
           (Examples.relayWith Relay.ExtractionTimeout (Relay.CompletionFailed "503"))
           {| Relay.file := Some Examples.receipt |} _ _ _ None).
  - reflexivity.
  - reflexivity.
Defined.

Lemma forallb_filter_same {A} (f : A -> bool) (l : list A) :
  forallb f (List.filter f l) = true.
Proof.
  induction l as [|x l IH]; cbn; [reflexivity|].
  destruct (f x) eqn:E; cbn; [now rewrite E|exact IH].
Qed.

(** X20. The text the screen hands to [parseFloat] for the amount is never
    empty and holds nothing but digits and dots: it is the analysis's
    amount with every other character dropped (currency, sign, spaces,
    thousands separators), and the text "0" when no amount was found or
    nothing is left of it. *)
Theorem prefilled_amount_text_is_digits_and_dots a :
  ReceiptUpload.amountText a <> []
  /\ forallb ReceiptUpload.isDigitOrDot (ReceiptUpload.amountText a) = true
  /\ (ReceiptUpload.amountText a = [48]
      \/ exists s, ReceiptUpload.amount a = Some s
                   /\ ReceiptUpload.amountText a = ReceiptUpload.digitsAndDots s).
Proof.
  unfold ReceiptUpload.amountText, ReceiptUpload.orText.
  destruct (ReceiptUpload.amount a) as [s|]; cbn [option_map].
  - pose proof (forallb_filter_same ReceiptUpload.isDigitOrDot s) as Hf.
    fold (ReceiptUpload.digitsAndDots s) in Hf.
    destruct (ReceiptUpload.digitsAndDots s) as [|c t] eqn:E.
    + split; [discriminate|]. split; [reflexivity|]. left. reflexivity.
    + split; [discriminate|]. split; [exact Hf|]. right. exists s. split; [reflexivity|].
      symmetry. exact E.
  - split; [discriminate|]. split; [reflexivity|]. left. reflexivity.
Qed.

(** X21. An analysis without a beneficiary cannot be saved as it comes: the
    screen shows the confirmation form with an empty merchant name, and
    saving that form unchanged is refused with an error alert, whatever the
    amount; nothing is written and no timer is set. The relay's all-null
    analysis is such an analysis. *)
Theorem analysis_without_beneficiary_is_not_saved env file st data a saveEnv w :
  ReceiptUpload.fetched env = ReceiptUpload.Responded true (Some data) ->
  ReceiptUpload.success data = true ->
  ReceiptUpload.analysis data = Some a ->
  ReceiptUpload.beneficiaryName a = None ->
  let st' := fst (ReceiptUpload.processFile env file st) in
  ReceiptUpload.showConfirmation st' = true
  /\ merchantName (expenseData (ReceiptUpload.screen st')) = []
  /\ exists message,
       saveExpense saveEnv (ReceiptUpload.screen st') w
       = ({| db := db w; trace := trace w ++ [EvAlert (AlertError message)] |}, []).
Proof.
  intros Hf Hs Ha Hb. cbv zeta. unfold ReceiptUpload.processFile. rewrite Hf, Hs, Ha.
  cbn [fst ReceiptUpload.showConfirmation ReceiptUpload.screen].
  unfold ReceiptUpload.prefill. rewrite Hb. cbn [ReceiptUpload.orText].
  split; [reflexivity|]. split; [reflexivity|].
  unfold saveExpense. cbn [expenseData amount merchantName].
  destruct (currentUser saveEnv) as [uid|]; [|eexists; reflexivity].
  match goal with |- context [if ?c then _ else _] => destruct c end;
    [eexists; reflexivity|].
  cbn. eexists; reflexivity.
Qed.

Lemma analysis_without_beneficiary_witness :
  let env := {| ReceiptUpload.screenEnv := Examples.deviceAt Examples.june10 (fun _ => true);
                ReceiptUpload.parseFloat := HomeExamples.parseUnits;
                ReceiptUpload.fetched :=
                  ReceiptUpload.Responded true
                    (Some {| ReceiptUpload.success := true;
                             ReceiptUpload.extractedText := "TOTAL RM 25.00";
                             ReceiptUpload.analysis :=
                               Some {| ReceiptUpload.referenceId := None;
                                       ReceiptUpload.date := None;
                                       ReceiptUpload.time := None;
                                       ReceiptUpload.beneficiaryName := None;
                                       ReceiptUpload.amount := Some [82; 77; 32; 50; 53] |};
                             ReceiptUpload.error := None |}) |} in
  let file := {| ReceiptUpload.name := "receipt.pdf"; ReceiptUpload.uri := "file:///receipt.pdf";
                 ReceiptUpload.size := Some 2048 |} in
  let st := {| ReceiptUpload.screen := Examples.form 0 [];
               ReceiptUpload.analysisResult := None;
               ReceiptUpload.loading := false;
               ReceiptUpload.showConfirmation := false |} in
  let w := Examples.store {[ "b1" := Examples.foodBudget "2024-06" 85 ]} [] ∅ in
  let st' := fst (ReceiptUpload.processFile env file st) in
  ReceiptUpload.showConfirmation st' = true
  /\ merchantName (expenseData (ReceiptUpload.screen st')) = []
  /\ exists message,
       saveExpense (Examples.deviceAt Examples.june10 (fun _ => true))
         (ReceiptUpload.screen st') w
       = ({| db := db w; trace := trace w ++ [EvAlert (AlertError message)] |}, []).
Proof.
  cbv zeta.
  eapply (analysis_without_beneficiary_is_not_saved _ _ _ _ _
            (Examples.deviceAt Examples.june10 (fun _ => true))).
  - reflexivity.
  - reflexivity.
  - reflexivity.
  - reflexivity.
Defined.

(** ** The UTC calendar by months *)

(** Comparisons, quotients and remainders of literals are evaluated. *)
Ltac has_variable t := match t with context [?v] => is_var v end.

Ltac evaluate_closed t :=
  tryif has_variable t then fail else
  (let v := eval vm_compute in t in
   let H := fresh in
   assert (H : t = v) by (vm_compute; reflexivity); rewrite !H; clear H).

Ltac decide_closed :=
  repeat match goal with
         | |- context [Z.leb ?a ?b] => evaluate_closed (Z.leb a b)
         | |- context [Z.ltb ?a ?b] => evaluate_closed (Z.ltb a b)
         | |- context [Z.div ?a ?b] => evaluate_closed (Z.div a b)
         | |- context [Z.modulo ?a ?b] => evaluate_closed (Z.modulo a b)
         end; cbv iota.

(** The civil date of a day number: its month and day are in range, the
    day number is the one of that date, and it lies before the first day of
    the following month. *)
Lemma civil_month_bracket z :
  let '(y, m, d) := UtcDate.civil_from_days z in
  1 <= m <= 12 /\ 1 <= d <= 31
  /\ UtcDate.days_from_civil y m 1 + d - 1 = z
  /\ z < UtcDate.days_from_civil (y + m / 12) (m mod 12 + 1) 1.
Proof.
  unfold UtcDate.civil_from_days.
  set (z' := z + 719468).
  set (era := z' / 146097).
  set (doe := z' - era * 146097).
  set (yoe := (doe - doe / 1460 + doe / 36524 - doe / 146096) / 365).
  set (doy := doe - (365 * yoe + yoe / 4 - yoe / 100)).
  set (mp := (5 * doy + 2) / 153).
  assert (Hdoe : 0 <= doe <= 146096) by (unfold doe, era; Z.div_mod_to_equations; lia).
  assert (Hyoe : 0 <= yoe <= 399) by (unfold yoe; Z.div_mod_to_equations; lia).
  assert (Hdoy : 0 <= doy <= 365) by (unfold doy, yoe; Z.div_mod_to_equations; lia).
  assert (Hmp : 0 <= mp <= 11) by (unfold mp; Z.div_mod_to_equations; lia).
  assert (Hz : z = era * 146097 + doe - 719468) by (unfold doe, z'; lia).
  assert (Hdoe' : doe = 365 * yoe + yoe / 4 - yoe / 100 + doy) by (unfold doy; lia).
  assert (Hnext : doe < 365 * (yoe + 1) + (yoe + 1) / 4 - (yoe + 1) / 100 \/ yoe = 399)
    by (unfold yoe; Z.div_mod_to_equations; lia).
  assert (Hmp' : mp = 0 \/ mp = 1 \/ mp = 2 \/ mp = 3 \/ mp = 4 \/ mp = 5 \/ mp = 6
                 \/ mp = 7 \/ mp = 8 \/ mp = 9 \/ mp = 10 \/ mp = 11) by lia.
  clearbody era doe yoe doy. clear z'. subst z.
  set (q := yoe / 4 - yoe / 100) in *.
  assert (Hq : 0 <= q <= 97) by (unfold q; Z.div_mod_to_equations; lia).
  assert (Ha : (yoe + era * 400) / 400 = era) by (Z.div_mod_to_equations; lia).
  assert (Hb : yoe + era * 400 - era * 400 = yoe) by lia.
  destruct Hmp' as [E|[E|[E|[E|[E|[E|[E|[E|[E|[E|[E|E]]]]]]]]]]]; rewrite E;
    unfold mp in E; clear mp Hmp; decide_closed;
    unfold UtcDate.days_from_civil; decide_closed;
    rewrite ?Z.add_simpl_r, ?Z.add_0_r, ?Ha, ?Hb; fold q.
  all: Z.div_mod_to_equations; lia.
Qed.

Lemma monthStart_step i :
  UtcCalendar.monthStart i < UtcCalendar.monthStart (i + 1).
Proof.
  unfold UtcCalendar.monthStart, UtcDate.days_from_civil.
  assert (Hm : i mod 12 = 0 \/ i mod 12 = 1 \/ i mod 12 = 2 \/ i mod 12 = 3 \/ i mod 12 = 4
               \/ i mod 12 = 5 \/ i mod 12 = 6 \/ i mod 12 = 7 \/ i mod 12 = 8
               \/ i mod 12 = 9 \/ i mod 12 = 10 \/ i mod 12 = 11)
    by (Z.div_mod_to_equations; lia).
  assert (Hn : (i + 1) mod 12 = (i mod 12 + 1) mod 12 /\ (i + 1) / 12 = i / 12 + (i mod 12 + 1) / 12)
    by (Z.div_mod_to_equations; lia).
  destruct Hn as [-> ->].
  set (y := i / 12). clearbody y.
  destruct Hm as [E|[E|[E|[E|[E|[E|[E|[E|[E|[E|[E|E]]]]]]]]]]]; rewrite E; clear E;
    decide_closed; Z.div_mod_to_equations; lia.
Qed.

Lemma monthStart_mono i j : i <= j -> UtcCalendar.monthStart i <= UtcCalendar.monthStart j.
Proof.
  intros Hij. replace j with (i + Z.of_nat (Z.to_nat (j - i))) by lia.
  induction (Z.to_nat (j - i)) as [|n IH].
  - rewrite Z.add_0_r. lia.
  - rewrite Nat2Z.inj_succ.
    replace (i + Z.succ (Z.of_nat n)) with (i + Z.of_nat n + 1) by lia.
    pose proof (monthStart_step (i + Z.of_nat n)). lia.
Qed.

(** A time value lies in the month its calendar fields name. *)
Lemma monthIndex_bracket t :
  0 <= UtcDate.month t <= 11
  /\ UtcCalendar.monthStart (UtcCalendar.monthIndex t) <= t / UtcDate.msPerDay
     < UtcCalendar.monthStart (UtcCalendar.monthIndex t + 1).
Proof.
  pose proof (civil_month_bracket (t / UtcDate.msPerDay)) as H.
  unfold UtcCalendar.monthIndex, UtcCalendar.monthStart, UtcDate.fullYear, UtcDate.month.
  destruct (UtcDate.civil_from_days (t / UtcDate.msPerDay)) as [[y m] d].
  cbn [fst snd]. destruct H as (Hm & Hd & Hz & Hn).
  replace ((12 * y + (m - 1)) / 12) with y by (Z.div_mod_to_equations; lia).
  replace ((12 * y + (m - 1)) mod 12 + 1) with m by (Z.div_mod_to_equations; lia).
  replace ((12 * y + (m - 1) + 1) / 12) with (y + m / 12) by (Z.div_mod_to_equations; lia).
  replace ((12 * y + (m - 1) + 1) mod 12) with (m mod 12) by (Z.div_mod_to_equations; lia).
  lia.
Qed.

(** And in no other month. *)
Lemma monthIndex_unique t i :
  UtcCalendar.monthStart i <= t / UtcDate.msPerDay < UtcCalendar.monthStart (i + 1)
  <-> UtcCalendar.monthIndex t = i.
Proof.
  destruct (monthIndex_bracket t) as [_ Hb]. split.
  - intros Hi. destruct (Z.lt_trichotomy (UtcCalendar.monthIndex t) i) as [Hlt|[E|Hgt]];
      [exfalso|exact E|exfalso].
    + pose proof (monthStart_mono (UtcCalendar.monthIndex t + 1) i ltac:(lia)). lia.
    + pose proof (monthStart_mono (i + 1) (UtcCalendar.monthIndex t) ltac:(lia)). lia.
  - intros <-. exact Hb.
Qed.

Lemma monthIndex_fields t1 t2 :
  UtcCalendar.monthIndex t1 = UtcCalendar.monthIndex t2
  <-> UtcDate.month t1 = UtcDate.month t2 /\ UtcDate.fullYear t1 = UtcDate.fullYear t2.
Proof.
  destruct (monthIndex_bracket t1) as [H1 _], (monthIndex_bracket t2) as [H2 _].
  unfold UtcCalendar.monthIndex. lia.
Qed.

(** The two ends of the month's query on the UTC calendar: midnight of the
    first day, and one second before the midnight that ends the month. *)
Lemma utc_month_query_bounds now :
  UtcDate.fullYear now < 0 \/ 99 < UtcDate.fullYear now ->
  UtcDate.make (UtcDate.fullYear now) (UtcDate.month now) 1 0 0 0
  = UtcCalendar.monthStart (UtcCalendar.monthIndex now) * 86400000
  /\ UtcDate.make (UtcDate.fullYear now) (UtcDate.month now + 1) 0 23 59 59
     = UtcCalendar.monthStart (UtcCalendar.monthIndex now + 1) * 86400000 - 1000.
Proof.
  intros Hy. destruct (monthIndex_bracket now) as [Hm _].
  unfold UtcDate.make, UtcCalendar.monthStart, UtcCalendar.monthIndex.
  replace ((0 <=? UtcDate.fullYear now) && (UtcDate.fullYear now <=? 99)) with false
    by (symmetry; apply andb_false_iff; destruct Hy;
        [left; apply Z.leb_gt; lia|right; apply Z.leb_gt; lia]).
  set (y := UtcDate.fullYear now) in *. set (m := UtcDate.month now) in *.
  replace ((12 * y + m) / 12) with y by (Z.div_mod_to_equations; lia).
  replace ((12 * y + m) mod 12) with m by (Z.div_mod_to_equations; lia).
  replace (m / 12) with 0 by (Z.div_mod_to_equations; lia).
  replace (m mod 12) with m by (Z.div_mod_to_equations; lia).
  replace ((12 * y + m + 1) / 12) with (y + (m + 1) / 12) by (Z.div_mod_to_equations; lia).
  replace ((12 * y + m + 1) mod 12) with ((m + 1) mod 12) by (Z.div_mod_to_equations; lia).
  replace (y + 0) with y by lia. split; lia.
Qed.

(** X22. On a device whose time zone is UTC (years 0..99 apart), the
    month's query of the overspending check returns an expense of the user
    exactly when the expense was created in the current calendar month and
    the instant 999 ms later lies in that month too. So an expense created
    after 23:59:59.000 on the last day of the month is in the month for the
    home screen's total, which compares calendar fields, and is left out of
    the total of the check. *)
Theorem utc_month_query_misses_last_second env uid fs e :
  date env = UtcDate.utc ->
  UtcDate.fullYear (now env) < 0 \/ 99 < UtcDate.fullYear (now env) ->
  let api := date env in
  let startOfMonth :=
    makeDate api (getFullYear api (now env)) (getMonth api (now env)) 1 0 0 0 in
  let endOfMonth :=
    makeDate api (getFullYear api (now env)) (getMonth api (now env) + 1) 0 23 59 59 in
  In e (queryExpenses uid startOfMonth endOfMonth fs)
  <-> In e (expenses fs)
      /\ Expense.userId e = uid
      /\ HomeScreen.inCurrentMonth UtcDate.utc (now env) e = true
      /\ UtcDate.month (Expense.createdAt e + 999) = UtcDate.month (now env)
      /\ UtcDate.fullYear (Expense.createdAt e + 999) = UtcDate.fullYear (now env).
Proof.
  intros Hd Hy. cbv zeta. rewrite Hd. cbn [getFullYear getMonth makeDate UtcDate.utc].
  destruct (utc_month_query_bounds (now env) Hy) as [-> ->].
  unfold queryExpenses, HomeScreen.inCurrentMonth. cbn [getFullYear getMonth UtcDate.utc].
  rewrite sortBy_In, filter_In, !andb_true_iff, String.eqb_eq, !Z.leb_le, !Z.eqb_eq.
  set (c := Expense.createdAt e). set (i := UtcCalendar.monthIndex (now env)).
  assert (H1 : UtcDate.month c = UtcDate.month (now env)
               /\ UtcDate.fullYear c = UtcDate.fullYear (now env)
               <-> UtcCalendar.monthStart i <= c / UtcDate.msPerDay
                   < UtcCalendar.monthStart (i + 1)).
  { rewrite <- monthIndex_fields. unfold i. rewrite monthIndex_unique. reflexivity. }
  assert (H2 : UtcDate.month (c + 999) = UtcDate.month (now env)
               /\ UtcDate.fullYear (c + 999) = UtcDate.fullYear (now env)
               <-> UtcCalendar.monthStart i <= (c + 999) / UtcDate.msPerDay
                   < UtcCalendar.monthStart (i + 1)).
  { rewrite <- monthIndex_fields. unfold i. rewrite monthIndex_unique. reflexivity. }
  pose proof (monthStart_step i) as Hs.
  unfold UtcDate.msPerDay in *.
  split.
  - intros (Hin & (Hu & Hlo) & Hhi). split; [exact Hin|]. split; [exact Hu|].
    assert (A1 : UtcCalendar.monthStart i <= c / 86400000 < UtcCalendar.monthStart (i + 1))
      by (Z.div_mod_to_equations; lia).
    assert (A2 : UtcCalendar.monthStart i <= (c + 999) / 86400000
                 < UtcCalendar.monthStart (i + 1))
      by (Z.div_mod_to_equations; lia).
    apply H1 in A1. apply H2 in A2. tauto.
  - intros (Hin & Hu & Hc & Hm & Hf).
    assert (A1 : UtcCalendar.monthStart i <= c / 86400000 < UtcCalendar.monthStart (i + 1))
      by (apply H1; tauto).
    assert (A2 : UtcCalendar.monthStart i <= (c + 999) / 86400000
                 < UtcCalendar.monthStart (i + 1))
      by (apply H2; tauto).
    split; [exact Hin|]. split; [split; [exact Hu|]|]; Z.div_mod_to_equations; lia.
Qed.

Lemma utc_month_query_witness :
  let env := Examples.deviceAt Examples.june10 (fun _ => true) in
  let late := Examples.expenseOf 40 (UtcDate.make 2024 5 30 23 59 59 + 500) in
  let fs := HomeExamples.storeOf ∅ [late] ∅ in
  HomeScreen.inCurrentMonth UtcDate.utc Examples.june10 late = true
  /\ queryExpenses "u1" (UtcDate.make 2024 5 1 0 0 0) (UtcDate.make 2024 6 0 23 59 59) fs = []
  /\ (In late (queryExpenses "u1" (UtcDate.make 2024 5 1 0 0 0)
                 (UtcDate.make 2024 6 0 23 59 59) fs)
      <-> In late (expenses fs)
          /\ Expense.userId late = "u1"
          /\ HomeScreen.inCurrentMonth UtcDate.utc Examples.june10 late = true
          /\ UtcDate.month (Expense.createdAt late + 999) = UtcDate.month Examples.june10
          /\ UtcDate.fullYear (Expense.createdAt late + 999)
             = UtcDate.fullYear Examples.june10).
Proof.
  cbv zeta. split; [vm_compute; reflexivity|]. split; [vm_compute; reflexivity|].
  apply (utc_month_query_misses_last_second
           (Examples.deviceAt Examples.june10 (fun _ => true)) "u1"
           (HomeExamples.storeOf ∅ [Examples.expenseOf 40 (UtcDate.make 2024 5 30 23 59 59 + 500)] ∅)
           (Examples.expenseOf 40 (UtcDate.make 2024 5 30 23 59 59 + 500))).
  - reflexivity.
  - right. vm_compute. reflexivity.
Defined.

(** ** The figures of the home screen and of the profile *)

Lemma fold_left_snoc {A B} (f : A -> B -> A) (l : list B) (x : B) (a : A) :
  fold_left f (l ++ [x]) a = f (fold_left f l a) x.
Proof. now rewrite fold_left_app. Qed.

(** [x || 0] is [x] for a positive [x]. *)
Lemma or_else_positive (a : float) : (0 <? a)%float = true -> Js.or_else a 0 = a.
Proof.
  intros Ha. pose proof (positive_is_valid a Ha) as Hv.
  apply orb_false_iff in Hv as [Hv _]. apply negb_false_iff in Hv.
  unfold Js.or_else. now rewrite Hv.
Qed.

(** X23. Once an expense is saved, the figures follow: with a valid form
    and an accepted expense, the profile counts one expense more; the
    user's query returns the documents it returned before and the new one,
    in the order of the document ids; the month's total of the home screen
    and that of the profile are the same number before and after. When the
    new document's id comes after the ids of the user's other expenses, so
    that it is added last, the total grows by exactly the expense's amount
    if the server's time lies in the current calendar month, and stays as
    it was otherwise. *)
Theorem saved_expense_shows_in_the_totals env home s w uid :
  currentUser env = Some uid ->
  HomeScreen.base home = env ->
  (0 <? amount (expenseData s))%float = true ->
  Js.trim (merchantName (expenseData s)) <> [] ->
  addError env = None ->
  let w' := fst (saveExpense env s w) in
  let before := ProfileScreen.loadUserStats (date env) (now env) uid (db w) in
  let after := ProfileScreen.loadUserStats (date env) (now env) uid (db w') in
  ProfileScreen.totalExpenses after = S (ProfileScreen.totalExpenses before)
  /\ HomeScreen.queryUserExpenses uid (db w')
     ≡ₚ HomeScreen.queryUserExpenses uid (db w) ++ [expenseDoc env uid s]
  /\ Sorted (fun e1 e2 => String.leb (Expense.id e1) (Expense.id e2) = true)
       (HomeScreen.queryUserExpenses uid (db w'))
  /\ HomeScreen.loadMonthlySpending home (db w') = ProfileScreen.monthlySpent after
  /\ HomeScreen.loadMonthlySpending home (db w) = ProfileScreen.monthlySpent before
  /\ ((forall e, In e (expenses (db w)) -> Expense.userId e = uid ->
                 String.leb (Expense.id e) (newExpenseId env) = true) ->
      ProfileScreen.monthlySpent after
      = (if (getMonth (date env) (serverTime env) =? getMonth (date env) (now env))
            && (getFullYear (date env) (serverTime env) =? getFullYear (date env) (now env))
         then (ProfileScreen.monthlySpent before + amount (expenseData s))%float
         else ProfileScreen.monthlySpent before)).
Proof.
  intros Hu Hh Ha Hm He. cbv zeta.
  assert (Hx : expenses (db (fst (saveExpense env s w)))
               = expenses (db w) ++ [expenseDoc env uid s]).
  { unfold saveExpense. rewrite Hu, (positive_is_valid _ Ha), He.
    destruct (Js.trim (merchantName (expenseData s))) as [|c t] eqn:Et; [congruence|].
    cbn [Js.isEmpty fst emit db]. unfold updateBudgetSpending. rewrite Hu.
    cbn [emit db addExpense]. destruct (commit env _ _); reflexivity. }
  unfold ProfileScreen.loadUserStats, HomeScreen.loadMonthlySpending,
    HomeScreen.inCurrentMonth, HomeScreen.queryUserExpenses.
  rewrite Hh, Hu, Hx. cbn [ProfileScreen.totalExpenses ProfileScreen.monthlySpent].
  rewrite List.filter_app. cbn [List.filter expenseDoc Expense.userId].
  rewrite String.eqb_refl. split.
  { rewrite !sortBy_length, length_app. cbn. lia. }
  split; [now rewrite !sortBy_Permutation|].
  split; [apply (sortBy_Sorted Query.byExpenseId); intros e1 e2; apply byExpenseId_total|].
  split; [reflexivity|]. split; [reflexivity|].
  intros Hlast. rewrite sortBy_snoc.
  - rewrite fold_left_snoc.
    change (Expense.amount (expenseDoc env uid s)) with (amount (expenseData s)).
    change (Expense.createdAt (expenseDoc env uid s)) with (serverTime env).
    rewrite (or_else_positive _ Ha). reflexivity.
  - intros e He'. apply filter_In in He' as [Hin Hid]. apply String.eqb_eq in Hid.
    exact (Hlast e Hin Hid).
Qed.

Lemma saved_expense_totals_witness :
  let env := Examples.deviceAt Examples.june10 (fun _ => true) in
  let home := HomeExamples.homeAt Examples.june10 in
  let s := Examples.form 10 Examples.shop in
  let w := Examples.store ∅ [Examples.expenseOf 480 Examples.june5] ∅ in
  let before := ProfileScreen.loadUserStats (date env) (now env) "u1" (db w) in
  let after :=
    ProfileScreen.loadUserStats (date env) (now env) "u1" (db (fst (saveExpense env s w))) in
  ProfileScreen.totalExpenses after = 2%nat
  /\ map Expense.id (HomeScreen.queryUserExpenses "u1" (db (fst (saveExpense env s w))))
     = ["e1"; "e5"]
  /\ ProfileScreen.monthlySpent before = 480%float
  /\ ProfileScreen.monthlySpent after = 490%float
  /\ HomeScreen.loadMonthlySpending home (db (fst (saveExpense env s w))) = 490%float.
Proof.
  cbv zeta.
  destruct (saved_expense_shows_in_the_totals
              (Examples.deviceAt Examples.june10 (fun _ => true))
              (HomeExamples.homeAt Examples.june10)
              (Examples.form 10 Examples.shop)
              (Examples.store ∅ [Examples.expenseOf 480 Examples.june5] ∅) "u1")
    as (H1 & _ & _ & H4 & _ & H6).
  - reflexivity.
  - reflexivity.
  - reflexivity.
  - vm_compute. discriminate.
  - reflexivity.
  - split; [rewrite H1; vm_compute; reflexivity|].
    split; [vm_compute; reflexivity|].
    split; [vm_compute; reflexivity|].
    assert (H : ProfileScreen.monthlySpent
                  (ProfileScreen.loadUserStats
                     (date (Examples.deviceAt Examples.june10 (fun _ => true)))
                     (now (Examples.deviceAt Examples.june10 (fun _ => true))) "u1"
                     (db (fst (saveExpense (Examples.deviceAt Examples.june10 (fun _ => true))
                                 (Examples.form 10 Examples.shop)
                                 (Examples.store ∅ [Examples.expenseOf 480 Examples.june5] ∅)))))
                = 490%float).
    { rewrite H6.
      - vm_compute. reflexivity.
      - intros e [<-|[]] _. vm_compute. reflexivity. }
    split; [exact H|]. rewrite H4. exact H.
Defined.

(** The total depends on the order of the ids: with 0.2 and 0.3 stored and
    a new expense of 0.1 whose id comes first, the total after the save is
    0.1 + 0.2 + 0.3 added in that order, which is not the total before
    plus 0.1. *)
Example saved_expense_total_depends_on_ids :
  let env := Examples.deviceAt Examples.june10 (fun _ => true) in
  let s := Examples.form (1 / 10) Examples.shop in
  let w := Examples.store ∅
             [Examples.expenseWith "e6" "u1" (2 / 10) Examples.june5;
              Examples.expenseWith "e7" "u1" (3 / 10) Examples.june5] ∅ in
  let before := ProfileScreen.loadUserStats (date env) (now env) "u1" (db w) in
  let after :=
    ProfileScreen.loadUserStats (date env) (now env) "u1" (db (fst (saveExpense env s w))) in
  map Expense.id (HomeScreen.queryUserExpenses "u1" (db (fst (saveExpense env s w))))
  = ["e5"; "e6"; "e7"]
  /\ ProfileScreen.monthlySpent before = (5 / 10)%float
  /\ (ProfileScreen.monthlySpent before + 1 / 10 = 6 / 10)%float
  /\ (ProfileScreen.monthlySpent after =? 6 / 10)%float = false
  /\ (6 / 10 <? ProfileScreen.monthlySpent after)%float = true.
Proof. cbv zeta. repeat split; vm_compute; reflexivity. Qed.

Lemma filter_length_Permutation {A} (f : A -> bool) (l l' : list A) :
  l ≡ₚ l' -> length (List.filter f l) = length (List.filter f l').
Proof.
  induction 1 as [|x l l' _ IH|x y l|l l' l'' _ IH1 _ IH2]; cbn.
  - reflexivity.
  - destruct (f x); cbn; congruence.
  - destruct (f x), (f y); reflexivity.
  - congruence.
Qed.

(** The store a successful [deleteBudget] leaves. *)
Lemma deleteBudget_store env id st fs b :
  budgets fs !! id = Some b ->
  writeOk (HomeScreen.base env) id = true ->
  HomeScreen.store (HomeScreen.deleteBudget env id st fs)
  = HomeScreen.withBudgets
      (<[id := HomeScreen.deactivate (serverTime (HomeScreen.base env)) b]> (budgets fs)) fs.
Proof.
  intros Hb Hw.
  unfold HomeScreen.deleteBudget, HomeScreen.updateBudgetDoc, HomeScreen.loadBudgets.
  rewrite Hb, Hw. destruct (currentUser (HomeScreen.base env)); reflexivity.
Qed.

(** X24. Deleting a budget shows in the profile as one active budget less
    and the same number of budgets: the document stays in the collection.
    Deleting a budget that was already inactive changes neither figure. *)
Theorem deleted_budget_in_the_profile env st fs api now id b :
  budgets fs !! id = Some b ->
  writeOk (HomeScreen.base env) id = true ->
  let o := HomeScreen.deleteBudget env id st fs in
  let before := ProfileScreen.loadUserStats api now (Budget.userId b) fs in
  let after := ProfileScreen.loadUserStats api now (Budget.userId b) (HomeScreen.store o) in
  ProfileScreen.totalBudgets after = ProfileScreen.totalBudgets before
  /\ (ProfileScreen.activeBudgets after + (if Budget.isActive b then 1 else 0))%nat
     = ProfileScreen.activeBudgets before
  /\ ProfileScreen.totalExpenses after = ProfileScreen.totalExpenses before.
Proof.
  intros Hb Hw. cbv zeta. rewrite (deleteBudget_store env id st fs b Hb Hw).
  unfold ProfileScreen.loadUserStats, HomeScreen.withBudgets.
  cbn [ProfileScreen.totalBudgets ProfileScreen.activeBudgets ProfileScreen.totalExpenses
       budgets expenses].
  set (b' := HomeScreen.deactivate (serverTime (HomeScreen.base env)) b).
  assert (P1 : map_to_list (<[id := b']> (budgets fs))
               ≡ₚ (id, b') :: map_to_list (delete id (budgets fs))).
  { rewrite <- insert_delete_eq. apply map_to_list_insert. apply lookup_delete_eq. }
  assert (P2 : map_to_list (budgets fs) ≡ₚ (id, b) :: map_to_list (delete id (budgets fs))).
  { symmetry. now apply map_to_list_delete. }
  set (rest := map_to_list (delete id (budgets fs))) in *.
  set (own := fun d : string * Budget.t => String.eqb (Budget.userId (snd d)) (Budget.userId b)).
  set (act := fun d : string * Budget.t => Budget.isActive (snd d)).
  assert (F : forall l, List.filter act (List.filter own l)
                        = List.filter (fun d => own d && act d) l).
  { induction l as [|d l IH]; cbn; [reflexivity|].
    destruct (own d); cbn; [destruct (act d); cbn; now rewrite IH|exact IH]. }
  rewrite !sortBy_length.
  rewrite !(filter_length_Permutation act _ _ (sortBy_Permutation Query.byId _)).
  rewrite !F.
  rewrite (filter_length_Permutation own _ _ P1), (filter_length_Permutation own _ _ P2).
  rewrite (filter_length_Permutation _ _ _ P1), (filter_length_Permutation _ _ _ P2).
  cbn [List.filter]. unfold own, act. cbn [snd b' HomeScreen.deactivate Budget.userId Budget.isActive].
  rewrite String.eqb_refl. cbn [andb length].
  split; [reflexivity|]. split; [|reflexivity].
  destruct (Budget.isActive b); cbn [length]; lia.
Qed.

Lemma deleted_budget_profile_witness :
  let env := HomeExamples.homeAt Examples.june10 in
  let st := HomeExamples.budgetForm "" "monthly" "" [("b1", Examples.foodBudget "2024-06" 85)] in
  let fs := HomeExamples.storeOf {[ "b1" := Examples.foodBudget "2024-06" 85 ]} [] ∅ in
  let o := HomeScreen.deleteBudget env "b1" st fs in
  ProfileScreen.totalBudgets
    (ProfileScreen.loadUserStats UtcDate.utc Examples.june10 "u1" (HomeScreen.store o)) = 1%nat
  /\ ProfileScreen.activeBudgets
       (ProfileScreen.loadUserStats UtcDate.utc Examples.june10 "u1" (HomeScreen.store o))
     = 0%nat.
Proof.
  cbv zeta.
  destruct (deleted_budget_in_the_profile (HomeExamples.homeAt Examples.june10)
              (HomeExamples.budgetForm "" "monthly" ""
                 [("b1", Examples.foodBudget "2024-06" 85)])
              (HomeExamples.storeOf {[ "b1" := Examples.foodBudget "2024-06" 85 ]} [] ∅)
              UtcDate.utc Examples.june10 "b1" (Examples.foodBudget "2024-06" 85))
    as (H1 & H2 & _).
  - vm_compute. reflexivity.
  - reflexivity.
  - split.
    + etransitivity; [exact H1|]. vm_compute. reflexivity.
    + vm_compute. reflexivity.
Defined.

(** ** The user document *)

(** X25. Signing in writes no user document: the test of
    [createUserProfile] negates the snapshot's [exists], which is a method,
    so the branch that calls [set] is never taken and the store stays as it
    was. For a user without a document, saving an overspending limit on the
    home screen afterwards fails, since [update] needs the document: the
    store is unchanged, the preferences in the state keep their value, and
    the error alert with the remote's message is shown. *)
Theorem profile_creation_writes_no_document env st uid fs :
  AuthScreen.createUserProfile uid fs = fs
  /\ (users fs !! uid = None ->
      HomeScreen.St.user st = Some uid ->
      HomeScreen.invalidLimitForm env st = false ->
      let o := HomeScreen.saveOverspendingLimit env st (AuthScreen.createUserProfile uid fs) in
      let parsed := HomeScreen.parseFloat env (HomeScreen.St.overspendingLimit st) in
      users (AuthScreen.createUserProfile uid fs) !! uid = None
      /\ HomeScreen.store o = fs
      /\ HomeScreen.St.userPreferences (HomeScreen.state o) = HomeScreen.St.userPreferences st
      /\ HomeScreen.events o
         = [HomeScreen.EvRemote (HomeScreen.UpdateLimit uid parsed);
            HomeScreen.EvConsoleError "Error updating overspending limit:";
            HomeScreen.EvAlert "Error" ("Failed to update limit: " +:+ HomeScreen.writeError env)]).
Proof.
  assert (Hc : AuthScreen.createUserProfile uid fs = fs) by reflexivity.
  split; [exact Hc|]. intros Hn Hu Hv. cbv zeta. rewrite Hc.
  unfold HomeScreen.saveOverspendingLimit, HomeScreen.updateLimitDoc.
  rewrite Hu, Hv, Hn. cbn. repeat split; assumption || reflexivity.
Qed.

Lemma profile_creation_witness :
  let fs := HomeExamples.storeOf ∅ [] ∅ in
  let o := HomeScreen.saveOverspendingLimit (HomeExamples.homeAt Examples.june10)
             (HomeExamples.limitForm "500") (AuthScreen.createUserProfile "u1" fs) in
  users (AuthScreen.createUserProfile "u1" fs) !! "u1" = None
  /\ HomeScreen.store o = fs
  /\ HomeScreen.events o
     = [HomeScreen.EvRemote (HomeScreen.UpdateLimit "u1" 500);
        HomeScreen.EvConsoleError "Error updating overspending limit:";
        HomeScreen.EvAlert "Error" "Failed to update limit: unavailable"].
Proof.
  cbv zeta.
  destruct (profile_creation_writes_no_document (HomeExamples.homeAt Examples.june10)
              (HomeExamples.limitForm "500") "u1" (HomeExamples.storeOf ∅ [] ∅))
    as [_ H].
  destruct H as (H1 & H2 & _ & H4).
  - reflexivity.
  - reflexivity.
  - vm_compute. reflexivity.
  - split; [exact H1|]. split; [exact H2|]. rewrite H4. vm_compute. reflexivity.
Defined.

(** X26. The overspending check does not depend on the user document being
    there: its test of [exists] never stops it, and without a document the
    limit it reads is the default 1000. It then queries the month's
    expenses and shows the overspending alert exactly when the total it
    computes is at least 1000; nothing is written. *)
Theorem no_user_document_default_limit env amount w uid :
  currentUser env = Some uid ->
  users (db w) !! uid = None ->
  let api := date env in
  let startOfMonth :=
    makeDate api (getFullYear api (now env)) (getMonth api (now env)) 1 0 0 0 in
  let endOfMonth :=
    makeDate api (getFullYear api (now env)) (getMonth api (now env) + 1) 0 23 59 59 in
  let total := totalMonthlySpent (queryExpenses uid startOfMonth endOfMonth (db w)) amount in
  db (checkOverspendingAlert env amount w) = db w
  /\ trace (checkOverspendingAlert env amount w)
     = trace w
       ++ [EvRemote (GetUser uid); EvRemote (QueryExpenses uid startOfMonth endOfMonth)]
       ++ (if (1000 <=? total)%float then [EvAlert (AlertOverspending total 1000)] else [])
  /\ alertsOf (trace (checkOverspendingAlert env amount w))
     = alertsOf (trace w)
       ++ (if (1000 <=? total)%float then [AlertOverspending total 1000] else []).
Proof.
  intros Hu Hn api startOfMonth endOfMonth total.
  pose proof (checkOverspendingAlert_alerts env amount w uid Hu) as Ha.
  cbv zeta in Ha. rewrite Hn in Ha. destruct Ha as [Hd Ha].
  split; [exact Hd|]. split; [|exact Ha].
  unfold checkOverspendingAlert. rewrite Hu.
  unfold Query.notExistsProperty. cbn [emit db]. rewrite Hn.
  fold api. fold startOfMonth. fold endOfMonth. fold total.
  destruct (1000 <=? total)%float; cbn [emit db trace]; rewrite <- ?app_assoc; reflexivity.
Qed.

Lemma no_user_document_witness :
  let env := Examples.deviceAt Examples.june10 (fun _ => true) in
  let w := Examples.store ∅ [Examples.expenseOf 5000 Examples.june5] ∅ in
  db (checkOverspendingAlert env 100 w) = db w
  /\ alertsOf (trace (checkOverspendingAlert env 100 w)) = [AlertOverspending 5100 1000].
Proof.
  cbv zeta.
  destruct (no_user_document_default_limit
              (Examples.deviceAt Examples.june10 (fun _ => true)) 100
              (Examples.store ∅ [Examples.expenseOf 5000 Examples.june5] ∅) "u1")
    as (H1 & _ & H3).
  - reflexivity.
  - reflexivity.
  - split; [exact H1|]. rewrite H3. vm_compute. reflexivity.
Defined.

(** ** Daily keys *)

Section IsoTextFacts.
Import DecimalText.

Lemma allDigits_app a b : allDigits (a +:+ b) = allDigits a && allDigits b.
Proof.
  induction a as [|c a IH]; [reflexivity|].
  change (String c a +:+ b) with (String c (a +:+ b)). cbn [allDigits].
  now rewrite IH, andb_assoc.
Qed.

Lemma allDigits_repeat n : allDigits (Js.repeat_char "0" n) = true.
Proof. induction n as [|n IH]; [reflexivity|exact IH]. Qed.

Lemma allDigits_pad n z : 0 <= z -> allDigits (UtcDate.pad n z) = true.
Proof.
  intros Hz. unfold UtcDate.pad, Js.padStart.
  rewrite allDigits_app, allDigits_repeat, toString_shape.
  replace (z <? 0) with false by (symmetry; apply Z.ltb_ge; lia).
  apply allDigits_uint0.
Qed.

Lemma valueOf_zeros n s :
  IsoText.valueOf (Js.repeat_char "0" n +:+ s) = IsoText.valueOf s.
Proof.
  induction n as [|n IH]; [reflexivity|].
  unfold IsoText.valueOf in *. cbn [Js.repeat_char].
  change (String "0" (Js.repeat_char "0" n) +:+ s)
    with (String "0" (Js.repeat_char "0" n +:+ s)).
  cbn [NilEmpty.uint_of_string]. rewrite <- IH.
  destruct (NilEmpty.uint_of_string (Js.repeat_char "0" n +:+ s)) as [d|]; reflexivity.
Qed.

Lemma valueOf_toString z : 0 <= z -> IsoText.valueOf (Js.toString z) = Some (Z.to_N z).
Proof.
  intros Hz. destruct z as [|p|p]; [reflexivity| |lia].
  unfold IsoText.valueOf, Js.toString, Z.to_int, NilZero.string_of_int, NilZero.string_of_uint.
  pose proof (Unsigned.to_uint_nonnil p) as Hn.
  destruct (Pos.to_uint p) eqn:Ep; try (now destruct Hn);
    rewrite <- Ep, NilEmpty.usu; cbn [option_map]; f_equal;
    apply (DecimalN.Unsigned.of_to (Npos p)).
Qed.

(** Padding with zeros keeps distinct naturals apart, whatever the width. *)
Lemma pad_inj n a b : 0 <= a -> 0 <= b -> UtcDate.pad n a = UtcDate.pad n b -> a = b.
Proof.
  intros Ha Hb E. apply (f_equal IsoText.valueOf) in E.
  unfold UtcDate.pad, Js.padStart in E.
  rewrite !valueOf_zeros, !valueOf_toString in E by assumption.
  injection E as E. lia.
Qed.

(** The part before the first [T] of a text that starts with digits. *)
Lemma before_digits u : forall rest,
  allDigits u = true -> Js.before "T" (u +:+ String "T" rest) = u.
Proof.
  induction u as [|c u IH]; intros rest H; [reflexivity|].
  change (String c u +:+ String "T" rest) with (String c (u +:+ String "T" rest)).
  cbn [allDigits Js.before] in *. apply andb_true_iff in H as [Hc H].
  destruct (Ascii.eqb_spec c "T") as [->|_]; [discriminate Hc|]. now rewrite IH.
Qed.

Lemma before_dash u : forall v,
  allDigits u = true ->
  Js.before "T" (u +:+ String "-" v) = u +:+ String "-" (Js.before "T" v).
Proof.
  induction u as [|c u IH]; intros v H; [reflexivity|].
  change (String c u +:+ String "-" v) with (String c (u +:+ String "-" v)).
  change (String c u +:+ String "-" (Js.before "T" v))
    with (String c (u +:+ String "-" (Js.before "T" v))).
  cbn [allDigits Js.before] in *. apply andb_true_iff in H as [Hc H].
  destruct (Ascii.eqb_spec c "T") as [->|_]; [discriminate Hc|]. now rewrite IH.
Qed.

End IsoTextFacts.

Lemma dayOfMonth_range t : 1 <= UtcDate.dayOfMonth t <= 31.
Proof.
  pose proof (civil_month_bracket (t / UtcDate.msPerDay)) as H. unfold UtcDate.dayOfMonth.
  destruct (UtcDate.civil_from_days (t / UtcDate.msPerDay)) as [[y m] d]. cbn [snd]. tauto.
Qed.

Lemma daily_key_text api t :
  toISOString api = UtcDate.iso ->
  0 <= UtcDate.fullYear t <= 9999 ->
  getCurrentPeriod api "daily" t
  = UtcDate.pad 4 (UtcDate.fullYear t) +:+ "-" +:+ UtcDate.pad 2 (UtcDate.month t + 1)
    +:+ "-" +:+ UtcDate.pad 2 (UtcDate.dayOfMonth t).
Proof.
  intros Hiso Hy. unfold getCurrentPeriod. cbn [String.eqb Ascii.eqb Bool.eqb].
  rewrite Hiso. unfold UtcDate.iso, UtcDate.isoYear.
  replace ((0 <=? UtcDate.fullYear t) && (UtcDate.fullYear t <=? 9999)) with true
    by (symmetry; apply andb_true_iff; split; apply Z.leb_le; lia).
  destruct (monthIndex_bracket t) as [Hm _]. pose proof (dayOfMonth_range t) as Hd.
  repeat change ("-" +:+ ?x) with (String "-" x).
  change ("T" +:+ ?x) with (String "T" x).
  rewrite before_dash by (apply allDigits_pad; lia).
  rewrite before_dash by (apply allDigits_pad; lia).
  rewrite before_digits by (apply allDigits_pad; lia).
  reflexivity.
Qed.

(** X27. The daily key is the UTC date, on every device: [toISOString] is
    in UTC whatever the device's time zone, so for years 0..9999 the daily
    key of an instant is its UTC year, month and day as YYYY-MM-DD, and two
    instants have the same daily key exactly when they fall on the same UTC
    day. The weekly and monthly keys follow the device's local calendar; on
    a device at UTC+8 a daily budget therefore rolls over at 8 in the
    morning, local time. *)
Theorem daily_key_is_the_utc_date api t1 t2 :
  toISOString api = UtcDate.iso ->
  0 <= UtcDate.fullYear t1 <= 9999 ->
  0 <= UtcDate.fullYear t2 <= 9999 ->
  getCurrentPeriod api "daily" t1
  = UtcDate.pad 4 (UtcDate.fullYear t1) +:+ "-" +:+ UtcDate.pad 2 (UtcDate.month t1 + 1)
    +:+ "-" +:+ UtcDate.pad 2 (UtcDate.dayOfMonth t1)
  /\ (getCurrentPeriod api "daily" t1 = getCurrentPeriod api "daily" t2
      <-> UtcDate.fullYear t1 = UtcDate.fullYear t2
          /\ UtcDate.month t1 = UtcDate.month t2
          /\ UtcDate.dayOfMonth t1 = UtcDate.dayOfMonth t2).
Proof.
  intros Hiso H1 H2. split; [now apply daily_key_text|].
  rewrite (daily_key_text api t1 Hiso H1), (daily_key_text api t2 Hiso H2).
  destruct (monthIndex_bracket t1) as [Hm1 _], (monthIndex_bracket t2) as [Hm2 _].
  pose proof (dayOfMonth_range t1) as Hd1. pose proof (dayOfMonth_range t2) as Hd2.
  split.
  - repeat change ("-" +:+ ?x) with (String "-" x). intros E.
    apply digits_dash_split in E as [Ey E]; try (apply allDigits_pad; lia).
    apply digits_dash_split in E as [Em Ed]; try (apply allDigits_pad; lia).
    apply pad_inj in Ey; [|lia|lia]. apply pad_inj in Em; [|lia|lia].
    apply pad_inj in Ed; [|lia|lia]. lia.
  - intros (-> & -> & ->). reflexivity.
Qed.

Lemma daily_key_witness :
  let t1 := UtcDate.make 2024 5 10 23 30 0 in
  let t2 := UtcDate.make 2024 5 10 1 0 0 in
  (getCurrentPeriod LocalDate.malaysia "daily" t1
   = UtcDate.pad 4 (UtcDate.fullYear t1) +:+ "-" +:+ UtcDate.pad 2 (UtcDate.month t1 + 1)
     +:+ "-" +:+ UtcDate.pad 2 (UtcDate.dayOfMonth t1)
   /\ (getCurrentPeriod LocalDate.malaysia "daily" t1
       = getCurrentPeriod LocalDate.malaysia "daily" t2
       <-> UtcDate.fullYear t1 = UtcDate.fullYear t2
           /\ UtcDate.month t1 = UtcDate.month t2
           /\ UtcDate.dayOfMonth t1 = UtcDate.dayOfMonth t2))
  /\ getCurrentPeriod LocalDate.malaysia "daily" t1 = "2024-06-10"
  /\ getCurrentPeriod LocalDate.malaysia "daily" t2 = "2024-06-10"
  /\ getDay LocalDate.malaysia t1 = 2
  /\ getDay LocalDate.malaysia t2 = 1.
Proof.
  cbv zeta. split.
  - apply (daily_key_is_the_utc_date LocalDate.malaysia
             (UtcDate.make 2024 5 10 23 30 0) (UtcDate.make 2024 5 10 1 0 0)).
    + reflexivity.
    + vm_compute. split; discriminate.
    + vm_compute. split; discriminate.
  - repeat split; vm_compute; reflexivity.
Defined.
